(** * fmriprep field-map entry point and utility workflow: a shallow embedding

    The development follows the two source files of the repository:

    - [fmriprep/workflows/util.py]: [init_enhance_and_skullstrip_epi_wf];
    - [fmriprep/main/fmaps.py]: [create_workflow], [fmap_enumerator] and
      [sbref_correct].

    Python strings are [string], Python integers are [Z], dictionaries are
    [gmap]s, and the objects of the workflow engine that the code mutates in
    place (the configuration dictionaries) live in an explicit store. *)

From Stdlib Require Import ZArith QArith Ascii String List Lia.
From stdpp Require Import base option list gmap strings.

Set Warnings "-register-all".

Open Scope string_scope.
Open Scope Z_scope.
Open Scope list_scope.

(** ** Strings and POSIX paths *)

Module Path.

Definition sep : ascii := "/"%char.

(** [s.startswith(p)] *)
Fixpoint startswith (p s : string) : bool :=
  match p, s with
  | EmptyString, _ => true
  | String a p', String b s' => if Ascii.eqb a b then startswith p' s' else false
  | String _ _, EmptyString => false
  end.

(** [s.endswith('/')] *)
Fixpoint endswith_sep (s : string) : bool :=
  match s with
  | EmptyString => false
  | String c EmptyString => Ascii.eqb c sep
  | String _ r => endswith_sep r
  end.

(** ['/' in s] *)
Fixpoint has_sep (s : string) : bool :=
  match s with
  | EmptyString => false
  | String c r => if Ascii.eqb c sep then true else has_sep r
  end.

(** The slice [s[n:]]. *)
Fixpoint drop_chars (n : nat) (s : string) : string :=
  match n, s with
  | O, _ => s
  | S _, EmptyString => EmptyString
  | S n', String _ r => drop_chars n' r
  end.

(** One step of the loop of [posixpath.join]. *)
Definition join2 (path b : string) : string :=
  if startswith "/" b then b
  else if orb (String.eqb path "") (endswith_sep path) then path +:+ b
  else path +:+ "/" +:+ b.

(** [os.path.join(a, *p)] *)
Definition join (a : string) (p : list string) : string :=
  fold_left join2 p a.

(** [os.path.basename(p)]: what follows the last separator. *)
Fixpoint basename (p : string) : string :=
  match p with
  | EmptyString => EmptyString
  | String c r =>
      if has_sep r then basename r
      else if Ascii.eqb c sep then r else p
  end.

(** [sepstr.join(l)] *)
Fixpoint str_join (sepstr : string) (l : list string) : string :=
  match l with
  | [] => ""
  | [x] => x
  | x :: r => x +:+ sepstr +:+ str_join sepstr r
  end.

End Path.

(** ** The objects of the workflow engine

    Only what the two source files read or write is modelled: a node has a
    name, an interface and a [config] attribute; a workflow has a name, a
    [base_dir], a [config] attribute and a graph of nodes and nested
    workflows with labelled edges.  Objects are told apart by identity, as in
    Python: every engine object and every configuration dictionary occupies
    a cell of the store, and its position there is its identity.  The
    engine's own validation of a graph is not part of the repository and is
    left out. *)

Module Engine.

(** Positions in the store. *)
Abbreviation loc := nat.

(** Values stored in configuration and plugin dictionaries. *)
Inductive pyval :=
| PNone
| PBool (b : bool)
| PInt (z : Z)
| PNum (q : Q)
| PStr (s : string)
| PDict (d : gmap string pyval).

(** The engine configuration: the two sections the code touches. *)
Record config := mkConfig {
  logging : gmap string pyval;
  execution : gmap string pyval
}.

(** A cell holds an engine object (only its identity matters: its
    attributes are kept in the graph) or a configuration dictionary. *)
Inductive cell :=
| CObj
| CConfig (c : config).

Abbreviation store := (list cell).

Definition read_config (st : store) (l : loc) : option config :=
  match st !! l with
  | Some (CConfig c) => Some c
  | _ => None
  end.

(** [copy.deepcopy(d)] for the dictionary at [l]: a new cell with the same
    contents. *)
Definition deepcopy (st : store) (l : loc) : option (loc * store) :=
  c ← read_config st l;
  Some (length st, st ++ [CConfig c]).

(** [d['execution'][key] = v] for the dictionary at [l]. *)
Definition set_execution (st : store) (l : loc) (key : string) (v : pyval)
  : option store :=
  c ← read_config st l;
  Some (<[l := CConfig (mkConfig (logging c) (<[key := v]> (execution c)))]> st).

(** The output port of an edge: a field, possibly passed through a named
    function, as in [(('sbref', _first), 'in_file')]. *)
Inductive port :=
| Field (f : string)
| FieldVia (f : string) (fn : string).

Record edge := mkEdge {
  e_src : string; e_out : port; e_dst : string; e_in : string
}.

Inductive graph_item (I : Type) :=
| GNode (id : loc) (name : string) (iface : I) (cfg : option loc)
| GWorkflow (id : loc) (name : string) (base_dir : option string) (cfg : loc)
            (items : list (graph_item I)) (edges : list edge).
Arguments GNode {I} id name iface cfg.
Arguments GWorkflow {I} id name base_dir cfg items edges.

Definition item_id {I} (it : graph_item I) : loc :=
  match it with
  | GNode i _ _ _ => i
  | GWorkflow i _ _ _ _ _ => i
  end.

Definition item_name {I} (it : graph_item I) : string :=
  match it with
  | GNode _ n _ _ => n
  | GWorkflow _ n _ _ _ _ => n
  end.

Definition wf_items {I} (w : graph_item I) : list (graph_item I) :=
  match w with
  | GNode _ _ _ _ => []
  | GWorkflow _ _ _ _ its _ => its
  end.

Definition wf_edges {I} (w : graph_item I) : list edge :=
  match w with
  | GNode _ _ _ _ => []
  | GWorkflow _ _ _ _ _ es => es
  end.

(** The [config] attribute: [None] on a node until it is assigned. *)
Definition item_config {I} (w : graph_item I) : option loc :=
  match w with
  | GNode _ _ _ c => c
  | GWorkflow _ _ _ c _ _ => Some c
  end.

Definition wf_base_dir {I} (w : graph_item I) : option string :=
  match w with
  | GNode _ _ _ _ => None
  | GWorkflow _ _ b _ _ _ => b
  end.

(** [w.base_dir = d] *)
Definition set_base_dir {I} (d : string) (w : graph_item I) : graph_item I :=
  match w with
  | GNode _ _ _ _ => w
  | GWorkflow i n _ c its es => GWorkflow i n (Some d) c its es
  end.

Definition has_item {I} (i : loc) (its : list (graph_item I)) : bool :=
  existsb (fun it => Nat.eqb (item_id it) i) its.

(** The objects of [new] that are not in the graph yet join it, in order. *)
Definition add_new {I} (new its : list (graph_item I)) : list (graph_item I) :=
  fold_left (fun acc it =>
    if has_item (item_id it) acc then acc else acc ++ [it]) new its.

Definition has_name {I} (n : string) (its : list (graph_item I)) : bool :=
  existsb (fun it => String.eqb (item_name it) n) its.

(** The checks of [add_nodes]: the engine refuses an object that is in
    the graph already, and an object whose name an item of the graph
    bears ("Duplicate node name"). *)
Fixpoint add_checked {I} (new its : list (graph_item I))
  : option (list (graph_item I)) :=
  match new with
  | [] => Some its
  | it :: rest =>
      if has_item (item_id it) its || has_name (item_name it) its then None
      else add_checked rest (its ++ [it])
  end.

(** [workflow.add_nodes(new)]; [None] stands for the [IOError] the engine
    raises when it refuses.  (Its search for shared objects inside nested
    workflows is left out: it can only refuse more.) *)
Definition add_nodes {I} (new : list (graph_item I)) (w : graph_item I)
  : option (graph_item I) :=
  match w with
  | GNode _ _ _ _ => None
  | GWorkflow i n b c its es =>
      its' ← add_checked new its; Some (GWorkflow i n b c its' es)
  end.

Definition connection (I : Type) : Type :=
  graph_item I * graph_item I * list (port * string).

Definition connection_items {I} (cs : list (connection I)) : list (graph_item I) :=
  flat_map (fun c => match c with (s, d, _) => [s; d] end) cs.

Definition connection_edges {I} (cs : list (connection I)) : list edge :=
  flat_map (fun c => match c with
     | (s, d, l) =>
         map (fun pf => mkEdge (item_name s) (fst pf) (item_name d) (snd pf)) l
     end) cs.

(** [workflow.connect(cs)]: source and destination of every connection join
    the graph, in order of first appearance, then the edges are recorded.
    (The objects a caller connects are taken to bear different names, as
    the engine requires of them.) *)
Definition connect {I} (cs : list (connection I)) (w : graph_item I)
  : graph_item I :=
  match w with
  | GNode _ _ _ _ => w
  | GWorkflow i n b c its es =>
      GWorkflow i n b c (add_new (connection_items cs) its)
                (es ++ connection_edges cs)
  end.

(** [workflow._get_all_nodes()]: the nodes of the graph, those of nested
    workflows included, in graph order. *)
Fixpoint get_all_nodes {I} (w : graph_item I) : list (graph_item I) :=
  match w with
  | GNode _ _ _ _ => [w]
  | GWorkflow _ _ _ _ its _ => flat_map get_all_nodes its
  end.

(** [for node in w._get_all_nodes(): node.config = deepcopy(<dict at src>)] *)
Fixpoint set_node_configs {I} (src : loc) (w : graph_item I) (st : store)
  : option (graph_item I * store) :=
  match w with
  | GNode i n f _ =>
      '(l, st') ← deepcopy st src;
      Some (GNode i n f (Some l), st')
  | GWorkflow i n b c its es =>
      '(its', st') ←
        (fix go (its : list (graph_item I)) (st : store) :=
           match its with
           | [] => Some ([], st)
           | x :: r =>
               '(x', st1) ← set_node_configs src x st;
               '(r', st2) ← go r st1;
               Some (x' :: r', st2)
           end) its st;
      Some (GWorkflow i n b c its' es, st')
  end.

(** *** Construction of engine objects

    A workflow-construction function only allocates: given the engine's
    current configuration and the next free position of the store it returns
    its result and the cells it has created. *)
Definition Build (A : Type) : Type := config -> loc -> A * list cell.

Definition bret {A} (a : A) : Build A := fun _ _ => (a, []).

Definition bbind {A B} (m : Build A) (f : A -> Build B) : Build B :=
  fun g n =>
    let '(a, l1) := m g n in
    let '(b, l2) := f a g (n + length l1)%nat in
    (b, l1 ++ l2).

(** Running a construction on a store. *)
Definition build {A} (m : Build A) (g : config) (st : store) : A * store :=
  let '(a, l) := m g (length st) in (a, st ++ l).

(** [pe.Node(iface, name=name)] *)
Definition Node {I} (iface : I) (name : string) : Build (graph_item I) :=
  fun _ n => (GNode n name iface None, [CObj]).

(** [pe.Workflow(name=name)]: the new workflow owns a copy of the engine's
    configuration. *)
Definition Workflow {I} (name : string) : Build (graph_item I) :=
  fun g n => (GWorkflow n name None (S n) [] [], [CObj; CConfig g]).

End Engine.

Declare Scope build_scope.
Delimit Scope build_scope with build.
Notation "x <- m ;; k" := (Engine.bbind m (fun x => k))
  (at level 100, m at next level, right associativity) : build_scope.

(** ** [fmriprep/workflows/util.py] *)

Module Util.
Import Engine.

(** The interfaces instantiated by the file, with their arguments. *)
Inductive interface :=
| IdentityInterface (fields : list string)
| N4BiasFieldCorrection (dimension : Z) (copy_header : bool)
| BET (frac : Q) (mask : bool)
| Unifize (t2 : bool) (outputtype args out_file : string)
| Automask (dilate : Z) (outputtype : string)
| BinaryMaths (operation : string)
| ApplyMask
| SimpleShowMaskRPT.

Definition init_enhance_and_skullstrip_epi_wf (name : string)
  : Build (graph_item interface) :=
  (workflow <- Workflow name ;;
   inputnode <- Node (IdentityInterface ["in_file"]) "inputnode" ;;
   outputnode <- Node (IdentityInterface ["mask_file"; "skull_stripped_file";
                                          "bias_corrected_file"; "out_report"])
                      "outputnode" ;;
   n4_correct <- Node (N4BiasFieldCorrection 3 true) "n4_correct" ;;
   skullstrip_first_pass <- Node (BET (2 # 10) true) "skullstrip_first_pass" ;;
   unifize <- Node (Unifize true "NIFTI_GZ" "-clfrac 0.4" "uni.nii.gz")
                   "unifize" ;;
   skullstrip_second_pass <- Node (Automask 1 "NIFTI_GZ")
                                  "skullstrip_second_pass" ;;
   combine_masks <- Node (BinaryMaths "mul") "combine_masks" ;;
   apply_mask <- Node ApplyMask "apply_mask" ;;
   mask_reportlet <- Node SimpleShowMaskRPT "mask_reportlet" ;;
   bret (connect [
     (inputnode, n4_correct, [(Field "in_file", "input_image")]);
     (n4_correct, skullstrip_first_pass, [(Field "output_image", "in_file")]);
     (skullstrip_first_pass, unifize, [(Field "out_file", "in_file")]);
     (unifize, skullstrip_second_pass, [(Field "out_file", "in_file")]);
     (skullstrip_first_pass, combine_masks, [(Field "mask_file", "in_file")]);
     (skullstrip_second_pass, combine_masks, [(Field "out_file", "operand_file")]);
     (unifize, apply_mask, [(Field "out_file", "in_file")]);
     (combine_masks, apply_mask, [(Field "out_file", "mask_file")]);
     (n4_correct, mask_reportlet, [(Field "output_image", "background_file")]);
     (combine_masks, mask_reportlet, [(Field "out_file", "mask_file")]);
     (combine_masks, outputnode, [(Field "out_file", "mask_file")]);
     (mask_reportlet, outputnode, [(Field "out_report", "out_report")]);
     (apply_mask, outputnode, [(Field "out_file", "skull_stripped_file")]);
     (n4_correct, outputnode, [(Field "output_image", "bias_corrected_file")])
   ] workflow))%build.

(** What a call declares: the name and interface of every node of the
    graph, in graph order, and the edges. *)
Definition node_decl (it : graph_item interface) : option (string * interface) :=
  match it with
  | GNode _ n f _ => Some (n, f)
  | GWorkflow _ _ _ _ _ _ => None
  end.

Definition declared_nodes (w : graph_item interface)
  : list (option (string * interface)) :=
  map node_decl (wf_items w).

(** The nodes and the edges of the graph as the source lists them: the
    nodes in the order in which the connections first name them. *)
Definition epi_nodes : list (option (string * interface)) :=
  [ Some ("inputnode", IdentityInterface ["in_file"]);
    Some ("n4_correct", N4BiasFieldCorrection 3 true);
    Some ("skullstrip_first_pass", BET (2 # 10) true);
    Some ("unifize", Unifize true "NIFTI_GZ" "-clfrac 0.4" "uni.nii.gz");
    Some ("skullstrip_second_pass", Automask 1 "NIFTI_GZ");
    Some ("combine_masks", BinaryMaths "mul");
    Some ("apply_mask", ApplyMask);
    Some ("mask_reportlet", SimpleShowMaskRPT);
    Some ("outputnode",
          IdentityInterface ["mask_file"; "skull_stripped_file";
                             "bias_corrected_file"; "out_report"]) ].

Definition epi_edges : list edge :=
  [ mkEdge "inputnode" (Field "in_file") "n4_correct" "input_image";
    mkEdge "n4_correct" (Field "output_image")
           "skullstrip_first_pass" "in_file";
    mkEdge "skullstrip_first_pass" (Field "out_file") "unifize" "in_file";
    mkEdge "unifize" (Field "out_file") "skullstrip_second_pass" "in_file";
    mkEdge "skullstrip_first_pass" (Field "mask_file")
           "combine_masks" "in_file";
    mkEdge "skullstrip_second_pass" (Field "out_file")
           "combine_masks" "operand_file";
    mkEdge "unifize" (Field "out_file") "apply_mask" "in_file";
    mkEdge "combine_masks" (Field "out_file") "apply_mask" "mask_file";
    mkEdge "n4_correct" (Field "output_image")
           "mask_reportlet" "background_file";
    mkEdge "combine_masks" (Field "out_file") "mask_reportlet" "mask_file";
    mkEdge "combine_masks" (Field "out_file") "outputnode" "mask_file";
    mkEdge "mask_reportlet" (Field "out_report") "outputnode" "out_report";
    mkEdge "apply_mask" (Field "out_file") "outputnode" "skull_stripped_file";
    mkEdge "n4_correct" (Field "output_image")
           "outputnode" "bias_corrected_file" ].

(** The two [IdentityInterface] nodes only pass fields along; every other
    interface of the file wraps an image-processing or reporting tool. *)
Definition is_identity (f : interface) : bool :=
  match f with
  | IdentityInterface _ => true
  | _ => false
  end.

Definition is_report (f : interface) : bool :=
  match f with
  | SimpleShowMaskRPT => true
  | _ => false
  end.

Definition count_nodes (p : interface -> bool) (w : graph_item interface) : nat :=
  length (List.filter (fun d => match d with
                                | Some (_, f) => p f
                                | None => false
                                end) (declared_nodes w)).

End Util.

(** ** [fmriprep/main/fmaps.py] *)

Module Fmaps.
Import Engine.

(** *** The operating system *)

(** An entry of a directory listing.  A file name holds no separator. *)
Record dirent := mkDirent {
  d_name : string;
  d_is_dir : bool;
  d_name_ok : Path.has_sep d_name = false
}.

(** Broken-down local time, as [time.strftime] reads it. *)
Record tm := mkTm {
  tm_year : nat; tm_mon : nat; tm_mday : nat;
  tm_hour : nat; tm_min : nat; tm_sec : nat
}.

Definition digit (n : nat) : ascii := ascii_of_nat (48 + n mod 10).

(** Decimal digits of [n], most significant first, prepended to [acc]. *)
Fixpoint decimal_aux (fuel n : nat) (acc : string) : string :=
  match fuel with
  | O => acc
  | S fuel' =>
      let acc' := String (digit n) acc in
      if (n <? 10)%nat then acc' else decimal_aux fuel' (n / 10) acc'
  end.

Definition decimal (n : nat) : string := decimal_aux (S n) n "".

(** Two digits at least, zero-padded: [%m], [%d], [%H], [%M], [%S]. *)
Definition decimal2 (n : nat) : string :=
  if (n <? 10)%nat then String "0" (decimal n) else decimal n.

(** [strftime('%Y%m%d-%H%M%S')] *)
Definition strftime (t : tm) : string :=
  decimal (tm_year t) +:+ decimal2 (tm_mon t) +:+ decimal2 (tm_mday t) +:+ "-"
  +:+ decimal2 (tm_hour t) +:+ decimal2 (tm_min t) +:+ decimal2 (tm_sec t).

(** Exceptions, as far as [except RuntimeError] tells them apart. *)
Inductive exn :=
| RuntimeError
| RuntimeErrorSubclass (name : string)
| OtherException (name : string).

Definition is_RuntimeError (e : exn) : bool :=
  match e with
  | RuntimeError | RuntimeErrorSubclass _ => true
  | OtherException _ => false
  end.

(** How a call of [create_workflow] ends: [sys.exit(code)], or an exception
    that nothing catches. *)
Inductive outcome :=
| Exited (code : Z)
| Raised (e : exn).

(** The [IOError] of the engine (in Python 3 a name of [OSError]), the
    [OverflowError] of a division, and [KeyError]. *)
Definition IOError : exn := OtherException "IOError".
Definition OverflowError : exn := OtherException "OverflowError".
Definition KeyError : exn := OtherException "KeyError".

(** A computation that returns or raises. *)
Inductive tried (A : Type) :=
| Returns (a : A)
| Raises (e : exn).
Arguments Returns {A} a.
Arguments Raises {A} e.

Definition tbind {A B} (m : tried A) (f : A -> tried B) : tried B :=
  match m with
  | Returns a => f a
  | Raises e => Raises e
  end.

(** An engine call that refuses raises [e]. *)
Definition or_raise {A} (e : exn) (o : option A) : tried A :=
  match o with
  | Some a => Returns a
  | None => Raises e
  end.

(** *** Options and settings *)

(** The namespace built by [main]'s parser. *)
Record options := mkOptions {
  bids_dir : string;
  opt_output_dir : string;
  participant_label : option (list string);
  opt_nthreads : Z;
  opt_mem_mb : Z;
  opt_write_graph : bool;
  use_plugin : option string;
  opt_work_dir : string;
  opt_ants_nthreads : Z
}.

(** The [settings] dictionary: its seven keys. *)
Record settings := mkSettings {
  bids_root : string;
  write_graph : bool;
  nthreads : Z;
  mem_mb : Z;
  ants_nthreads : Z;
  output_dir : string;
  work_dir : string
}.

(** [settings['nthreads'] = v] *)
Definition set_nthreads (v : Z) (s : settings) : settings :=
  mkSettings (bids_root s) (write_graph s) v (mem_mb s) (ants_nthreads s)
             (output_dir s) (work_dir s).

(** [settings['ants_nthreads'] = v] *)
Definition set_ants_nthreads (v : Z) (s : settings) : settings :=
  mkSettings (bids_root s) (write_graph s) (nthreads s) (mem_mb s) v
             (output_dir s) (work_dir s).

(** *** The graph built per subject *)

(** The interfaces [sbref_correct] instantiates; [OtherInterface] stands for
    those of the nested workflows. *)
Inductive interface (SD : Type) :=
| BIDSDataGrabber (subject_data : SD)
| ReadSidecarJSON
| IntraModalMerge
| BET (frac : Q) (mask : bool)
| OtherInterface (name : string).
Arguments BIDSDataGrabber {SD} subject_data.
Arguments ReadSidecarJSON {SD}.
Arguments IntraModalMerge {SD}.
Arguments BET {SD} frac mask.
Arguments OtherInterface {SD} name.

Abbreviation workflow SD := (graph_item (interface SD)).

(** *** True division by 1024

    [settings['mem_mb']/1024] is true division (the file imports
    [division] from [__future__]): the float nearest to the quotient, ties
    to even, and [OverflowError] beyond the range of floats.  A float is
    given by its exact value. *)

(** [a / 2^sh] rounded to the nearest integer, ties to even, for [0 <= a]
    and [0 < sh]. *)
Definition round_half_even (a sh : Z) : Z :=
  let q := a / 2 ^ sh in
  let r := a mod 2 ^ sh in
  let half := 2 ^ (sh - 1) in
  if (half <? r) || ((r =? half) && Z.odd q) then q + 1 else q.

(** [a] rounded to 53 significant bits. *)
Definition round53 (a : Z) : Z :=
  let m := Z.abs a in
  let n := Z.log2 m + 1 in
  if n <=? 53 then a
  else Z.sgn a * (round_half_even m (n - 53) * 2 ^ (n - 53)).

(** [a / 1024]: the quotient by a power of two only moves the exponent of
    the rounded numerator; floats end below [2^1024]. *)
Definition true_divide_1024 (a : Z) : option Q :=
  let r := round53 a in
  if Z.abs r <? 2 ^ 1034 then Some (r # 1024) else None.

(** *** The world around a call *)

(** What the call does to its surroundings, in order. *)
Inductive event :=
| EvMakeFolder (path : string)
| EvUpdateConfig
| EvLoadYaml (file : string)
| EvCpuCount
| EvGlob (pattern : string)
| EvLog (msg : string)
| EvRun (plugin_settings : pyval)
| EvWriteGraph
| EvExit (code : Z).

Record world := mkWorld {
  fs : list string;          (* the directories that exist *)
  ncfg : config;             (* the engine's configuration *)
  objects : store;           (* engine objects and configuration dictionaries *)
  trace : list event
}.

Definition emit (e : event) (w : world) : world :=
  mkWorld (fs w) (ncfg w) (objects w) (trace w ++ [e]).

Definition set_objects (st : store) (w : world) : world :=
  mkWorld (fs w) (ncfg w) st (trace w).

(** What the code obtains from outside: the operating system, the YAML
    loader, the engine's [run], and the functions of the package whose
    source is not part of the two files.  The calls to the operating
    system, to the loader and to those functions are taken to return
    normally. *)
Record Env (SD : Type) := mkEnv {
  abspath : string -> string;
  cpu_count : Z;
  (* the directory listing [glob] works from *)
  listdir : string -> list dirent;
  (* [glob.glob] on a pattern whose directory part holds [*], [?] or [[] *)
  glob_magic : string -> list string;
  (* the clock at the k-th call of [strftime] *)
  localtime : nat -> tm;
  (* [yaml.load] on the contents of a file *)
  loadyml : string -> pyval;
  (* [preproc_wf.run] on the plugin settings: the exception raised, if any *)
  run : workflow SD -> pyval -> world -> option exn;
  (* [fmriprep.utils.misc.collect_bids_data] *)
  collect_bids_data : string -> string -> SD;
  (* [fmriprep.workflows.fieldmap.fmap_estimator] *)
  fmap_estimator : SD -> settings -> Build (workflow SD);
  (* [fmriprep.workflows.fieldmap.sdc_unwarp] *)
  sdc_unwarp : settings -> Build (workflow SD)
}.
Arguments abspath {SD} _ _.
Arguments cpu_count {SD} _.
Arguments listdir {SD} _ _.
Arguments glob_magic {SD} _ _.
Arguments localtime {SD} _ _.
Arguments loadyml {SD} _ _.
Arguments run {SD} _ _ _ _.
Arguments collect_bids_data {SD} _ _ _.
Arguments fmap_estimator {SD} _ _ _.
Arguments sdc_unwarp {SD} _ _.

(** Modelled from the spec: [fmriprep.utils.make_folder], whose source is not
    among the two files.  The directory is created when it does not exist;
    when it exists nothing changes and the call does not fail. *)
Definition make_folder (path : string) (w : world) : world :=
  emit (EvMakeFolder path)
    (if existsb (String.eqb path) (fs w) then w
     else mkWorld (fs w ++ [path]) (ncfg w) (objects w) (trace w)).

(** [ncfg.update_config(d)]: the options of [d] override, section by
    section. *)
Definition update_config (d : config) (w : world) : world :=
  emit EvUpdateConfig
    (mkWorld (fs w)
       (mkConfig (logging d ∪ logging (ncfg w))
                 (execution d ∪ execution (ncfg w)))
       (objects w) (trace w)).

(** [fnmatch(name, 'sub-*')] *)
Definition matches_sub (name : string) : bool := Path.startswith "sub-" name.

(** [glob.has_magic(s)]: one of [*], [?], [[] occurs in [s]. *)
Fixpoint has_magic (s : string) : bool :=
  match s with
  | EmptyString => false
  | String c r =>
      Ascii.eqb c "*" || Ascii.eqb c "?" || Ascii.eqb c "[" || has_magic r
  end.

(** [glob.glob(op.join(root, 'sub-*'))].  A root read literally gives its
    entries whose name matches, joined to it, in listing order; a root with
    a wildcard of its own is expanded by [glob] first. *)
Definition glob_sub {SD} (E : Env SD) (root : string) : list string :=
  if has_magic root then glob_magic E (Path.join root ["sub-*"])
  else map (fun d => Path.join root [d_name d])
           (List.filter (fun d => matches_sub (d_name d)) (listdir E root)).

(** *** [sbref_correct] *)

(** The values that flow along an edge: a list, a tuple, or anything
    else. *)
Inductive pyobj :=
| OList (l : list pyobj)
| OTuple (l : list pyobj)
| OAtom (v : Engine.pyval).

(** The local function [_first]; [None] stands for the [IndexError] of
    [inlist[0]] on an empty sequence. *)
Definition _first (inlist : pyobj) : option pyobj :=
  match inlist with
  | OList l | OTuple l => l !! 0%nat
  | OAtom _ => Some inlist
  end.

Definition sbref_correct {SD} (E : Env SD) (subject_data : SD) (st : settings)
  : Build (workflow SD) :=
  (bidssrc <- Node (BIDSDataGrabber subject_data) "BIDSDatasource" ;;
   meta <- Node ReadSidecarJSON "metadata" ;;
   conform <- Node IntraModalMerge "MergeSBRefs" ;;
   bet <- Node (BET (4 # 10) true) "Mask" ;;
   wf <- Workflow "sbref_correct" ;;
   estimator <- fmap_estimator E subject_data st ;;
   sdc <- sdc_unwarp E st ;;
   bret (connect [
     (bidssrc, meta, [(FieldVia "sbref" "_first", "in_file")]);
     (bidssrc, conform, [(Field "sbref", "in_files")]);
     (estimator, sdc,
        [(FieldVia "outputnode.fmap" "_first", "inputnode.fmap");
         (FieldVia "outputnode.fmap_ref" "_first", "inputnode.fmap_ref");
         (FieldVia "outputnode.fmap_mask" "_first", "inputnode.fmap_mask")]);
     (meta, sdc, [(Field "out_dict", "inputnode.in_meta")]);
     (bidssrc, sdc, [(Field "sbref", "inputnode.in_files")]);
     (conform, sdc, [(Field "out_file", "inputnode.in_reference")]);
     (conform, bet, [(Field "out_file", "in_file")]);
     (bet, sdc, [(Field "mask_file", "inputnode.in_mask")])
   ] wf))%build.

(** *** [fmap_enumerator] *)

(** The crash-dump directory of a subject's graph. *)
Definition crashdump_dir (st : settings) (subject_id cur_time : string) : string :=
  Path.join (output_dir st) ["log"; subject_id; cur_time].

(** The body of the loop, for the [k]-th subject.  The engine raises
    [IOError] when it refuses the graph; a [config] attribute that names no
    dictionary would be a [KeyError]. *)
Definition enumerate_subject {SD} (E : Env SD) (st : settings) (g : config)
    (k : nat) (subject_id : string) (wf : workflow SD) (o : store)
  : tried (workflow SD * store) :=
  let subject_data := collect_bids_data E (bids_root st) subject_id in
  let '(fmap_wf, o) := build (sbref_correct E subject_data st) g o in
  let cur_time := strftime (localtime E k) in
  tbind (or_raise KeyError (item_config fmap_wf)) (fun c =>
  tbind (or_raise KeyError
           (set_execution o c "crashdump_dir"
              (PStr (crashdump_dir st subject_id cur_time)))) (fun o =>
  tbind (or_raise KeyError (set_node_configs c fmap_wf o)) (fun '(fmap_wf, o) =>
  tbind (or_raise IOError (add_nodes [fmap_wf] wf)) (fun wf =>
  Returns (wf, o))))).

Fixpoint enumerate {SD} (E : Env SD) (st : settings) (g : config)
    (k : nat) (subject_list : list string) (wf : workflow SD) (o : store)
  : tried (workflow SD * store) :=
  match subject_list with
  | [] => Returns (wf, o)
  | subject_id :: rest =>
      tbind (enumerate_subject E st g k subject_id wf o) (fun '(wf, o) =>
      enumerate E st g (S k) rest wf o)
  end.

Definition fmap_enumerator {SD} (E : Env SD) (subject_list : list string)
    (st : settings) (g : config) (o : store)
  : tried (workflow SD * store) :=
  let '(wf, o) := build (Workflow "workflow_enumerator") g o in
  enumerate E st g 0 subject_list wf o.

(** *** [create_workflow] *)

(** What a call leaves: the settings, the world, how the call ended, and
    what it had determined by then ([None] for what it did not get to). *)
Record result (SD : Type) := mkResult {
  r_settings : settings;
  r_plugin_settings : option pyval;
  r_subject_list : option (list string);
  r_workflow : option (workflow SD);   (* [preproc_wf], as handed to [run] *)
  r_world : world;
  r_raised : option exn;               (* what [run] raised, if anything *)
  r_outcome : outcome
}.
Arguments mkResult {SD} _ _ _ _ _ _ _.
Arguments r_settings {SD} _.
Arguments r_plugin_settings {SD} _.
Arguments r_subject_list {SD} _.
Arguments r_workflow {SD} _.
Arguments r_world {SD} _.
Arguments r_raised {SD} _.
Arguments r_outcome {SD} _.

(** The function follows the blocks of the source, each under the comment
    that opens it there. *)

(** The [settings] dictionary as first built. *)
Definition initial_settings {SD} (E : Env SD) (opts : options) : settings :=
  {| bids_root := abspath E (bids_dir opts);
     write_graph := opt_write_graph opts;
     nthreads := opt_nthreads opts;
     mem_mb := opt_mem_mb opts;
     ants_nthreads := opt_ants_nthreads opts;
     output_dir := abspath E (opt_output_dir opts);
     work_dir := abspath E (opt_work_dir opts) |}.

(** "Check and create output and working directories" *)
Definition create_directories (st : settings) (w : world) : world :=
  let log_dir := Path.join (output_dir st) ["log"] in
  let derivatives := Path.join (output_dir st) ["derivatives"] in
  let w := make_folder (output_dir st) w in
  let w := make_folder (work_dir st) w in
  let w := make_folder derivatives w in
  make_folder log_dir w.

(** "Set nipype config" *)
Definition set_nipype_config (st : settings) (w : world) : world :=
  let log_dir := Path.join (output_dir st) ["log"] in
  update_config
    (mkConfig {[ "log_directory" := PStr log_dir;
                 "log_to_file" := PBool true ]}
              {[ "crashdump_dir" := PStr log_dir ]}) w.

(** "Setup multiprocessing": the plugin settings chosen from the thread
    count and the memory ceiling. *)
Definition setup_multiprocessing (st : settings) : tried (gmap string pyval) :=
  let plugin_settings : gmap string pyval := {[ "plugin" := PStr "Linear" ]} in
  if 1 <? nthreads st then
    let plugin_settings := <[ "plugin" := PStr "MultiProc" ]> plugin_settings in
    let plugin_args : gmap string pyval := {[ "n_procs" := PInt (nthreads st) ]} in
    tbind (if mem_mb st =? 0 then Returns plugin_args
           else tbind (or_raise OverflowError (true_divide_1024 (mem_mb st)))
                  (fun memory_gb =>
                Returns (<[ "memory_gb" := PNum memory_gb ]> plugin_args)))
      (fun plugin_args =>
    Returns (<[ "plugin_args" := PDict plugin_args ]> plugin_settings))
  else Returns plugin_settings.

(** "nipype plugin configuration", up to the default of [ants_nthreads]:
    the settings and the world as the block leaves them, and the plugin
    settings unless the division raised. *)
Definition plugin_configuration {SD} (E : Env SD) (opts : options)
    (st : settings) (w : world) : settings * world * tried pyval :=
  let '(st, w, plugin_settings) :=
    match use_plugin opts with
    | Some f => (st, emit (EvLoadYaml f) w, Returns (loadyml E f))
    | None =>
        let '(st, w) :=
          if nthreads st =? 0
          then (set_nthreads (cpu_count E) st, emit EvCpuCount w)
          else (st, w) in
        (st, w, tbind (setup_multiprocessing st) (fun d => Returns (PDict d)))
    end in
  match plugin_settings with
  | Raises e => (st, w, Raises e)
  | Returns _ =>
      if ants_nthreads st =? 0
      then (set_ants_nthreads (cpu_count E) st, emit EvCpuCount w,
            plugin_settings)
      else (st, w, plugin_settings)
  end.

(** "Determine subjects to be processed" *)
Definition determine_subjects {SD} (E : Env SD) (opts : options)
    (st : settings) (w : world) : list string * world :=
  let '(subject_list, w) :=
    match participant_label opts with
    | Some (s :: l) => (s :: l, w)
    | _ =>
        (map (fun subdir => Path.drop_chars 4 (Path.basename subdir))
             (glob_sub E (bids_root st)),
         emit (EvGlob (Path.join (bids_root st) ["sub-*"])) w)
    end in
  (subject_list,
   emit (EvLog ("Subject list: " +:+ Path.str_join ", " subject_list)) w).

(** How the call ends once [run] has returned or raised. *)
Definition exit_of (raised : option exn) : outcome :=
  match raised with
  | None => Exited 0
  | Some e => if is_RuntimeError e then Exited 1 else Raised e
  end.

(** "Build main workflow and run" *)
Definition build_and_run {SD} (E : Env SD) (opts : options) (st : settings)
    (plugin_settings : pyval) (subject_list : list string) (w : world)
  : result SD :=
  match fmap_enumerator E subject_list st (ncfg w) (objects w) with
  | Raises e =>
      mkResult st (Some plugin_settings) (Some subject_list) None w None
               (Raised e)
  | Returns (preproc_wf, o) =>
      let w := set_objects o w in
      let preproc_wf := set_base_dir (work_dir st) preproc_wf in
      let raised := run E preproc_wf plugin_settings w in
      let w := emit (EvRun plugin_settings) w in
      let w :=
        match exit_of raised with
        | Exited errno =>
            let w := if opt_write_graph opts then emit EvWriteGraph w else w in
            emit (EvExit errno) w
        | Raised _ => w
        end in
      mkResult st (Some plugin_settings) (Some subject_list) (Some preproc_wf)
               w raised (exit_of raised)
  end.

Definition create_workflow {SD} (E : Env SD) (opts : options) (w : world)
  : result SD :=
  let st := initial_settings E opts in
  let w := create_directories st w in
  let w := set_nipype_config st w in
  let '(st, w, plugin_settings) := plugin_configuration E opts st w in
  match plugin_settings with
  | Raises e => mkResult st None None None w None (Raised e)
  | Returns plugin_settings =>
      let '(subject_list, w) := determine_subjects E opts st w in
      build_and_run E opts st plugin_settings subject_list w
  end.

End Fmaps.

(** ** Auxiliary views of graphs, used in the statements *)

Module Views.
Import Engine.

(** The graph with the [config] attribute of every node forgotten. *)
Fixpoint erase_node_configs {I} (w : graph_item I) : graph_item I :=
  match w with
  | GNode i n f _ => GNode i n f None
  | GWorkflow i n b c its es => GWorkflow i n b c (map erase_node_configs its) es
  end.

(** The graph with the nodes' [config] attributes set to consecutive
    positions from [n] on, in the order of [get_all_nodes]. *)
Fixpoint number_node_configs {I} (n : loc) (w : graph_item I) : graph_item I :=
  match w with
  | GNode i nm f _ => GNode i nm f (Some n)
  | GWorkflow i nm b c its es =>
      GWorkflow i nm b c
        ((fix go (n : loc) (its : list (graph_item I)) :=
            match its with
            | [] => []
            | x :: r =>
                number_node_configs n x
                  :: go (n + length (get_all_nodes x))%nat r
            end) n its)
        es
  end.

(** The same object at a position moved by [n]. *)
Definition shift_id {I} (n : loc) (it : graph_item I) : graph_item I :=
  match it with
  | GNode i nm f c => GNode (n + i) nm f c
  | GWorkflow i nm b c its es => GWorkflow (n + i) nm b c its es
  end.

(** The crash-dump directory recorded in the configuration at [l]. *)
Definition crashdump_of (st : store) (l : loc) : option pyval :=
  c ← read_config st l; execution c !! "crashdump_dir".

(** The configuration dictionaries of a subject's graph: the workflow's own
    and those of its nodes. *)
Definition config_objects {I} (w : graph_item I) : list (option loc) :=
  item_config w :: map item_config (get_all_nodes w).

(** The graph [sbref_correct] builds for a subject when the store holds [n]
    cells. *)
Definition subject_graph {SD} (E : Fmaps.Env SD) (st : Fmaps.settings)
    (g : config) (subject_id : string) (n : loc) : Fmaps.workflow SD :=
  fst (Fmaps.sbref_correct E
         (Fmaps.collect_bids_data E (Fmaps.bids_root st) subject_id) st g n).

(** What the [k]-th turn of the loop of [fmap_enumerator] leaves in the
    store [o] for subject [s], whose graph [fw] occupies the cells from [lo]
    up to [hi]. *)
Definition subject_done {SD} (E : Fmaps.Env SD) (st : Fmaps.settings)
    (g : config) (k : nat) (s : string) (lo hi : loc)
    (fw : Fmaps.workflow SD) (o : store) : Prop :=
  item_id fw = (lo + 4)%nat /\
  item_name fw = "sbref_correct" /\
  item_config fw = Some (lo + 5)%nat /\
  erase_node_configs fw = erase_node_configs (subject_graph E st g s lo) /\
  exists (c : config) (m : loc),
    (lo + 6 <= m)%nat /\
    hi = (m + length (get_all_nodes fw))%nat /\
    (hi <= length o)%nat /\
    map item_config (get_all_nodes fw)
      = map Some (seq m (length (get_all_nodes fw))) /\
    execution c !! "crashdump_dir"
      = Some (PStr (Fmaps.crashdump_dir st s
                      (Fmaps.strftime (Fmaps.localtime E k)))) /\
    read_config o (lo + 5)%nat = Some c /\
    forall l, (m <= l < hi)%nat -> read_config o l = Some c.

(** The crash-dump directories recorded for the nodes of a graph. *)
Definition node_crashdump_dirs {I} (o : store) (fw : graph_item I)
  : list (option pyval) :=
  map (fun nd => l ← item_config nd; crashdump_of o l) (get_all_nodes fw).

(** The events that scan the dataset for subjects. *)
Definition is_glob (e : Fmaps.event) : bool :=
  match e with
  | Fmaps.EvGlob _ => true
  | _ => false
  end.

(** The thread count once the default has been applied. *)
Definition resolved (E_cpu_count v : Z) : Z :=
  if v =? 0 then E_cpu_count else v.

(** The subject list as the specification words it: the directories of
    the dataset root whose name matches ['sub-*'], without the first four
    characters of the name, in listing order. *)
Definition claimed_subject_list {SD} (E : Fmaps.Env SD) (root : string)
  : list string :=
  map (fun d => Path.drop_chars 4 (Fmaps.d_name d))
      (List.filter
         (fun d => Fmaps.d_is_dir d && Fmaps.matches_sub (Fmaps.d_name d))
         (Fmaps.listdir E root)).

(** The crash-dump directory as the specification words it:
    [<output_dir>/log/<subject_id>/<timestamp>]. *)
Definition claimed_crashdump_dir (st : Fmaps.settings)
    (subject_id cur_time : string) : string :=
  Fmaps.output_dir st +:+ "/log/" +:+ subject_id +:+ "/" +:+ cur_time.

(** The memory budget as the specification words it: [mem_mb] divided by
    1024. *)
Definition claimed_memory_gb (mem_mb : Z) : Q := mem_mb # 1024.

(** Whether the division of the memory ceiling is reached and overflows:
    no plugin file, more than one thread, a nonzero ceiling whose quotient
    no float holds. *)
Definition overflows {SD} (E : Fmaps.Env SD) (opts : Fmaps.options) : bool :=
  match Fmaps.use_plugin opts with
  | Some _ => false
  | None =>
      (1 <? resolved (Fmaps.cpu_count E) (Fmaps.opt_nthreads opts))
      && negb (Fmaps.opt_mem_mb opts =? 0)
      && match Fmaps.true_divide_1024 (Fmaps.opt_mem_mb opts) with
         | Some _ => false
         | None => true
         end
  end.

(** [s.split('/')] *)
Fixpoint split_sep (s : string) : list string :=
  match s with
  | EmptyString => [""]
  | String c r =>
      if Ascii.eqb c Path.sep then "" :: split_sep r
      else match split_sep r with
           | x :: xs => String c x :: xs
           | [] => [String c ""]
           end
  end.

(** The components of a path that name something: neither empty nor
    ['.']. *)
Definition components (p : string) : list string :=
  List.filter (fun c => negb (String.eqb c "") && negb (String.eqb c "."))
              (split_sep p).

(** An ordinary file name: not empty, without separator, neither ['.'] nor
    ['..']. *)
Definition ordinary_name (s : string) : bool :=
  negb (Path.has_sep s) && negb (String.eqb s "")
  && negb (String.eqb s ".") && negb (String.eqb s "..").

(** What the plugin block of [create_workflow] hands on, from the settings
    it starts with: the contents of the plugin file, or the dictionary
    made from the resolved thread count and the memory ceiling. *)
Definition chosen_plugin {SD} (E : Fmaps.Env SD) (opts : Fmaps.options)
    (st : Fmaps.settings) : Fmaps.tried pyval :=
  match Fmaps.use_plugin opts with
  | Some f => Fmaps.Returns (Fmaps.loadyml E f)
  | None =>
      Fmaps.tbind
        (Fmaps.setup_multiprocessing
           (Fmaps.set_nthreads
              (resolved (Fmaps.cpu_count E) (Fmaps.nthreads st)) st))
        (fun d => Fmaps.Returns (PDict d))
  end.

(** The world in which [create_workflow] determines its subjects and
    builds the graph: directories made, engine configured, plugin block
    done. *)
Definition before_subjects {SD} (E : Fmaps.Env SD) (opts : Fmaps.options)
    (w : Fmaps.world) : Fmaps.world :=
  let st0 := Fmaps.initial_settings E opts in
  snd (fst (Fmaps.plugin_configuration E opts st0
              (Fmaps.set_nipype_config st0
                 (Fmaps.create_directories st0 w)))).

(** Whether a call got as far as [preproc_wf.run]. *)
Definition reached_run {SD} (r : Fmaps.result SD) : bool :=
  match Fmaps.r_workflow r with
  | Some _ => true
  | None => false
  end.

End Views.

(** ** A small dataset to run the model on *)

Module Examples.
Import Engine Fmaps.

(** A dataset root with two subject directories, a plain file whose name
    also starts with ['sub-'], and a file that does not match. *)
Definition listing : list dirent :=
  [ mkDirent "sub-01" true eq_refl;
    mkDirent "README" false eq_refl;
    mkDirent "sub-notes.txt" false eq_refl;
    mkDirent "sub-02" true eq_refl ].

(** A dataset root with one subject. *)
Definition listing_single : list dirent :=
  [ mkDirent "sub-01" true eq_refl; mkDirent "README" false eq_refl ].

(** A dataset root without any subject directory, where a plain file has
    a name that starts with ['sub-']. *)
Definition listing_notes : list dirent :=
  [ mkDirent "README" false eq_refl;
    mkDirent "sub-notes.txt" false eq_refl ].

(** A nested workflow with a single node, standing for what the field-map
    builders return. *)
Definition nested (name node : string) : Build (workflow unit) :=
  (w <- Workflow name ;;
   n <- Node (OtherInterface node) node ;;
   bret (default w (add_nodes [n] w)))%build.

(** A host with four CPUs where every call happens within one second, and
    [run] ends as [raised] tells. *)
Definition env (raised : option exn) : Env unit :=
  {| abspath := fun s => if Path.startswith "/" s then s else "/cwd/" +:+ s;
     cpu_count := 4;
     listdir := fun d =>
       if String.eqb d "/data" then listing
       else if String.eqb d "/single" then listing_single
       else if String.eqb d "/notes" then listing_notes else [];
     glob_magic := fun _ => ["/ds1/sub-07"];
     localtime := fun _ => mkTm 2017 2 27 18 5 21;
     loadyml := fun _ =>
       PDict {[ "plugin" := PStr "SGE";
                "plugin_args" := PDict {[ "qsub_args" := PStr "-q long" ]} ]};
     run := fun _ _ _ => raised;
     collect_bids_data := fun _ _ => tt;
     fmap_estimator := fun _ _ => nested "fmap_estimator" "fmap_node";
     sdc_unwarp := fun _ => nested "sdc_unwarp" "sdc_node" |}.

Definition world0 : world := mkWorld [] (mkConfig ∅ ∅) [] [].

(** [fmaps /data /out -w /work], every option left at its default. *)
Definition opts_default : options :=
  mkOptions "/data" "/out" None 0 0 false None "/work" 0.

(** [fmaps /single /out -w /work], every option left at its default. *)
Definition opts_single : options :=
  mkOptions "/single" "/out" None 0 0 false None "/work" 0.

(** [fmaps /notes /out -w /work], every option left at its default. *)
Definition opts_notes : options :=
  mkOptions "/notes" "/out" None 0 0 false None "/work" 0.

(** [--participant_label 01 02 --nthreads 8 --mem_mb 4096 --write-graph] *)
Definition opts_labels : options :=
  mkOptions "/data" "/out" (Some ["01"; "02"]) 8 4096 true None "/work" 2.

(** [--participant_label 01 --nthreads 8 --mem_mb 4096 --write-graph] *)
Definition opts_label : options :=
  mkOptions "/data" "/out" (Some ["01"]) 8 4096 true None "/work" 2.

(** [--participant_label 01 --use-plugin plugin.yml], with and without
    thread and memory options. *)
Definition opts_plugin (n m : Z) : options :=
  mkOptions "/data" "/out" (Some ["01"]) n m false (Some "plugin.yml")
            "/work" 0.

(** [--participant_label 01 --nthreads 2 --mem_mb m] *)
Definition opts_mem (m : Z) : options :=
  mkOptions "/data" "/out" (Some ["01"]) 2 m false None "/work" 1.

Definition settings0 : settings :=
  mkSettings "/data" false 4 0 4 "/out" "/work".

End Examples.

(** ** Further views, used in the statements about the rest of the code *)

Module Observations.
Import Engine Fmaps.

(** What a call does after [run]: on the way to [sys.exit] it writes the
    graph when asked to; an exception that propagates leaves nothing. *)
Definition run_tail (write : bool) (raised : option exn) : list event :=
  match exit_of raised with
  | Exited code => (if write then [EvWriteGraph] else []) ++ [EvExit code]
  | Raised _ => []
  end.

(** The configuration of the [k]-th subject's graph: the engine's, with the
    crash-dump directory of the subject. *)
Definition subject_config {SD} (E : Env SD) (st : settings) (g : config)
    (k : nat) (s : string) : config :=
  mkConfig (logging g)
    (<[ "crashdump_dir" :=
          PStr (crashdump_dir st s (strftime (localtime E k))) ]>
       (execution g)).

(** Position of a name in a list of names. *)
Fixpoint index_of (x : string) (l : list string) : option nat :=
  match l with
  | [] => None
  | y :: r => if String.eqb x y then Some 0%nat else S <$> index_of x r
  end.

(** An edge that leads from a node of [names] to one further down. *)
Definition edge_forward (names : list string) (e : edge) : bool :=
  match index_of (e_src e) names, index_of (e_dst e) names with
  | Some i, Some j => (i <? j)%nat
  | _, _ => false
  end.

(** The input port an edge feeds. *)
Definition in_port (e : edge) : string * string := (e_dst e, e_in e).

(** The names of the nodes of a graph, in graph order. *)
Definition node_names {I} (w : graph_item I) : list string :=
  map item_name (wf_items w).

End Observations.

(** * Properties *)

(** ** Paths *)

Section PathFacts.
Import Path.
Local Arguments Ascii.eqb : simpl never.

Lemma append_nil_l (s : string) : "" +:+ s = s.
Proof. reflexivity. Qed.

Lemma append_cons (c : ascii) (s t : string) :
  String c s +:+ t = String c (s +:+ t).
Proof. reflexivity. Qed.

Lemma append_empty_r (s : string) : s +:+ "" = s.
Proof.
  induction s as [|c s IH]; [reflexivity |].
  now rewrite append_cons, IH.
Qed.

Lemma append_assoc (a b c : string) : (a +:+ b) +:+ c = a +:+ (b +:+ c).
Proof.
  induction a as [|x a IH]; [reflexivity |].
  now rewrite !append_cons, IH.
Qed.

Lemma append_inj_l (a b c : string) : a +:+ b = a +:+ c -> b = c.
Proof.
  induction a as [|x a IH]; [auto |].
  rewrite !append_cons. intros H. injection H as H. auto.
Qed.

Lemma has_sep_app (a b : string) :
  has_sep (a +:+ b) = has_sep a || has_sep b.
Proof.
  induction a as [|x a IH]; [reflexivity |].
  rewrite append_cons. simpl.
  destruct (Ascii.eqb x sep); [reflexivity | exact IH].
Qed.

Lemma startswith_sep_has_sep (s : string) :
  startswith "/" s = true -> has_sep s = true.
Proof.
  destruct s as [|c s]; simpl; [auto |].
  rewrite (Ascii.eqb_sym c). unfold sep.
  destruct (Ascii.eqb "/" c); [reflexivity | discriminate].
Qed.

Lemma no_sep_not_absolute (s : string) :
  has_sep s = false -> startswith "/" s = false.
Proof.
  intros H. destruct (startswith "/" s) eqn:E; [| reflexivity].
  apply startswith_sep_has_sep in E. congruence.
Qed.

Lemma endswith_sep_split (p : string) :
  endswith_sep p = true -> exists q, p = q +:+ "/".
Proof.
  induction p as [|c p IH]; simpl; [discriminate |].
  destruct p as [|d p].
  - intros H. apply Ascii.eqb_eq in H. subst c. now exists "".
  - intros H. destruct (IH H) as [q Hq]. exists (String c q).
    rewrite append_cons. now rewrite Hq.
Qed.

Lemma endswith_sep_app (a b : string) :
  b <> "" -> endswith_sep (a +:+ b) = endswith_sep b.
Proof.
  intros Hb. induction a as [|x a IH]; [reflexivity |].
  rewrite append_cons. rewrite <- IH. simpl.
  destruct (a +:+ b) eqn:E; [| reflexivity].
  destruct a; [contradiction | discriminate].
Qed.

Lemma no_sep_endswith (s : string) :
  has_sep s = false -> endswith_sep s = false.
Proof.
  induction s as [|c s IH]; simpl; [reflexivity |].
  destruct (Ascii.eqb c sep) eqn:E; [discriminate |].
  intros H. destruct s; [reflexivity | auto].
Qed.

(** What follows the last separator of [p/n] is [n]. *)
Lemma basename_app_sep (p n : string) :
  has_sep n = false -> basename (p +:+ String sep n) = n.
Proof.
  intros Hn. induction p as [|c p IH].
  - simpl. now rewrite Hn.
  - rewrite append_cons. simpl. rewrite has_sep_app. simpl.
    now rewrite orb_true_r.
Qed.

Lemma basename_no_sep (n : string) : has_sep n = false -> basename n = n.
Proof.
  destruct n as [|c n]; simpl; [reflexivity |].
  destruct (Ascii.eqb c sep); [discriminate |].
  intros ->. reflexivity.
Qed.

(** [basename(join(root, name)) = name] for a file name. *)
Lemma basename_join (root name : string) :
  has_sep name = false -> basename (join root [name]) = name.
Proof.
  intros Hn. unfold join. simpl. unfold join2.
  rewrite (no_sep_not_absolute _ Hn).
  destruct (String.eqb root "") eqn:Er; simpl.
  - apply String.eqb_eq in Er. subst root. now apply basename_no_sep.
  - destruct (endswith_sep root) eqn:Ee.
    + destruct (endswith_sep_split _ Ee) as [q ->].
      rewrite append_assoc. now apply basename_app_sep.
    + now apply basename_app_sep.
Qed.

(** A name that matches ['sub-*'] is ['sub-'] followed by its slice
    [[4:]]. *)
Lemma matches_sub_prefix (name : string) :
  Fmaps.matches_sub name = true -> name = "sub-" +:+ drop_chars 4 name.
Proof.
  unfold Fmaps.matches_sub.
  destruct name as [|a [|b [|c [|d r]]]]; simpl; try discriminate;
    repeat match goal with
    | |- context [Ascii.eqb ?x ?y] =>
        destruct (Ascii.eqb_spec x y); [subst | discriminate]
    end; try discriminate.
  reflexivity.
Qed.

End PathFacts.

(** ** The store and the graphs *)

Section EngineFacts.
Import Engine Views.
Context {I : Type}.

(** Induction on graphs, with the hypothesis on every item of a workflow. *)
Fixpoint graph_item_rect' (P : graph_item I -> Prop)
    (HN : forall i n f c, P (GNode i n f c))
    (HW : forall i n b c its es, Forall P its -> P (GWorkflow i n b c its es))
    (w : graph_item I) : P w :=
  match w with
  | GNode i n f c => HN i n f c
  | GWorkflow i n b c its es =>
      HW i n b c its es
         ((fix go (its : list (graph_item I)) : Forall P its :=
             match its with
             | [] => List.Forall_nil P
             | x :: r =>
                 List.Forall_cons P x r (graph_item_rect' P HN HW x) (go r)
             end) its)
  end.

Lemma read_config_app (st ext : store) (l : loc) :
  (l < length st)%nat -> read_config (st ++ ext) l = read_config st l.
Proof.
  intros H. unfold read_config. now rewrite lookup_app_l.
Qed.

Lemma read_config_lt (st : store) (l : loc) (c : config) :
  read_config st l = Some c -> (l < length st)%nat.
Proof.
  unfold read_config. destruct (st !! l) eqn:E; [| discriminate].
  intros _. eapply lookup_lt_Some; eauto.
Qed.

Lemma read_config_last (st : store) (c : config) :
  read_config (st ++ [CConfig c]) (length st) = Some c.
Proof.
  unfold read_config. rewrite lookup_app_r by lia.
  now rewrite Nat.sub_diag.
Qed.

Lemma set_execution_spec (st : store) (l : loc) (c : config) (k : string) (v : pyval) :
  read_config st l = Some c ->
  set_execution st l k v =
    Some (<[l := CConfig (mkConfig (logging c) (<[k := v]> (execution c)))]> st).
Proof. intros H. unfold set_execution. now rewrite H. Qed.

Lemma read_config_insert (st : store) (l : loc) (c : config) :
  (l < length st)%nat -> read_config (<[l := CConfig c]> st) l = Some c.
Proof.
  intros H. unfold read_config. now rewrite list_lookup_insert_eq.
Qed.

Lemma read_config_insert_ne (st : store) (l l' : loc) (c : config) :
  l <> l' -> read_config (<[l := CConfig c]> st) l' = read_config st l'.
Proof.
  intros H. unfold read_config. now rewrite list_lookup_insert_ne.
Qed.

(** The loop over the nodes copies the dictionary once per node, into
    consecutive new cells. *)
Lemma set_node_configs_spec (src : loc) (c : config) (w : graph_item I) :
  forall st, read_config st src = Some c ->
  set_node_configs src w st =
    Some (number_node_configs (length st) w,
          st ++ replicate (length (get_all_nodes w)) (CConfig c)).
Proof.
  induction w as [i n f c0 | i n b c0 its es IH] using graph_item_rect';
    intros st Hsrc.
  - simpl. unfold deepcopy. rewrite Hsrc. reflexivity.
  - simpl.
    set (go := fix go (its : list (graph_item I)) (st : store) :=
           match its with
           | [] => Some ([], st)
           | x :: r =>
               '(x', st1) ← set_node_configs src x st;
               '(r', st2) ← go r st1;
               Some (x' :: r', st2)
           end).
    set (num := fix go (n : loc) (its : list (graph_item I)) :=
            match its with
            | [] => []
            | x :: r =>
                number_node_configs n x
                  :: go (n + length (get_all_nodes x))%nat r
            end).
    assert (Hgo : forall st, read_config st src = Some c ->
              go its st = Some (num (length st) its,
                st ++ replicate (length (flat_map get_all_nodes its)) (CConfig c))).
    { clear Hsrc st. induction IH as [| x r Hx Hr IHr]; intros st Hsrc.
      - simpl. now rewrite app_nil_r.
      - simpl. rewrite (Hx st Hsrc). simpl.
        rewrite IHr.
        + simpl. rewrite length_app, length_replicate.
          rewrite length_app, replicate_add, app_assoc. reflexivity.
        + rewrite read_config_app; [exact Hsrc |].
          eapply read_config_lt; eauto. }
    rewrite (Hgo st Hsrc). reflexivity.
Qed.

(** After the loop the nodes hold consecutive positions, in order. *)
Lemma number_node_configs_nodes (w : graph_item I) :
  forall n,
  map item_config (get_all_nodes (number_node_configs n w)) =
  map Some (seq n (length (get_all_nodes w))).
Proof.
  induction w as [i nm f c0 | i nm b c0 its es IH] using graph_item_rect';
    intros n; [reflexivity |].
  simpl. revert n.
  induction IH as [| x r Hx Hr IHr]; intros n; [reflexivity |].
  simpl. rewrite map_app, Hx, IHr, length_app, seq_app, map_app.
  reflexivity.
Qed.

Lemma number_node_configs_erase (w : graph_item I) :
  forall n, erase_node_configs (number_node_configs n w) = erase_node_configs w.
Proof.
  induction w as [i nm f c0 | i nm b c0 its es IH] using graph_item_rect';
    intros n; [reflexivity |].
  simpl. f_equal. revert n.
  induction IH as [| x r Hx Hr IHr]; intros n; [reflexivity |].
  simpl. now rewrite Hx, IHr.
Qed.

Lemma number_node_configs_id (n : loc) (w : graph_item I) :
  item_id (number_node_configs n w) = item_id w.
Proof. destruct w; reflexivity. Qed.

Lemma number_node_configs_name (n : loc) (w : graph_item I) :
  item_name (number_node_configs n w) = item_name w.
Proof. destruct w; reflexivity. Qed.

Lemma number_node_configs_length (n : loc) (w : graph_item I) :
  length (get_all_nodes (number_node_configs n w)) = length (get_all_nodes w).
Proof.
  rewrite <- (length_map item_config), number_node_configs_nodes.
  now rewrite length_map, length_seq.
Qed.

(** A new object joins a graph that does not hold it yet. *)
Lemma add_new_fresh (it : graph_item I) (its : list (graph_item I)) :
  Forall (fun x => item_id x <> item_id it) its ->
  add_new [it] its = its ++ [it].
Proof.
  intros H. unfold add_new. simpl.
  replace (has_item (item_id it) its) with false; [reflexivity |].
  symmetry. unfold has_item. apply not_true_is_false. intros Hex.
  apply existsb_exists in Hex. destruct Hex as [x [Hin Hx]].
  apply Nat.eqb_eq in Hx. rewrite List.Forall_forall in H.
  exact (H x Hin Hx).
Qed.

(** Whether an object is in a graph does not depend on where the store
    begins. *)
Lemma has_item_shift (n i : loc) (its : list (graph_item I)) :
  has_item (n + i) (map (shift_id n) its) = has_item i its.
Proof.
  unfold has_item. induction its as [| x its IH]; [reflexivity |].
  cbn [map existsb]. rewrite IH. f_equal.
  destruct x as [j ? ? ? | j ? ? ? ? ?]; cbn [shift_id item_id];
    destruct (Nat.eqb_spec j i), (Nat.eqb_spec (n + j) (n + i));
    try reflexivity; lia.
Qed.

Lemma add_new_shift (n : loc) (new : list (graph_item I)) :
  forall its,
  add_new (map (shift_id n) new) (map (shift_id n) its)
  = map (shift_id n) (add_new new its).
Proof.
  unfold add_new. induction new as [| x new IH]; intros its; [reflexivity |].
  cbn [map fold_left].
  replace (item_id (shift_id n x)) with (n + item_id x)%nat
    by (destruct x; reflexivity).
  rewrite has_item_shift. destruct (has_item (item_id x) its).
  - apply IH.
  - rewrite <- IH. f_equal. now rewrite map_app.
Qed.

Lemma add_new_shift_nil (n : loc) (new : list (graph_item I)) :
  add_new (map (shift_id n) new) [] = map (shift_id n) (add_new new []).
Proof. exact (add_new_shift n new []). Qed.

End EngineFacts.

(** ** The enumerator *)

Section EnumeratorFacts.
Import Engine Views Observations Fmaps.
Context {SD : Type} (E : Env SD).

Lemma sbref_correct_shape (sd : SD) (st : settings) (g : config) (L : loc) :
  exists its es rest,
    sbref_correct E sd st g L =
      (GWorkflow (L + 4) "sbref_correct" None (L + 5) its es,
       CObj :: CObj :: CObj :: CObj :: CObj :: CConfig g :: rest).
Proof.
  unfold sbref_correct, bbind, Node, Workflow, bret, connect.
  cbn [length app].
  destruct (fmap_estimator E sd st g _) as [est l1].
  destruct (sdc_unwarp E st g _) as [sdc l2].
  cbn [length app].
  replace (L + 1 + 1 + 1 + 1)%nat with (L + 4)%nat by lia.
  replace (S (L + 4)) with (L + 5)%nat by lia.
  eauto.
Qed.

(** One turn of the loop, up to the call of [add_nodes]: the graph built
    for the subject, configured, and the store left. *)
Lemma enumerate_subject_core (st : settings) (g : config) (k : nat)
    (s : string) (wf : workflow SD) (o : store) :
  exists fw o',
    enumerate_subject E st g k s wf o
      = tbind (or_raise IOError (add_nodes [fw] wf))
              (fun wf' => Returns (wf', o')) /\
    (length o <= length o')%nat /\
    (forall j, (j < length o)%nat -> o' !! j = o !! j) /\
    subject_done E st g k s (length o) (length o') fw o' /\
    read_config o' (length o + 5) = Some (subject_config E st g k s).
Proof.
  unfold enumerate_subject, build.
  pose proof (sbref_correct_shape
                (collect_bids_data E (bids_root st) s) st g (length o))
    as [fits [fes [rest Hsb]]].
  assert (Herase : subject_graph E st g s (length o)
                   = GWorkflow (length o + 4) "sbref_correct" None
                       (length o + 5) fits fes).
  { unfold subject_graph. now rewrite Hsb. }
  rewrite Hsb. cbn [item_config or_raise tbind].
  set (l := CObj :: CObj :: CObj :: CObj :: CObj :: CConfig g :: rest).
  set (fw0 := GWorkflow (length o + 4) "sbref_correct" None
                (length o + 5) fits fes) in *.
  assert (Hread : read_config (o ++ l) (length o + 5) = Some g).
  { unfold read_config. rewrite lookup_app_r by lia.
    replace (length o + 5 - length o)%nat with 5%nat by lia. reflexivity. }
  rewrite (set_execution_spec _ _ _ _ _ Hread). cbn [or_raise tbind].
  fold (subject_config E st g k s).
  set (g' := subject_config E st g k s).
  set (o2 := <[(length o + 5)%nat := CConfig g']> (o ++ l)).
  assert (Hlen2 : length o2 = (length o + 6 + length rest)%nat).
  { unfold o2. rewrite length_insert, length_app. simpl. lia. }
  assert (Hread2 : read_config o2 (length o + 5) = Some g').
  { unfold o2. apply read_config_insert. rewrite length_app. simpl. lia. }
  rewrite (set_node_configs_spec _ _ fw0 o2 Hread2). cbn [or_raise tbind].
  set (N := length (get_all_nodes fw0)).
  set (fw := number_node_configs (length o2) fw0).
  exists fw, (o2 ++ replicate N (CConfig g')).
  assert (HN : length (get_all_nodes fw) = N)
    by apply number_node_configs_length.
  split; [reflexivity |].
  split; [rewrite length_app, Hlen2; lia |].
  split.
  { intros j Hj. rewrite lookup_app_l by lia.
    unfold o2. rewrite list_lookup_insert_ne by lia.
    now rewrite lookup_app_l. }
  split.
  - unfold subject_done. rewrite HN.
    split; [unfold fw; now rewrite number_node_configs_id |].
    split; [unfold fw; now rewrite number_node_configs_name |].
    split; [reflexivity |].
    split; [unfold fw; now rewrite number_node_configs_erase, Herase |].
    exists g', (length o2).
    split; [lia |].
    split; [rewrite length_app, length_replicate; lia |].
    split; [rewrite length_app, length_replicate; lia |].
    split; [unfold fw; apply number_node_configs_nodes |].
    split; [unfold g', subject_config; simpl; apply lookup_insert_eq |].
    split.
    + rewrite read_config_app by lia. exact Hread2.
    + intros j Hj. rewrite length_app, length_replicate in Hj.
      unfold read_config. rewrite lookup_app_r by lia.
      rewrite lookup_replicate_2 by lia. reflexivity.
  - rewrite read_config_app by lia. exact Hread2.
Qed.

(** The engine takes a first graph and refuses a second one of the same
    name. *)
Lemma add_nodes_first (fw : workflow SD) i n b c es :
  add_nodes [fw] (GWorkflow i n b c [] es) = Some (GWorkflow i n b c [fw] es).
Proof. reflexivity. Qed.

Lemma add_nodes_same_name (fw fw1 : workflow SD) i n b c its es :
  item_name fw = item_name fw1 ->
  add_nodes [fw] (GWorkflow i n b c (fw1 :: its) es) = None.
Proof.
  intros H. cbn [add_nodes add_checked has_name existsb].
  rewrite H, String.eqb_refl. cbn [orb].
  now rewrite orb_true_r.
Qed.

(** No subject: the enclosing workflow alone. *)
Lemma fmap_enumerator_nil (st : settings) (g : config) (o : store) :
  fmap_enumerator E [] st g o
  = Returns (GWorkflow (length o) "workflow_enumerator" None (S (length o))
               [] [], o ++ [CObj; CConfig g]).
Proof. reflexivity. Qed.

(** One subject: the call returns the enclosing workflow with the graph of
    the subject. *)
Lemma fmap_enumerator_single (s : string) (st : settings) (g : config)
    (o : store) :
  exists fw o',
    fmap_enumerator E [s] st g o
      = Returns (GWorkflow (length o) "workflow_enumerator" None
                   (S (length o)) [fw] [], o') /\
    (forall j, (j < length o + 2)%nat ->
       o' !! j = (o ++ [CObj; CConfig g]) !! j) /\
    subject_done E st g 0 s (length o + 2) (length o') fw o' /\
    read_config o' (length o + 7) = Some (subject_config E st g 0 s).
Proof.
  unfold fmap_enumerator, build, Workflow. cbn [enumerate].
  destruct (enumerate_subject_core st g 0 s
              (GWorkflow (length o) "workflow_enumerator" None (S (length o))
                 [] []) (o ++ [CObj; CConfig g]))
    as (fw & o' & -> & _ & Hkeep & Hdone & Hcfg).
  rewrite add_nodes_first. cbn [or_raise tbind].
  rewrite length_app in Hkeep, Hdone, Hcfg. cbn [length] in Hkeep, Hdone, Hcfg.
  exists fw, o'. split; [reflexivity |].
  split; [exact Hkeep |]. split; [exact Hdone |].
  replace (length o + 7)%nat with (length o + 2 + 5)%nat by lia. exact Hcfg.
Qed.

(** Two subjects or more: the engine refuses the second graph, which bears
    the name of the first, and the call raises. *)
Lemma fmap_enumerator_many (s1 s2 : string) (rest : list string)
    (st : settings) (g : config) (o : store) :
  fmap_enumerator E (s1 :: s2 :: rest) st g o = Raises IOError.
Proof.
  unfold fmap_enumerator, build, Workflow. cbn [enumerate].
  destruct (enumerate_subject_core st g 0 s1
              (GWorkflow (length o) "workflow_enumerator" None (S (length o))
                 [] []) (o ++ [CObj; CConfig g]))
    as (fw1 & o1 & -> & _ & _ & Hdone1 & _).
  rewrite add_nodes_first. cbn [or_raise tbind].
  destruct (enumerate_subject_core st g 1 s2
              (GWorkflow (length o) "workflow_enumerator" None (S (length o))
                 [fw1] []) o1)
    as (fw2 & o2 & -> & _ & _ & Hdone2 & _).
  rewrite add_nodes_same_name; [reflexivity |].
  destruct Hdone1 as (_ & -> & _). destruct Hdone2 as (_ & -> & _).
  reflexivity.
Qed.

(** The configuration objects of a subject's graph are pairwise different
    objects. *)
Lemma subject_done_objects st g k s lo hi (fw : workflow SD) (o : store) :
  subject_done E st g k s lo hi fw o -> NoDup (config_objects fw).
Proof.
  intros (_ & _ & Hcfg & _ & c & m & Hm & _ & _ & Hnodes & _).
  unfold config_objects. rewrite Hcfg, Hnodes.
  constructor.
  - intros Hin. apply list_elem_of_fmap in Hin.
    destruct Hin as [l [Hl Hin]]. injection Hl as Hl.
    apply list_elem_of_In, in_seq in Hin. lia.
  - apply NoDup_fmap; [intros ? ? ?; congruence |].
    apply NoDup_ListNoDup, seq_NoDup.
Qed.

(** What a node of the graph holds. *)
Lemma subject_done_node st g k s lo hi (fw nd : workflow SD) (o : store) :
  subject_done E st g k s lo hi fw o ->
  read_config o (lo + 5) = Some (subject_config E st g k s) ->
  In nd (get_all_nodes fw) ->
  exists l,
    item_config nd = Some l /\ item_config fw = Some (lo + 5)%nat /\
    l <> (lo + 5)%nat /\
    read_config o l = Some (subject_config E st g k s).
Proof.
  intros (_ & _ & Hcfg & _ & c & m & Hm & Hhi & _ & Hnodes & _ & Hrc & Hall)
         Hread Hnd.
  rewrite Hrc in Hread. injection Hread as ->.
  assert (Hin : In (item_config nd) (map item_config (get_all_nodes fw)))
    by now apply in_map.
  rewrite Hnodes in Hin. apply in_map_iff in Hin.
  destruct Hin as [l [Hl Hseq]]. apply in_seq in Hseq.
  exists l. split; [now symmetry |]. split; [exact Hcfg |].
  split; [lia |]. apply Hall. lia.
Qed.

Lemma add_new_app (new its : list (workflow SD)) :
  exists ext, add_new new its = its ++ ext.
Proof.
  unfold add_new. revert its.
  induction new as [| x new IH]; intros its; [exists []; now rewrite app_nil_r |].
  cbn [fold_left]. destruct (has_item (item_id x) its); [apply IH |].
  destruct (IH (its ++ [x])) as [ext Hext]. exists (x :: ext).
  now rewrite Hext, <- app_assoc.
Qed.

Lemma add_new_hd (x : workflow SD) (new : list (workflow SD)) :
  hd_error (add_new (x :: new) []) = Some x.
Proof.
  unfold add_new. cbn [fold_left has_item existsb app].
  destruct (add_new_app new [x]) as [ext Hext].
  unfold add_new in Hext. rewrite Hext. reflexivity.
Qed.

(** The first node of the graph [sbref_correct] builds. *)
Lemma sbref_correct_head (sd : SD) (st : settings) (g : config) (n : loc) :
  hd_error (wf_items (fst (sbref_correct E sd st g n)))
  = Some (GNode n "BIDSDatasource" (BIDSDataGrabber sd) None).
Proof.
  unfold sbref_correct, bbind, Node, Workflow, bret, connect.
  cbn [length app].
  destruct (fmap_estimator E sd st g _) as [est l1].
  destruct (sdc_unwarp E st g _) as [sdc l2].
  cbn [fst wf_items connection_items flat_map app].
  apply add_new_hd.
Qed.

(** The graph of a subject starts with the node that grabs its data. *)
Lemma subject_done_head st g k s lo hi (fw : workflow SD) (o : store) :
  subject_done E st g k s lo hi fw o ->
  exists c rest,
    wf_items fw
    = GNode lo "BIDSDatasource"
        (BIDSDataGrabber (collect_bids_data E (bids_root st) s)) c :: rest.
Proof.
  intros (_ & _ & _ & Her & _).
  pose proof (sbref_correct_head (collect_bids_data E (bids_root st) s)
                st g lo) as Hhd.
  fold (subject_graph E st g s lo) in Hhd.
  destruct (subject_graph E st g s lo) as [? ? ? ? | gi gn gb gc gits ges];
    [discriminate Hhd |].
  destruct fw as [? ? ? ? | fi fn fb fc fits fes]; [discriminate Her |].
  cbn [erase_node_configs] in Her. injection Her as _ _ _ _ Hits _.
  cbn [wf_items] in Hhd |- *.
  destruct gits as [| x gits]; [discriminate Hhd |].
  injection Hhd as ->.
  destruct fits as [| y fits]; [discriminate Hits |].
  cbn [map] in Hits. injection Hits as Hy _.
  destruct y as [yi yn yf yc | ? ? ? ? ? ?]; [| discriminate Hy].
  cbn [erase_node_configs] in Hy. injection Hy as -> -> ->.
  now exists yc, fits.
Qed.

End EnumeratorFacts.

(** ** Time stamps and crash-dump directories *)

Section CrashdumpFacts.
Import Path Fmaps.
Local Arguments Ascii.eqb : simpl never.

Lemma digit_not_sep (n : nat) : Ascii.eqb (digit n) sep = false.
Proof.
  unfold digit. pose proof (Nat.mod_upper_bound n 10 ltac:(lia)) as H.
  remember (n mod 10)%nat as d eqn:Hd. clear Hd.
  do 10 (destruct d as [| d]; [reflexivity |]). lia.
Qed.

Lemma decimal_aux_no_sep (fuel : nat) :
  forall n acc, has_sep (decimal_aux fuel n acc) = has_sep acc.
Proof.
  induction fuel as [| fuel IH]; intros n acc; cbn [decimal_aux];
    [reflexivity |].
  destruct (n <? 10)%nat.
  - cbn [has_sep]. rewrite digit_not_sep. reflexivity.
  - rewrite IH. cbn [has_sep]. rewrite digit_not_sep. reflexivity.
Qed.

Lemma decimal_no_sep (n : nat) : has_sep (decimal n) = false.
Proof. unfold decimal. rewrite decimal_aux_no_sep. reflexivity. Qed.

Lemma decimal2_no_sep (n : nat) : has_sep (decimal2 n) = false.
Proof.
  unfold decimal2. destruct (n <? 10)%nat; [| apply decimal_no_sep].
  cbn [has_sep]. rewrite decimal_no_sep. reflexivity.
Qed.

(** A time stamp holds digits and a dash, never a separator. *)
Lemma strftime_no_sep (t : tm) : has_sep (strftime t) = false.
Proof.
  unfold strftime.
  rewrite !has_sep_app, decimal_no_sep, !decimal2_no_sep. reflexivity.
Qed.

Lemma app_nonempty_r (a b : string) : b <> "" -> a +:+ b <> "".
Proof.
  intros Hb H. destruct a; [auto |]. rewrite append_cons in H. discriminate.
Qed.

Lemma eqb_empty_false (s : string) : s <> "" -> String.eqb s "" = false.
Proof. intros H. now apply String.eqb_neq. Qed.

(** [join(out, 'log')] is not empty and does not end with a separator. *)
Lemma join2_log (out : string) :
  join2 out "log" <> "" /\ endswith_sep (join2 out "log") = false.
Proof.
  unfold join2. simpl startswith. cbv iota.
  destruct (String.eqb out "" || endswith_sep out).
  - split; [apply app_nonempty_r; discriminate |].
    now rewrite endswith_sep_app by discriminate.
  - split; [apply app_nonempty_r, app_nonempty_r; discriminate |].
    rewrite <- append_assoc. now rewrite endswith_sep_app by discriminate.
Qed.

(** The shape of a crash-dump directory when neither the identifier nor the
    time stamp holds a separator. *)
Lemma crashdump_dir_form (st : settings) (s t : string) :
  has_sep s = false -> has_sep t = false ->
  crashdump_dir st s t =
    join2 (output_dir st) "log" +:+ "/" +:+
      (if String.eqb s "" then t else s +:+ "/" +:+ t).
Proof.
  intros Hs Ht. unfold crashdump_dir, join. cbn [fold_left].
  destruct (join2_log (output_dir st)) as [Hne Hend].
  set (B := join2 (output_dir st) "log") in *.
  assert (HP : join2 B s = B +:+ "/" +:+ s).
  { unfold join2. rewrite (no_sep_not_absolute _ Hs).
    now rewrite (eqb_empty_false _ Hne), Hend. }
  rewrite HP. unfold join2 at 1. rewrite (no_sep_not_absolute _ Ht).
  rewrite eqb_empty_false
    by (apply app_nonempty_r; rewrite append_cons; discriminate).
  cbn [orb].
  destruct (String.eqb_spec s "") as [-> | Hsne].
  - rewrite <- (append_assoc B "/" ""), append_empty_r.
    rewrite endswith_sep_app by discriminate. cbn [endswith_sep].
    change (Ascii.eqb "/" sep) with true. cbv iota.
    now rewrite append_assoc.
  - rewrite <- (append_assoc B "/" s).
    rewrite endswith_sep_app by assumption.
    rewrite (no_sep_endswith _ Hs).
    now rewrite !append_assoc.
Qed.

Lemma sep_split_inj (a b x y : string) :
  has_sep a = false -> has_sep b = false ->
  a +:+ String sep x = b +:+ String sep y -> a = b.
Proof.
  revert b. induction a as [| c a IH]; intros [| d b] Ha Hb H.
  - reflexivity.
  - rewrite append_nil_l, append_cons in H. injection H as H _. subst d.
    cbv in Hb. discriminate.
  - rewrite append_nil_l, append_cons in H. injection H as H _. subst c.
    cbv in Ha. discriminate.
  - rewrite !append_cons in H. injection H as -> H.
    simpl in Ha, Hb. destruct (Ascii.eqb d sep); [discriminate |].
    f_equal. eauto.
Qed.

(** Identifiers without a separator have crash-dump directories of their
    own. *)
Lemma crashdump_dir_inj (st : settings) (s1 s2 t1 t2 : string) :
  has_sep s1 = false -> has_sep s2 = false ->
  has_sep t1 = false -> has_sep t2 = false ->
  crashdump_dir st s1 t1 = crashdump_dir st s2 t2 -> s1 = s2.
Proof.
  intros Hs1 Hs2 Ht1 Ht2 H.
  rewrite !crashdump_dir_form in H by assumption.
  apply append_inj_l, append_inj_l in H.
  destruct (String.eqb_spec s1 "") as [-> | H1];
    destruct (String.eqb_spec s2 "") as [-> | H2]; try reflexivity.
  - subst t1. rewrite !has_sep_app in Ht1. simpl in Ht1.
    change (Ascii.eqb "/" sep) with true in Ht1.
    now rewrite orb_true_r in Ht1.
  - subst t2. rewrite !has_sep_app in Ht2. simpl in Ht2.
    change (Ascii.eqb "/" sep) with true in Ht2.
    now rewrite orb_true_r in Ht2.
  - eapply sep_split_inj; eauto.
Qed.

End CrashdumpFacts.

(** ** Path components *)

Section ComponentFacts.
Import Path Views Fmaps.
Local Arguments Ascii.eqb : simpl never.

Lemma split_sep_nonempty (s : string) : split_sep s <> [].
Proof.
  destruct s as [| c s]; [discriminate |]. cbn [split_sep].
  destruct (Ascii.eqb c sep); [discriminate |].
  destruct (split_sep s); discriminate.
Qed.

Lemma split_sep_app (a b : string) :
  split_sep (a +:+ String sep b) = split_sep a ++ split_sep b.
Proof.
  induction a as [| c a IH].
  - rewrite append_nil_l. cbn [split_sep]. now rewrite Ascii.eqb_refl.
  - rewrite append_cons. cbn [split_sep]. rewrite IH.
    destruct (Ascii.eqb c sep); [reflexivity |].
    destruct (split_sep a) as [| x xs] eqn:Ha; [| reflexivity].
    now apply split_sep_nonempty in Ha.
Qed.

Lemma split_sep_name (b : string) : has_sep b = false -> split_sep b = [b].
Proof.
  induction b as [| c b IH]; [reflexivity |]. cbn [has_sep split_sep].
  destruct (Ascii.eqb c sep); [discriminate |].
  intros H. now rewrite (IH H).
Qed.

Lemma components_app (a b : string) :
  components (a +:+ String sep b) = components a ++ components b.
Proof. unfold components. now rewrite split_sep_app, List.filter_app. Qed.

Lemma ordinary_name_spec (s : string) :
  ordinary_name s = true ->
  has_sep s = false /\ s <> "" /\ components s = [s].
Proof.
  unfold ordinary_name. intros H.
  apply andb_true_iff in H as [H H4]. apply andb_true_iff in H as [H H3].
  apply andb_true_iff in H as [H1 H2].
  apply negb_true_iff in H1, H2, H3.
  split; [exact H1 |]. split; [now apply String.eqb_neq |].
  unfold components. rewrite (split_sep_name _ H1). cbn [List.filter].
  now rewrite H2, H3.
Qed.

(** A crash-dump directory ends with the component of the subject and that
    of the time stamp. *)
Lemma crashdump_dir_ordinary (st : settings) (s t : string) :
  ordinary_name s = true -> has_sep t = false ->
  crashdump_dir st s t
  = join2 (output_dir st) "log" +:+ String sep (s +:+ String sep t).
Proof.
  intros Hs Ht. destruct (ordinary_name_spec s Hs) as (Hsep & Hne & _).
  rewrite crashdump_dir_form by assumption.
  apply String.eqb_neq in Hne. now rewrite Hne.
Qed.

Lemma crashdump_components (st : settings) (s t : string) :
  ordinary_name s = true -> has_sep t = false ->
  components (crashdump_dir st s t)
  = components (join2 (output_dir st) "log") ++ s :: components t.
Proof.
  intros Hs Ht. rewrite crashdump_dir_ordinary by assumption.
  rewrite !components_app.
  destruct (ordinary_name_spec s Hs) as (_ & _ & ->). reflexivity.
Qed.

(** Two ordinary names have crash-dump directories that differ in their
    components, not just as strings. *)
Lemma crashdump_components_inj (st : settings) (s1 s2 t1 t2 : string) :
  ordinary_name s1 = true -> ordinary_name s2 = true ->
  has_sep t1 = false -> has_sep t2 = false ->
  components (crashdump_dir st s1 t1) = components (crashdump_dir st s2 t2) ->
  s1 = s2.
Proof.
  intros H1 H2 Ht1 Ht2 H.
  rewrite !crashdump_components in H by assumption.
  apply app_inv_head in H. now injection H.
Qed.

(** For an ordinary name under an output directory that is not empty and
    does not end with a separator, the directory is
    [<output_dir>/log/<subject_id>/<timestamp>]. *)
Lemma crashdump_dir_claimed (st : settings) (s t : string) :
  ordinary_name s = true -> has_sep t = false ->
  output_dir st <> "" -> endswith_sep (output_dir st) = false ->
  crashdump_dir st s t = claimed_crashdump_dir st s t.
Proof.
  intros Hs Ht Hne Hend. rewrite crashdump_dir_ordinary by assumption.
  unfold claimed_crashdump_dir, join2. cbn [startswith].
  change (Ascii.eqb "/" "l") with false. cbv iota.
  rewrite (eqb_empty_false _ Hne), Hend. cbn [orb].
  rewrite !append_assoc. reflexivity.
Qed.

End ComponentFacts.

(** ** True division *)

Section DivisionFacts.
Import Fmaps.

Lemma round53_small (a : Z) : Z.abs a < 2 ^ 53 -> round53 a = a.
Proof.
  intros H. unfold round53.
  replace (Z.log2 (Z.abs a) + 1 <=? 53) with true; [reflexivity |].
  symmetry. apply Z.leb_le.
  destruct (Z.eq_dec (Z.abs a) 0) as [-> | Hne]; [cbn; lia |].
  assert (Z.log2 (Z.abs a) < 53); [| lia].
  apply Z.log2_lt_pow2; lia.
Qed.

(** Up to [2^53] in magnitude the quotient is exact. *)
Lemma true_divide_exact (a : Z) :
  Z.abs a <= 2 ^ 53 -> true_divide_1024 a = Some (a # 1024).
Proof.
  intros H.
  assert (Hcases : Z.abs a < 2 ^ 53 \/ a = 2 ^ 53 \/ a = - 2 ^ 53) by lia.
  destruct Hcases as [Hlt | [-> | ->]]; [| vm_compute; reflexivity ..].
  unfold true_divide_1024. rewrite (round53_small a Hlt).
  replace (Z.abs a <? 2 ^ 1034) with true; [reflexivity |].
  symmetry. apply Z.ltb_lt.
  eapply Z.lt_trans; [exact Hlt |]. apply Z.pow_lt_mono_r; lia.
Qed.

Lemma round_half_even_bound (m sh : Z) :
  0 <= m -> 0 < sh -> m < 2 ^ 53 * 2 ^ sh ->
  0 <= round_half_even m sh <= 2 ^ 53.
Proof.
  intros Hm Hsh Hlt. unfold round_half_even.
  assert (Hpos : 0 < 2 ^ sh) by (apply Z.pow_pos_nonneg; lia).
  assert (Hq : 0 <= m / 2 ^ sh < 2 ^ 53).
  { split; [apply Z.div_pos; lia |]. apply Z.div_lt_upper_bound; lia. }
  destruct (_ || _); lia.
Qed.

Lemma round53_bound (a : Z) :
  Z.abs (round53 a) <= 2 ^ (Z.log2 (Z.abs a) + 1).
Proof.
  unfold round53. set (m := Z.abs a). set (n := Z.log2 m + 1).
  assert (Hm0 : 0 <= m) by apply Z.abs_nonneg.
  assert (Hn : 0 < n) by (pose proof (Z.log2_nonneg m); lia).
  assert (Hlt : m < 2 ^ n).
  { destruct (Z.eq_dec m 0) as [-> | Hne]; [apply Z.pow_pos_nonneg; lia |].
    unfold n. replace (Z.log2 m + 1) with (Z.succ (Z.log2 m)) by lia.
    apply Z.log2_spec. lia. }
  destruct (n <=? 53) eqn:Hle.
  - fold m. lia.
  - apply Z.leb_gt in Hle.
    assert (Hsplit : 2 ^ n = 2 ^ 53 * 2 ^ (n - 53)).
    { rewrite <- Z.pow_add_r by lia. f_equal. lia. }
    pose proof (round_half_even_bound m (n - 53) Hm0 ltac:(lia)
                  ltac:(rewrite <- Hsplit; exact Hlt)) as Hr.
    assert (Hpos : 0 < 2 ^ (n - 53)) by (apply Z.pow_pos_nonneg; lia).
    rewrite Z.abs_mul.
    assert (Hsg : Z.abs (Z.sgn a) <= 1) by (destruct a; cbn; lia).
    rewrite (Z.abs_eq (round_half_even m (n - 53) * 2 ^ (n - 53))) by nia.
    rewrite Hsplit. nia.
Qed.

(** The division overflows only for a ceiling of [2^1033] or more in
    magnitude. *)
Lemma true_divide_overflow (a : Z) :
  true_divide_1024 a = None -> 2 ^ 1033 <= Z.abs a.
Proof.
  unfold true_divide_1024. destruct (_ <? _) eqn:Hlt; [discriminate |].
  intros _. apply Z.ltb_ge in Hlt.
  pose proof (round53_bound a) as Hb.
  destruct (Z_lt_le_dec (Z.abs a) (2 ^ 1033)) as [Hsmall | Hbig];
    [| exact Hbig].
  exfalso.
  assert (Hlog : Z.log2 (Z.abs a) + 1 <= 1033).
  { destruct (Z.eq_dec (Z.abs a) 0) as [-> | Hne]; [cbn; lia |].
    assert (Z.log2 (Z.abs a) < 1033); [| lia].
    apply Z.log2_lt_pow2; lia. }
  assert (Hpow : 2 ^ (Z.log2 (Z.abs a) + 1) <= 2 ^ 1033)
    by (apply Z.pow_le_mono_r; lia).
  assert (H34 : 2 ^ 1033 < 2 ^ 1034) by (apply Z.pow_lt_mono_r; lia).
  lia.
Qed.

End DivisionFacts.

(** ** The entry point *)

Section CreateWorkflowFacts.
Import Engine Views Fmaps.
Context {SD : Type} (E : Env SD).

Lemma make_folder_fs (p : string) (w : world) :
  fs (make_folder p w) = if existsb (String.eqb p) (fs w) then fs w
                         else fs w ++ [p].
Proof. unfold make_folder. destruct (existsb _ _); reflexivity. Qed.

Lemma make_folder_trace (p : string) (w : world) :
  trace (make_folder p w) = trace w ++ [EvMakeFolder p].
Proof. unfold make_folder. destruct (existsb _ _); reflexivity. Qed.

Lemma existsb_eqb_In (p : string) (l : list string) :
  existsb (String.eqb p) l = true <-> In p l.
Proof.
  rewrite existsb_exists. split.
  - intros [x [Hin Hx]]. apply String.eqb_eq in Hx. now subst.
  - intros H. exists p. split; [exact H | apply String.eqb_refl].
Qed.

Lemma make_folder_In (p : string) (w : world) : In p (fs (make_folder p w)).
Proof.
  rewrite make_folder_fs. destruct (existsb _ _) eqn:Hex.
  - now apply existsb_eqb_In.
  - apply in_or_app. right. now left.
Qed.

Lemma make_folder_keeps (p q : string) (w : world) :
  In q (fs w) -> In q (fs (make_folder p w)).
Proof.
  intros H. rewrite make_folder_fs. destruct (existsb _ _); [exact H |].
  apply in_or_app. now left.
Qed.

Lemma make_folder_exists (p : string) (w : world) :
  In p (fs w) -> fs (make_folder p w) = fs w.
Proof.
  intros H. rewrite make_folder_fs.
  apply existsb_eqb_In in H. now rewrite H.
Qed.

Lemma make_folder_NoDup (p : string) (w : world) :
  List.NoDup (fs w) -> List.NoDup (fs (make_folder p w)).
Proof.
  intros H. rewrite make_folder_fs. destruct (existsb _ _) eqn:Hex; [exact H |].
  apply NoDup_ListNoDup, NoDup_app. apply NoDup_ListNoDup in H.
  split; [exact H |]. split; [| apply NoDup_singleton].
  intros x Hx Hx'. apply list_elem_of_singleton in Hx'. subst x.
  apply list_elem_of_In, existsb_eqb_In in Hx. congruence.
Qed.

(** The other blocks leave the directories alone. *)
Lemma set_nipype_config_fs (st : settings) (w : world) :
  fs (set_nipype_config st w) = fs w.
Proof. reflexivity. Qed.

Lemma set_nipype_config_trace (st : settings) (w : world) :
  trace (set_nipype_config st w) = trace w ++ [EvUpdateConfig].
Proof. reflexivity. Qed.

(** The plugin settings chosen from the thread count and the memory
    ceiling, case by case. *)
Lemma setup_multiprocessing_spec (st : settings) :
  setup_multiprocessing st =
    if 1 <? nthreads st then
      if mem_mb st =? 0 then
        Returns {[ "plugin_args" := PDict {[ "n_procs" := PInt (nthreads st) ]};
                   "plugin" := PStr "MultiProc" ]}
      else
        match true_divide_1024 (mem_mb st) with
        | Some q =>
            Returns {[ "plugin_args" :=
                         PDict {[ "memory_gb" := PNum q;
                                  "n_procs" := PInt (nthreads st) ]};
                       "plugin" := PStr "MultiProc" ]}
        | None => Raises OverflowError
        end
    else Returns {[ "plugin" := PStr "Linear" ]}.
Proof.
  unfold setup_multiprocessing.
  destruct (1 <? nthreads st); [| reflexivity].
  rewrite insert_singleton_eq.
  destruct (mem_mb st =? 0); [reflexivity |].
  destruct (true_divide_1024 (mem_mb st)); reflexivity.
Qed.

Lemma plugin_configuration_plugin (opts : options) (st : settings) (w : world) :
  snd (plugin_configuration E opts st w) = chosen_plugin E opts st.
Proof.
  unfold plugin_configuration, chosen_plugin, resolved.
  destruct (use_plugin opts) as [f |].
  - destruct (ants_nthreads st =? 0); reflexivity.
  - destruct (nthreads st =? 0) eqn:Hn.
    + destruct (tbind _ _) eqn:Ht; [| reflexivity].
      cbn [ants_nthreads set_nthreads].
      destruct (ants_nthreads st =? 0); reflexivity.
    + replace (set_nthreads (nthreads st) st) with st by now destruct st.
      destruct (tbind _ _) eqn:Ht; [| reflexivity].
      destruct (ants_nthreads st =? 0); reflexivity.
Qed.

(** What the block makes of the settings.  The default of [ants_nthreads]
    comes after the division, and is not reached when that raised. *)
Lemma plugin_configuration_settings (opts : options) (st : settings) (w : world) :
  let st' := fst (fst (plugin_configuration E opts st w)) in
  nthreads st' =
    match use_plugin opts with
    | Some _ => nthreads st
    | None => resolved (cpu_count E) (nthreads st)
    end /\
  ants_nthreads st' =
    match chosen_plugin E opts st with
    | Returns _ => resolved (cpu_count E) (ants_nthreads st)
    | Raises _ => ants_nthreads st
    end /\
  mem_mb st' = mem_mb st /\
  bids_root st' = bids_root st /\
  output_dir st' = output_dir st /\
  work_dir st' = work_dir st /\
  write_graph st' = write_graph st.
Proof.
  unfold plugin_configuration, chosen_plugin, resolved.
  destruct (use_plugin opts) as [f |].
  - destruct (ants_nthreads st =? 0); cbn; auto 10.
  - destruct (nthreads st =? 0) eqn:Hn.
    + destruct (tbind _ _) eqn:Ht; [| cbn; auto 10].
      cbn [ants_nthreads set_nthreads].
      destruct (ants_nthreads st =? 0); cbn; auto 10.
    + replace (set_nthreads (nthreads st) st) with st by now destruct st.
      destruct (tbind _ _) eqn:Ht; [| cbn; auto 10].
      destruct (ants_nthreads st =? 0); cbn; auto 10.
Qed.

(** The block touches neither the directories nor the engine, and does not
    scan the dataset. *)
Lemma plugin_configuration_world (opts : options) (st : settings) (w : world) :
  let w' := snd (fst (plugin_configuration E opts st w)) in
  fs w' = fs w /\ ncfg w' = ncfg w /\ objects w' = objects w /\
  exists t, trace w' = trace w ++ t /\ Forall (fun e => is_glob e = false) t.
Proof.
  assert (Hnil : forall w0 : world,
            exists t, trace w0 = trace w0 ++ t /\
                      Forall (fun e => is_glob e = false) t).
  { intros w0. exists []. split; [now rewrite app_nil_r | constructor]. }
  assert (Hone : forall (w0 : world) e, is_glob e = false ->
            exists t, trace w0 ++ [e] = trace w0 ++ t /\
                      Forall (fun e => is_glob e = false) t).
  { intros w0 e He. exists [e]. split; [reflexivity | now constructor]. }
  assert (Htwo : forall (w0 : world) e1 e2,
            is_glob e1 = false -> is_glob e2 = false ->
            exists t, (trace w0 ++ [e1]) ++ [e2] = trace w0 ++ t /\
                      Forall (fun e => is_glob e = false) t).
  { intros w0 e1 e2 H1 H2. exists [e1; e2].
    split; [now rewrite <- app_assoc | now repeat constructor]. }
  unfold plugin_configuration.
  destruct (use_plugin opts) as [f |].
  - destruct (ants_nthreads st =? 0); cbn [fst snd fs ncfg objects trace emit];
      repeat (split; [reflexivity |]); auto.
  - destruct (nthreads st =? 0);
      (destruct (tbind _ _);
       [cbn [ants_nthreads set_nthreads];
        destruct (ants_nthreads st =? 0) |]);
      cbn [fst snd fs ncfg objects trace emit];
      repeat (split; [reflexivity |]); auto.
Qed.

Lemma determine_subjects_world (opts : options) (st : settings) (w : world) :
  let w' := snd (determine_subjects E opts st w) in
  fs w' = fs w /\ ncfg w' = ncfg w /\ objects w' = objects w /\
  exists t, trace w' = trace w ++ t.
Proof.
  unfold determine_subjects.
  destruct (participant_label opts) as [[| s l] |];
    cbn [snd fs ncfg objects trace emit]; repeat (split; [reflexivity |]);
    try rewrite <- app_assoc; eauto.
Qed.

(** With labels the list is kept and the dataset is not scanned. *)
Lemma determine_subjects_labels (opts : options) (st : settings) (w : world)
    (s : string) (l : list string) :
  participant_label opts = Some (s :: l) ->
  fst (determine_subjects E opts st w) = s :: l /\
  exists t, trace (snd (determine_subjects E opts st w)) = trace w ++ t /\
            Forall (fun e => is_glob e = false) t.
Proof.
  intros H. unfold determine_subjects. rewrite H. cbn [fst snd trace emit].
  split; [reflexivity |]. eexists. split; [reflexivity |].
  now repeat constructor.
Qed.

(** Without labels the list comes from the scan. *)
Lemma determine_subjects_scan (opts : options) (st : settings) (w : world) :
  participant_label opts = None \/ participant_label opts = Some [] ->
  fst (determine_subjects E opts st w)
  = map (fun subdir => Path.drop_chars 4 (Path.basename subdir))
        (glob_sub E (bids_root st)).
Proof.
  unfold determine_subjects. intros [-> | ->]; reflexivity.
Qed.

(** The last block: it raises what the enumerator raises, and otherwise
    reaches [run], whose end decides the outcome. *)
Lemma build_and_run_spec (opts : options) (st : settings) (ps : pyval)
    (sl : list string) (w : world) :
  let r := build_and_run E opts st ps sl w in
  r_settings r = st /\ r_plugin_settings r = Some ps /\
  r_subject_list r = Some sl /\
  fs (r_world r) = fs w /\ ncfg (r_world r) = ncfg w /\
  match fmap_enumerator E sl st (ncfg w) (objects w) with
  | Raises e =>
      r_workflow r = None /\ r_raised r = None /\ r_outcome r = Raised e /\
      r_world r = w
  | Returns (wf, o) =>
      r_workflow r = Some (set_base_dir (work_dir st) wf) /\
      r_raised r = run E (set_base_dir (work_dir st) wf) ps (set_objects o w) /\
      r_outcome r = exit_of (r_raised r) /\
      objects (r_world r) = o /\
      trace (r_world r)
      = trace w ++ EvRun ps
          :: Observations.run_tail (opt_write_graph opts) (r_raised r)
  end.
Proof.
  unfold build_and_run.
  destruct (fmap_enumerator E sl st (ncfg w) (objects w)) as [[wf o] | e].
  - cbn [r_settings r_plugin_settings r_subject_list r_workflow r_raised
         r_outcome r_world]. unfold Observations.run_tail.
    destruct (exit_of _); [destruct (opt_write_graph opts) |];
      cbn [fs ncfg objects trace emit set_objects app];
      rewrite <- ?app_assoc; auto 12.
  - cbn. auto 12.
Qed.

(** The call, block by block. *)
Lemma create_workflow_blocks (opts : options) (w : world) :
  let st0 := initial_settings E opts in
  let w1 := set_nipype_config st0 (create_directories st0 w) in
  let p := plugin_configuration E opts st0 w1 in
  create_workflow E opts w =
    match snd p with
    | Raises e =>
        mkResult (fst (fst p)) None None None (snd (fst p)) None (Raised e)
    | Returns ps =>
        let d := determine_subjects E opts (fst (fst p)) (snd (fst p)) in
        build_and_run E opts (fst (fst p)) ps (fst d) (snd d)
    end.
Proof.
  unfold create_workflow.
  destruct (plugin_configuration E opts _ _) as [[st w'] [ps | e]];
    cbn [fst snd]; [| reflexivity].
  destruct (determine_subjects E opts st w') as [sl w'']. reflexivity.
Qed.

Lemma create_directories_trace (st : settings) (w : world) :
  trace (create_directories st w) =
    trace w ++ [EvMakeFolder (output_dir st); EvMakeFolder (work_dir st);
                EvMakeFolder (Path.join (output_dir st) ["derivatives"]);
                EvMakeFolder (Path.join (output_dir st) ["log"])].
Proof.
  unfold create_directories. rewrite !make_folder_trace, <- !app_assoc.
  reflexivity.
Qed.

Lemma make_folder_engine (p : string) (w : world) :
  ncfg (make_folder p w) = ncfg w /\ objects (make_folder p w) = objects w.
Proof. unfold make_folder. destruct (existsb _ _); split; reflexivity. Qed.

Lemma create_directories_engine (st : settings) (w : world) :
  ncfg (create_directories st w) = ncfg w /\
  objects (create_directories st w) = objects w.
Proof.
  unfold create_directories.
  split; repeat (rewrite (proj1 (make_folder_engine _ _))
                 || rewrite (proj2 (make_folder_engine _ _))); reflexivity.
Qed.

(** Whether the division overflows is decided by the options. *)
Lemma chosen_plugin_overflows (opts : options) :
  match chosen_plugin E opts (initial_settings E opts) with
  | Returns _ => overflows E opts = false
  | Raises e => e = OverflowError /\ overflows E opts = true
  end.
Proof.
  unfold chosen_plugin, overflows. destruct (use_plugin opts); [reflexivity |].
  rewrite setup_multiprocessing_spec.
  cbn [nthreads mem_mb set_nthreads initial_settings].
  destruct (1 <? _); [| reflexivity].
  destruct (opt_mem_mb opts =? 0); [reflexivity |].
  destruct (true_divide_1024 _); cbn; auto.
Qed.

Lemma before_subjects_world (opts : options) (w : world) :
  let st0 := initial_settings E opts in
  let w2 := before_subjects E opts w in
  fs w2 = fs (create_directories st0 w) /\
  ncfg w2 = ncfg (set_nipype_config st0 w) /\
  objects w2 = objects w /\
  exists t, trace w2 = trace (create_directories st0 w) ++ EvUpdateConfig :: t /\
            Forall (fun e => is_glob e = false) t.
Proof.
  cbv zeta. unfold before_subjects.
  destruct (plugin_configuration_world opts (initial_settings E opts)
    (set_nipype_config (initial_settings E opts)
       (create_directories (initial_settings E opts) w)))
    as (Hfs & Hcfg & Hobj & t & Ht & Hg).
  rewrite Hfs, Hcfg, Hobj, Ht.
  destruct (create_directories_engine (initial_settings E opts) w)
    as [Hc Ho].
  split; [reflexivity |]. split.
  { cbn [set_nipype_config update_config emit ncfg]. now rewrite Hc. }
  split; [exact Ho |].
  exists t. rewrite set_nipype_config_trace, <- app_assoc. now split.
Qed.

(** The settings a call ends with. *)
Lemma create_workflow_settings (opts : options) (w : world) :
  let st := r_settings (create_workflow E opts w) in
  nthreads st =
    match use_plugin opts with
    | Some _ => opt_nthreads opts
    | None => resolved (cpu_count E) (opt_nthreads opts)
    end /\
  ants_nthreads st =
    (if overflows E opts then opt_ants_nthreads opts
     else resolved (cpu_count E) (opt_ants_nthreads opts)) /\
  mem_mb st = opt_mem_mb opts /\
  bids_root st = abspath E (bids_dir opts) /\
  output_dir st = abspath E (opt_output_dir opts) /\
  work_dir st = abspath E (opt_work_dir opts) /\
  write_graph st = opt_write_graph opts.
Proof.
  cbv zeta. rewrite create_workflow_blocks. cbv zeta.
  pose proof (plugin_configuration_settings opts (initial_settings E opts)
    (set_nipype_config (initial_settings E opts)
       (create_directories (initial_settings E opts) w))) as Hst.
  pose proof (plugin_configuration_plugin opts (initial_settings E opts)
    (set_nipype_config (initial_settings E opts)
       (create_directories (initial_settings E opts) w))) as Hps.
  pose proof (chosen_plugin_overflows opts) as Hov.
  cbv zeta in Hst. rewrite <- Hps in Hst, Hov.
  destruct (plugin_configuration E opts _ _) as [[st w'] tps].
  cbn [fst snd] in *.
  assert (Hr : r_settings
            match tps with
            | Returns ps =>
                build_and_run E opts st ps
                  (fst (determine_subjects E opts st w'))
                  (snd (determine_subjects E opts st w'))
            | Raises e => mkResult st None None None w' None (Raised e)
            end = st).
  { destruct tps; [| reflexivity]. apply build_and_run_spec. }
  rewrite Hr.
  destruct Hst as (Hn & Ha & Hm & Hb & Ho & Hw & Hg).
  rewrite Hn, Ha, Hm, Hb, Ho, Hw, Hg.
  cbn [nthreads ants_nthreads mem_mb bids_root output_dir work_dir
       write_graph initial_settings].
  destruct tps as [ps | e]; [rewrite Hov | rewrite (proj2 Hov)]; auto 10.
Qed.

(** A call in which the division overflows ends there. *)
Lemma create_workflow_overflow (opts : options) (w : world) :
  overflows E opts = true ->
  let r := create_workflow E opts w in
  r_plugin_settings r = None /\ r_subject_list r = None /\
  r_workflow r = None /\ r_raised r = None /\
  r_outcome r = Raised OverflowError /\
  r_world r = before_subjects E opts w.
Proof.
  intros Hov. cbv zeta. rewrite create_workflow_blocks. cbv zeta.
  pose proof (chosen_plugin_overflows opts) as Hc.
  rewrite <- (plugin_configuration_plugin opts (initial_settings E opts)
    (set_nipype_config (initial_settings E opts)
       (create_directories (initial_settings E opts) w))) in Hc.
  unfold before_subjects.
  destruct (plugin_configuration E opts _ _) as [[st w'] [ps | e]];
    cbn [fst snd] in *; [congruence |].
  destruct Hc as [-> _]. cbn. auto 10.
Qed.

(** Every other call determines its subjects and calls the enumerator. *)
Lemma create_workflow_proceeds (opts : options) (w : world) :
  overflows E opts = false ->
  let r := create_workflow E opts w in
  let d := determine_subjects E opts (r_settings r) (before_subjects E opts w) in
  exists ps,
    chosen_plugin E opts (initial_settings E opts) = Returns ps /\
    r = build_and_run E opts (r_settings r) ps (fst d) (snd d).
Proof.
  intros Hov. cbv zeta.
  assert (Hst : r_settings (create_workflow E opts w)
                = fst (fst (plugin_configuration E opts
                              (initial_settings E opts)
                              (set_nipype_config (initial_settings E opts)
                                 (create_directories
                                    (initial_settings E opts) w))))).
  { rewrite create_workflow_blocks. cbv zeta.
    destruct (plugin_configuration E opts _ _) as [[st w'] [ps | e]];
      cbn [fst snd]; [apply build_and_run_spec | reflexivity]. }
  rewrite Hst. rewrite create_workflow_blocks. cbv zeta.
  pose proof (chosen_plugin_overflows opts) as Hc.
  rewrite <- (plugin_configuration_plugin opts (initial_settings E opts)
    (set_nipype_config (initial_settings E opts)
       (create_directories (initial_settings E opts) w))).
  rewrite <- (plugin_configuration_plugin opts (initial_settings E opts)
    (set_nipype_config (initial_settings E opts)
       (create_directories (initial_settings E opts) w))) in Hc.
  unfold before_subjects.
  destruct (plugin_configuration E opts _ _) as [[st w'] [ps | e]];
    cbn [fst snd] in *.
  - exists ps. split; reflexivity.
  - destruct Hc as [_ Hc]. congruence.
Qed.

(** The two ways a call can go. *)
Lemma create_workflow_cases (opts : options) (w : world) :
  let r := create_workflow E opts w in
  (overflows E opts = true /\
   r_plugin_settings r = None /\ r_subject_list r = None /\
   r_workflow r = None /\ r_raised r = None /\
   r_outcome r = Raised OverflowError /\
   r_world r = before_subjects E opts w)
  \/
  (overflows E opts = false /\
   exists ps sl w3,
     chosen_plugin E opts (initial_settings E opts) = Returns ps /\
     determine_subjects E opts (r_settings r) (before_subjects E opts w)
       = (sl, w3) /\
     r_plugin_settings r = Some ps /\ r_subject_list r = Some sl /\
     fs (r_world r) = fs w3 /\ ncfg (r_world r) = ncfg w3 /\
     ncfg w3 = ncfg (set_nipype_config (initial_settings E opts) w) /\
     objects w3 = objects w /\
     match fmap_enumerator E sl (r_settings r) (ncfg w3) (objects w3) with
     | Raises e =>
         r_workflow r = None /\ r_raised r = None /\ r_outcome r = Raised e /\
         r_world r = w3
     | Returns (wf, o) =>
         r_workflow r = Some (set_base_dir (work_dir (r_settings r)) wf) /\
         r_raised r = run E (set_base_dir (work_dir (r_settings r)) wf) ps
                        (set_objects o w3) /\
         r_outcome r = exit_of (r_raised r) /\
         objects (r_world r) = o /\
         trace (r_world r)
         = trace w3 ++ EvRun ps
             :: Observations.run_tail (opt_write_graph opts) (r_raised r)
     end).
Proof.
  cbv zeta. destruct (overflows E opts) eqn:Hov.
  - left. split; [reflexivity |]. now apply create_workflow_overflow.
  - right. split; [reflexivity |].
    destruct (create_workflow_proceeds opts w Hov) as (ps & Hps & Hr).
    destruct (determine_subjects E opts
                (r_settings (create_workflow E opts w))
                (before_subjects E opts w)) as [sl w3] eqn:Hd.
    cbn [fst snd] in Hr.
    pose proof (determine_subjects_world opts
                  (r_settings (create_workflow E opts w))
                  (before_subjects E opts w)) as (_ & Hc3 & Ho3 & _).
    rewrite Hd in Hc3, Ho3. cbn [snd] in Hc3, Ho3.
    destruct (before_subjects_world opts w) as (_ & Hc2 & Ho2 & _).
    pose proof (build_and_run_spec opts
                  (r_settings (create_workflow E opts w)) ps sl w3) as Hb.
    cbv zeta in Hb. rewrite <- Hr in Hb.
    destruct Hb as (_ & Hb1 & Hb2 & Hb3 & Hb4 & Hb5).
    exists ps, sl, w3.
    split; [exact Hps |]. split; [reflexivity |].
    split; [exact Hb1 |]. split; [exact Hb2 |].
    split; [exact Hb3 |]. split; [exact Hb4 |].
    split; [now rewrite Hc3 |]. split; [now rewrite Ho3 |].
    exact Hb5.
Qed.

(** A call reaches [run] exactly when the division did not overflow and
    the subject list has at most one entry: from the second subject on the
    engine refuses the graph, whose name is that of the first. *)
Lemma reached_run_iff (opts : options) (w : world) :
  let r := create_workflow E opts w in
  reached_run r = true <->
  exists sl, r_subject_list r = Some sl /\ (length sl <= 1)%nat.
Proof.
  cbv zeta. unfold reached_run.
  destruct (create_workflow_cases opts w)
    as [(_ & _ & Hsl & Hwf & _) |
        (_ & ps & sl & w3 & _ & _ & _ & Hsl & _ & _ & _ & _ & Hen)].
  - rewrite Hwf, Hsl. split; [discriminate |]. now intros (sl & Hs & _).
  - rewrite Hsl. destruct sl as [| s1 [| s2 rest]].
    + rewrite fmap_enumerator_nil in Hen. destruct Hen as (-> & _).
      split; [| reflexivity]. intros _. exists []. split; [reflexivity |].
      cbn. lia.
    + destruct (fmap_enumerator_single E s1
                  (r_settings (create_workflow E opts w)) (ncfg w3)
                  (objects w3)) as (fw & o' & Hrun & _).
      rewrite Hrun in Hen. destruct Hen as (-> & _).
      split; [| reflexivity]. intros _. exists [s1].
      split; [reflexivity |]. cbn. lia.
    + rewrite fmap_enumerator_many in Hen. destruct Hen as (-> & _).
      split; [discriminate |]. intros (sl & Hs & Hlen).
      injection Hs as <-. cbn in Hlen. lia.
Qed.

(** After the first two blocks nothing touches the directories or the
    engine's configuration. *)
Lemma create_workflow_world (opts : options) (w : world) :
  let r := create_workflow E opts w in
  let st0 := initial_settings E opts in
  fs (r_world r) = fs (create_directories st0 w) /\
  ncfg (r_world r) = ncfg (set_nipype_config st0 w) /\
  exists t, trace (r_world r)
            = trace (create_directories st0 w) ++ EvUpdateConfig :: t.
Proof.
  cbv zeta.
  destruct (before_subjects_world opts w) as (Hfs2 & Hc2 & _ & t2 & Ht2 & _).
  destruct (create_workflow_cases opts w)
    as [(_ & _ & _ & _ & _ & _ & ->) |
        (_ & ps & sl & w3 & _ & Hd & _ & _ & Hfs & Hc & Hc3 & _ & Hen)].
  - split; [exact Hfs2 |]. split; [exact Hc2 |]. now exists t2.
  - pose proof (determine_subjects_world opts
                  (r_settings (create_workflow E opts w))
                  (before_subjects E opts w)) as (Hfs3 & _ & _ & t3 & Ht3).
    rewrite Hd in Hfs3, Ht3. cbn [snd] in Hfs3, Ht3.
    split; [now rewrite Hfs, Hfs3 |]. split; [now rewrite Hc |].
    destruct (fmap_enumerator E sl _ _ _) as [[wf o] | e].
    + destruct Hen as (_ & _ & _ & _ & ->). rewrite Ht3, Ht2.
      rewrite <- !app_assoc. cbn [app]. eexists. reflexivity.
    + destruct Hen as (_ & _ & _ & ->). rewrite Ht3, Ht2.
      rewrite <- !app_assoc. cbn [app]. eexists. reflexivity.
Qed.
(** The subjects found by the scan of a root read literally: every entry
    of the dataset root whose name matches, file or directory. *)
Lemma glob_subjects (root : string) :
  has_magic root = false ->
  map (fun subdir => Path.drop_chars 4 (Path.basename subdir)) (glob_sub E root)
  = map (fun d => Path.drop_chars 4 (d_name d))
        (List.filter (fun d => matches_sub (d_name d)) (listdir E root)).
Proof.
  intros Hm. unfold glob_sub. rewrite Hm, map_map. apply map_ext. intros d.
  now rewrite basename_join by apply d_name_ok.
Qed.

(** The subject list of a call that scans a root read literally. *)
Lemma create_workflow_scan (opts : options) (w : world) :
  participant_label opts = None \/ participant_label opts = Some [] ->
  has_magic (abspath E (bids_dir opts)) = false ->
  r_subject_list (create_workflow E opts w)
  = if overflows E opts then None
    else Some (map (fun d => Path.drop_chars 4 (d_name d))
                 (List.filter (fun d => matches_sub (d_name d))
                    (listdir E (abspath E (bids_dir opts))))).
Proof.
  intros Hlabel Hmagic.
  destruct (create_workflow_settings opts w) as (_ & _ & _ & Hroot & _).
  destruct (create_workflow_cases opts w)
    as [(-> & _ & Hsl & _) |
        (-> & ps & sl & w3 & _ & Hd & _ & Hsl & _)]; [exact Hsl |].
  rewrite Hsl. f_equal.
  pose proof (determine_subjects_scan opts
                (r_settings (create_workflow E opts w))
                (before_subjects E opts w) Hlabel) as Hscan.
  rewrite Hd in Hscan. cbn [fst] in Hscan.
  rewrite Hscan, Hroot. now apply glob_subjects.
Qed.

(** The subject list is logged once it is determined. *)
Lemma determine_subjects_log (opts : options) (st : settings) (w : world) :
  exists pre,
    trace (snd (determine_subjects E opts st w))
    = pre ++ [EvLog ("Subject list: " +:+
                     Path.str_join ", " (fst (determine_subjects E opts st w)))].
Proof.
  unfold determine_subjects.
  destruct (participant_label opts) as [[| s l] |]; cbn [fst snd trace emit];
    eexists; reflexivity.
Qed.

(** What [fmap_enumerator] returns when it returns: the list had at most
    one subject, and the enclosing workflow has one node per subject. *)
Lemma fmap_enumerator_returns (sl : list string) (st : settings) (g : config)
    (o o' : store) (wf : workflow SD) :
  fmap_enumerator E sl st g o = Returns (wf, o') ->
  (length sl <= 1)%nat /\
  (forall j, (j < length o)%nat -> o' !! j = o !! j) /\
  read_config o' (S (length o)) = Some g /\
  exists fws,
    wf = GWorkflow (length o) "workflow_enumerator" None (S (length o)) fws []
    /\ length fws = length sl.
Proof.
  assert (Hkeep : forall (o1 : store),
            (forall j, (j < length o + 2)%nat ->
               o1 !! j = (o ++ [CObj; CConfig g]) !! j) ->
            (forall j, (j < length o)%nat -> o1 !! j = o !! j) /\
            read_config o1 (S (length o)) = Some g).
  { intros o1 H. split.
    - intros j Hj. rewrite H by lia. now rewrite lookup_app_l.
    - unfold read_config. rewrite H by lia. rewrite lookup_app_r by lia.
      replace (S (length o) - length o)%nat with 1%nat by lia. reflexivity. }
  destruct sl as [| s1 [| s2 rest]]; intros H.
  - rewrite fmap_enumerator_nil in H. injection H as <- <-.
    split; [cbn; lia |].
    destruct (Hkeep (o ++ [CObj; CConfig g])) as [H1 H2]; [reflexivity |].
    split; [exact H1 |]. split; [exact H2 |]. now exists [].
  - destruct (fmap_enumerator_single E s1 st g o)
      as (fw & o1 & Hrun & Hk & _).
    rewrite Hrun in H. injection H as <- <-.
    split; [cbn; lia |].
    destruct (Hkeep o1 Hk) as [H1 H2].
    split; [exact H1 |]. split; [exact H2 |]. now exists [fw].
  - rewrite fmap_enumerator_many in H. discriminate.
Qed.

(** A call that reaches [run]. *)
Lemma create_workflow_run (opts : options) (w : world) :
  let r := create_workflow E opts w in
  reached_run r = true ->
  exists ps sl wf0 o pre,
    r_plugin_settings r = Some ps /\ r_subject_list r = Some sl /\
    fmap_enumerator E sl (r_settings r)
      (ncfg (set_nipype_config (initial_settings E opts) w)) (objects w)
    = Returns (wf0, o) /\
    r_workflow r = Some (set_base_dir (work_dir (r_settings r)) wf0) /\
    (exists w_run,
       r_raised r
       = run E (set_base_dir (work_dir (r_settings r)) wf0) ps w_run) /\
    r_outcome r = exit_of (r_raised r) /\
    objects (r_world r) = o /\
    trace (r_world r)
    = pre ++ EvLog ("Subject list: " +:+ Path.str_join ", " sl)
        :: EvRun ps
        :: Observations.run_tail (opt_write_graph opts) (r_raised r).
Proof.
  cbv zeta. unfold reached_run.
  destruct (create_workflow_cases opts w)
    as [(_ & _ & _ & -> & _) |
        (_ & ps & sl & w3 & _ & Hd & Hps & Hsl & _ & _ & Hc3 & Ho3 & Hen)];
    [discriminate |].
  rewrite Hc3, Ho3 in Hen.
  destruct (fmap_enumerator E sl _ _ _) as [[wf0 o] | e] eqn:Hrun.
  - intros _. destruct Hen as (Hwf & Hra & Hout & Hobj & Htr).
    destruct (determine_subjects_log opts
                (r_settings (create_workflow E opts w))
                (before_subjects E opts w)) as [pre Hlog].
    rewrite Hd in Hlog. cbn [fst snd] in Hlog.
    exists ps, sl, wf0, o, pre.
    repeat (split; [assumption || eauto |]).
    rewrite Htr, Hlog, <- app_assoc. reflexivity.
  - destruct Hen as (-> & _). discriminate.
Qed.

(** A call that does not reach [run] has raised. *)
Lemma create_workflow_not_run (opts : options) (w : world) :
  let r := create_workflow E opts w in
  reached_run r = false ->
  r_raised r = None /\ exists e, r_outcome r = Raised e.
Proof.
  cbv zeta. unfold reached_run.
  destruct (create_workflow_cases opts w)
    as [(_ & _ & _ & _ & Hra & Hout & _) |
        (_ & ps & sl & w3 & _ & _ & _ & _ & _ & _ & _ & _ & Hen)].
  - intros _. eauto.
  - destruct (fmap_enumerator E sl _ _ _) as [[wf0 o] | e].
    + destruct Hen as (-> & _). discriminate.
    + destruct Hen as (_ & Hra & Hout & _). intros _. eauto.
Qed.

End CreateWorkflowFacts.

(** * The claims *)

Section Claims.
Import Engine Views Fmaps.
Context {SD : Type} (E : Env SD).

(** C1.  In a call of [create_workflow] that reaches [run], what [run]
    does decides how the call ends: the exit status is 0 when [run]
    returned without raising and 1 when it raised a [RuntimeError].  A call
    that does not reach [run] has raised before and has no exit status. *)
Theorem exit_status (opts : options) (w : world) :
  let r := create_workflow E opts w in
  (reached_run r = true ->
   exists wf ps w_run,
     r_workflow r = Some wf /\ r_plugin_settings r = Some ps /\
     r_raised r = run E wf ps w_run /\
     (r_raised r = None -> r_outcome r = Exited 0) /\
     (forall e, r_raised r = Some e -> is_RuntimeError e = true ->
                r_outcome r = Exited 1)) /\
  (reached_run r = false ->
   r_raised r = None /\ exists e, r_outcome r = Raised e).
Proof.
  cbv zeta. unfold reached_run.
  destruct (create_workflow_cases E opts w)
    as [(_ & _ & _ & Hwf & Hra & Hout & _) |
        (_ & ps & sl & w3 & _ & _ & Hps & _ & _ & _ & _ & _ & Hen)].
  - rewrite Hwf. split; [discriminate |]. intros _. eauto.
  - destruct (fmap_enumerator E sl _ _ _) as [[wf o] | e].
    + destruct Hen as (Hwf & Hra & Hout & _). rewrite Hwf.
      split; [| discriminate]. intros _.
      eexists _, ps, _. split; [reflexivity |]. split; [exact Hps |].
      split; [exact Hra |]. split.
      * intros H. now rewrite Hout, H.
      * intros e H He. rewrite Hout, H. cbn [exit_of]. now rewrite He.
    + destruct Hen as (Hwf & Hra & Hout & _). rewrite Hwf.
      split; [discriminate |]. intros _. eauto.
Qed.

(** C2, amended.  When no participant label is supplied (the option is
    [None] or an empty list) and the path of the dataset root holds none of
    the characters [*], [?] and [[], a call that gets as far as determining
    its subjects takes for them every entry of the dataset root, directory
    or not, whose name matches ['sub-*'], in listing order, each name
    without its first four characters, which are the prefix ['sub-'].  Only
    a call whose memory division overflowed does not get that far. *)
Theorem subject_list_from_glob (opts : options) (w : world) :
  participant_label opts = None \/ participant_label opts = Some [] ->
  has_magic (abspath E (bids_dir opts)) = false ->
  let r := create_workflow E opts w in
  let matching := List.filter (fun d => matches_sub (d_name d))
                    (listdir E (abspath E (bids_dir opts))) in
  let found := map (fun d => Path.drop_chars 4 (d_name d)) matching in
  r_subject_list r = (if overflows E opts then None else Some found) /\
  Forall2 (fun d s => d_name d = "sub-" +:+ s) matching found.
Proof.
  intros Hlabel Hmagic. cbv zeta. split.
  - now apply create_workflow_scan.
  - apply Forall2_fmap_r, Forall_Forall2_diag, Forall_forall.
    intros d Hd. apply list_elem_of_In, filter_In in Hd.
    now apply matches_sub_prefix.
Qed.

(** C8.  When a non-empty list of participant labels is supplied, the
    subject list is that list, and the call does not scan the dataset for
    subjects.  (A call whose memory division overflowed has ended before
    it has a subject list.) *)
Theorem supplied_labels_kept (opts : options) (w : world) (s : string)
    (l : list string) :
  participant_label opts = Some (s :: l) ->
  let r := create_workflow E opts w in
  r_subject_list r = (if overflows E opts then None else Some (s :: l)) /\
  exists t, trace (r_world r) = trace w ++ t /\
            Forall (fun e => is_glob e = false) t.
Proof.
  intros Hlabel. cbv zeta.
  destruct (before_subjects_world E opts w) as (_ & _ & _ & t2 & Ht2 & Hg2).
  rewrite create_directories_trace in Ht2.
  assert (Hpre : exists t, trace (before_subjects E opts w) = trace w ++ t /\
                           Forall (fun e => is_glob e = false) t).
  { rewrite Ht2, <- app_assoc. eexists. split; [reflexivity |].
    cbn [app]. repeat (constructor; [reflexivity |]). exact Hg2. }
  destruct Hpre as (t & Ht & Hg).
  destruct (create_workflow_cases E opts w)
    as [(-> & _ & Hsl & _ & _ & _ & Hw) |
        (-> & ps & sl & w3 & _ & Hd & _ & Hsl & _ & _ & _ & _ & Hen)].
  - split; [exact Hsl |]. rewrite Hw. eauto.
  - destruct (determine_subjects_labels E opts
                (r_settings (create_workflow E opts w))
                (before_subjects E opts w) s l Hlabel)
      as (Hlist & t3 & Ht3 & Hg3).
    rewrite Hd in Hlist, Ht3. cbn [fst snd] in Hlist, Ht3. subst sl.
    split; [exact Hsl |].
    destruct (fmap_enumerator E (s :: l) _ _ _) as [[wf o] | e].
    + destruct Hen as (_ & _ & _ & _ & ->). rewrite Ht3, Ht.
      rewrite <- !app_assoc. eexists. split; [reflexivity |].
      apply Forall_app. split; [exact Hg |].
      apply Forall_app. split; [exact Hg3 |].
      constructor; [reflexivity |]. unfold Observations.run_tail.
      destruct (exit_of _); [destruct (opt_write_graph opts) |];
        now repeat constructor.
    + destruct Hen as (_ & _ & _ & ->). rewrite Ht3, Ht.
      rewrite <- !app_assoc. eexists. split; [reflexivity |].
      apply Forall_app. now split.
Qed.

(** The plugin settings of a call without plugin file, from its options. *)
Lemma chosen_plugin_none (opts : options) :
  use_plugin opts = None ->
  let n := resolved (cpu_count E) (opt_nthreads opts) in
  let m := opt_mem_mb opts in
  chosen_plugin E opts (initial_settings E opts) =
    if 1 <? n then
      if m =? 0 then
        Returns (PDict {[ "plugin_args" := PDict {[ "n_procs" := PInt n ]};
                          "plugin" := PStr "MultiProc" ]})
      else
        match true_divide_1024 m with
        | Some q =>
            Returns (PDict {[ "plugin_args" :=
                                PDict {[ "memory_gb" := PNum q;
                                         "n_procs" := PInt n ]};
                              "plugin" := PStr "MultiProc" ]})
        | None => Raises OverflowError
        end
    else Returns (PDict {[ "plugin" := PStr "Linear" ]}).
Proof.
  intros Hplugin. cbv zeta. unfold chosen_plugin. rewrite Hplugin.
  rewrite setup_multiprocessing_spec.
  cbn [nthreads mem_mb set_nthreads initial_settings].
  destruct (1 <? _); [| reflexivity].
  destruct (opt_mem_mb opts =? 0); [reflexivity |].
  destruct (true_divide_1024 _); reflexivity.
Qed.

(** The plugin settings a call ends with are those the plugin block
    chose. *)
Lemma create_workflow_plugin (opts : options) (w : world) :
  r_plugin_settings (create_workflow E opts w) =
    match chosen_plugin E opts (initial_settings E opts) with
    | Returns ps => Some ps
    | Raises _ => None
    end.
Proof.
  pose proof (chosen_plugin_overflows E opts) as Hc.
  destruct (create_workflow_cases E opts w)
    as [(Hov & Hps & _) | (Hov & ps & sl & w3 & Hch & _ & Hps & _)].
  - destruct (chosen_plugin E opts _); [congruence | exact Hps].
  - now rewrite Hch.
Qed.

(** C3, amended.  Without a plugin file, the thread count is replaced by
    the CPU count of the host when passed as 0 and kept otherwise, and so
    is the tool thread count in every call that gets past the memory
    division; the memory ceiling is kept as passed, and when it is 0 it
    stays 0 and the plugin settings hold no memory budget: they are the
    process count alone under ['MultiProc'], or ['Linear']. *)
Theorem thread_defaults (opts : options) (w : world) :
  use_plugin opts = None ->
  let r := create_workflow E opts w in
  let n := resolved (cpu_count E) (opt_nthreads opts) in
  nthreads (r_settings r) = n /\
  mem_mb (r_settings r) = opt_mem_mb opts /\
  ants_nthreads (r_settings r)
    = (if overflows E opts then opt_ants_nthreads opts
       else resolved (cpu_count E) (opt_ants_nthreads opts)) /\
  (opt_mem_mb opts = 0 ->
   overflows E opts = false /\
   r_plugin_settings r =
     Some (if 1 <? n then
             PDict {[ "plugin_args" := PDict {[ "n_procs" := PInt n ]};
                      "plugin" := PStr "MultiProc" ]}
           else PDict {[ "plugin" := PStr "Linear" ]})).
Proof.
  intros Hplugin. cbv zeta.
  destruct (create_workflow_settings E opts w) as (Hn & Ha & Hm & _).
  rewrite Hplugin in Hn.
  split; [exact Hn |]. split; [exact Hm |]. split; [exact Ha |].
  intros Hzero. split.
  - unfold overflows. rewrite Hplugin, Hzero. cbn [Z.eqb negb].
    now rewrite andb_false_r.
  - rewrite create_workflow_plugin, (chosen_plugin_none opts Hplugin), Hzero.
    cbn [Z.eqb]. now destruct (1 <? _).
Qed.

(** C4, amended.  Without a plugin file, the plugin settings select
    ['MultiProc'] with [n_procs] the resolved thread count when that count
    exceeds 1, without [memory_gb] when the memory ceiling is 0 and
    otherwise with [memory_gb] the float nearest to [mem_mb / 1024], which
    is the quotient itself for ceilings up to [2^53] in magnitude; when the
    count is 1 or less they select ['Linear'] and hold no plugin arguments.
    A ceiling whose quotient no float holds, which takes a magnitude of
    [2^1033] or more, ends the call with [OverflowError].  Whenever the call
    reaches [run], [run] receives these settings. *)
Theorem plugin_selection (opts : options) (w : world) :
  use_plugin opts = None ->
  let r := create_workflow E opts w in
  let n := resolved (cpu_count E) (opt_nthreads opts) in
  let m := opt_mem_mb opts in
  r_plugin_settings r =
    (if 1 <? n then
       if m =? 0 then
         Some (PDict {[ "plugin_args" := PDict {[ "n_procs" := PInt n ]};
                        "plugin" := PStr "MultiProc" ]})
       else
         match true_divide_1024 m with
         | Some q =>
             Some (PDict {[ "plugin_args" :=
                              PDict {[ "memory_gb" := PNum q;
                                       "n_procs" := PInt n ]};
                            "plugin" := PStr "MultiProc" ]})
         | None => None
         end
     else Some (PDict {[ "plugin" := PStr "Linear" ]})) /\
  (Z.abs m <= 2 ^ 53 -> true_divide_1024 m = Some (claimed_memory_gb m)) /\
  (true_divide_1024 m = None -> 2 ^ 1033 <= Z.abs m) /\
  (r_plugin_settings r = None -> r_outcome r = Raised OverflowError) /\
  (forall wf, r_workflow r = Some wf ->
     exists ps w_run,
       r_plugin_settings r = Some ps /\ r_raised r = run E wf ps w_run).
Proof.
  intros Hplugin. cbv zeta. split.
  { rewrite create_workflow_plugin, (chosen_plugin_none opts Hplugin).
    destruct (1 <? _); [| reflexivity].
    destruct (opt_mem_mb opts =? 0); [reflexivity |].
    now destruct (true_divide_1024 _). }
  split; [apply true_divide_exact |].
  split; [apply true_divide_overflow |].
  destruct (create_workflow_cases E opts w)
    as [(_ & _ & _ & Hwf & _ & Hout & _) |
        (_ & ps & sl & w3 & _ & _ & Hps & _ & _ & _ & _ & _ & Hen)].
  - split; [intros _; exact Hout |]. intros wf H. congruence.
  - split; [intros H; congruence |]. intros wf H.
    destruct (fmap_enumerator E sl _ _ _) as [[wf0 o] | e].
    + destruct Hen as (Hwf & Hra & _). rewrite Hwf in H. injection H as <-.
      eauto.
    + destruct Hen as (Hwf & _). congruence.
Qed.

(** C9.  Two calls given the same plugin file end with the same plugin
    settings, those loaded from the file, whatever their thread and memory
    options are, and whichever of them reaches [run] hands these to it; the
    thread count of neither is replaced by the CPU count. *)
Theorem plugin_file_decides (o1 o2 : options) (w1 w2 : world) (f : string) :
  use_plugin o1 = Some f -> use_plugin o2 = Some f ->
  let r1 := create_workflow E o1 w1 in
  let r2 := create_workflow E o2 w2 in
  r_plugin_settings r1 = r_plugin_settings r2 /\
  r_plugin_settings r1 = Some (loadyml E f) /\
  (forall wf, r_workflow r1 = Some wf ->
     exists w_run, r_raised r1 = run E wf (loadyml E f) w_run) /\
  (forall wf, r_workflow r2 = Some wf ->
     exists w_run, r_raised r2 = run E wf (loadyml E f) w_run) /\
  nthreads (r_settings r1) = opt_nthreads o1 /\
  nthreads (r_settings r2) = opt_nthreads o2.
Proof.
  intros H1 H2. cbv zeta.
  assert (Hone : forall o w, use_plugin o = Some f ->
            r_plugin_settings (create_workflow E o w) = Some (loadyml E f) /\
            (forall wf, r_workflow (create_workflow E o w) = Some wf ->
               exists w_run,
                 r_raised (create_workflow E o w)
                 = run E wf (loadyml E f) w_run) /\
            nthreads (r_settings (create_workflow E o w)) = opt_nthreads o).
  { intros o w Ho.
    destruct (create_workflow_settings E o w) as (Hn & _).
    rewrite Ho in Hn.
    assert (Hch : chosen_plugin E o (initial_settings E o)
                  = Returns (loadyml E f))
      by (unfold chosen_plugin; now rewrite Ho).
    split; [now rewrite create_workflow_plugin, Hch |].
    split; [| exact Hn].
    intros wf Hwf.
    destruct (create_workflow_cases E o w)
      as [(_ & _ & _ & Hnone & _) |
          (_ & ps & sl & w3 & Hch' & _ & _ & _ & _ & _ & _ & _ & Hen)];
      [congruence |].
    rewrite Hch in Hch'. injection Hch' as <-.
    destruct (fmap_enumerator E sl _ _ _) as [[wf0 o'] | e].
    - destruct Hen as (Hwf' & Hra & _). rewrite Hwf' in Hwf.
      injection Hwf as <-. eauto.
    - destruct Hen as (Hwf' & _). congruence. }
  destruct (Hone o1 w1 H1) as (Hp1 & Hrun1 & Hn1).
  destruct (Hone o2 w2 H2) as (Hp2 & Hrun2 & Hn2).
  rewrite Hp1, Hp2. auto 10.
Qed.

(** *** Directories *)

Lemma create_directories_In (st : settings) (w : world) :
  Forall (fun p => In p (fs (create_directories st w)))
    [output_dir st; Path.join (output_dir st) ["log"];
     Path.join (output_dir st) ["derivatives"]; work_dir st].
Proof.
  unfold create_directories.
  repeat constructor;
    repeat (apply make_folder_In || apply make_folder_keeps).
Qed.

Lemma create_directories_exists (st : settings) (w : world) :
  Forall (fun p => In p (fs w))
    [output_dir st; Path.join (output_dir st) ["log"];
     Path.join (output_dir st) ["derivatives"]; work_dir st] ->
  fs (create_directories st w) = fs w.
Proof.
  intros H. apply Forall_cons in H as [Hout H].
  apply Forall_cons in H as [Hlog H]. apply Forall_cons in H as [Hder H].
  apply Forall_cons in H as [Hwork _].
  unfold create_directories.
  rewrite (make_folder_exists (Path.join (output_dir st) ["log"])).
  2: { repeat apply make_folder_keeps. assumption. }
  rewrite (make_folder_exists (Path.join (output_dir st) ["derivatives"])).
  2: { repeat apply make_folder_keeps. assumption. }
  rewrite (make_folder_exists (work_dir st)).
  2: { repeat apply make_folder_keeps. assumption. }
  now apply make_folder_exists.
Qed.

Lemma create_directories_NoDup (st : settings) (w : world) :
  List.NoDup (fs w) -> List.NoDup (fs (create_directories st w)).
Proof.
  intros H. unfold create_directories. now repeat apply make_folder_NoDup.
Qed.

(** C6.  Every call creates the output directory, its [log] and
    [derivatives] subdirectories and the working directory, before anything
    else it does; a directory that exists is not added again, and a second
    call with the same paths goes through the same four steps and leaves
    the directories as they are. *)
Theorem directories_created (opts : options) (w : world) :
  let r := create_workflow E opts w in
  let out := abspath E (opt_output_dir opts) in
  let work := abspath E (opt_work_dir opts) in
  let dirs := [out; Path.join out ["log"]; Path.join out ["derivatives"];
               work] in
  let made := [EvMakeFolder out; EvMakeFolder work;
               EvMakeFolder (Path.join out ["derivatives"]);
               EvMakeFolder (Path.join out ["log"])] in
  Forall (fun p => In p (fs (r_world r))) dirs /\
  (exists t, trace (r_world r) = trace w ++ made ++ EvUpdateConfig :: t) /\
  (List.NoDup (fs w) -> List.NoDup (fs (r_world r))) /\
  (forall opts',
     opt_output_dir opts' = opt_output_dir opts ->
     opt_work_dir opts' = opt_work_dir opts ->
     let r' := create_workflow E opts' (r_world r) in
     fs (r_world r') = fs (r_world r) /\
     exists t', trace (r_world r')
                = trace (r_world r) ++ made ++ EvUpdateConfig :: t').
Proof.
  cbv zeta.
  destruct (create_workflow_world E opts w) as (Hfs & _ & t & Ht).
  pose proof (create_directories_In (initial_settings E opts) w) as Hin.
  cbn [output_dir work_dir initial_settings] in Hin.
  split; [now rewrite Hfs |].
  split.
  { exists t. rewrite Ht, create_directories_trace, <- app_assoc.
    reflexivity. }
  split.
  { intros Hnd. rewrite Hfs. now apply create_directories_NoDup. }
  intros opts' Hout Hwork.
  destruct (create_workflow_world E opts' (r_world (create_workflow E opts w)))
    as (Hfs' & _ & t' & Ht').
  split.
  - rewrite Hfs'. apply create_directories_exists.
    cbn [output_dir work_dir initial_settings]. rewrite Hout, Hwork, Hfs.
    exact Hin.
  - exists t'. rewrite Ht', create_directories_trace, <- app_assoc.
    cbn [output_dir work_dir initial_settings]. now rewrite Hout, Hwork.
Qed.

(** *** The enumerator *)

(** C5, as the code has it.  [fmap_enumerator] returns the enclosing
    workflow for an empty list, and for a list of one subject with the
    graph [sbref_correct] builds from that subject's data, which starts
    with the node that reads them, as its only node.  For a list of two or more subjects it returns nothing: every
    graph is named ['sbref_correct'], the engine refuses a second node of
    that name, and the call raises [IOError] at the second subject. *)
Theorem enumerator_refuses_second_subject (subject_list : list string)
    (st : settings) (g : config) (o : store) :
  match subject_list with
  | [] =>
      fmap_enumerator E [] st g o
      = Returns (GWorkflow (length o) "workflow_enumerator" None
                   (S (length o)) [] [], o ++ [CObj; CConfig g])
  | [s] =>
      exists fw o',
        fmap_enumerator E [s] st g o
        = Returns (GWorkflow (length o) "workflow_enumerator" None
                     (S (length o)) [fw] [], o') /\
        item_name fw = "sbref_correct" /\
        erase_node_configs fw
        = erase_node_configs (subject_graph E st g s (length o + 2)) /\
        exists i c rest,
          wf_items fw
          = GNode i "BIDSDatasource"
              (BIDSDataGrabber (collect_bids_data E (bids_root st) s)) c
            :: rest
  | s1 :: s2 :: rest =>
      fmap_enumerator E (s1 :: s2 :: rest) st g o = Raises IOError
  end.
Proof.
  destruct subject_list as [| s1 [| s2 rest]].
  - apply fmap_enumerator_nil.
  - destruct (fmap_enumerator_single E s1 st g o)
      as (fw & o' & Hrun & _ & Hdone & _).
    destruct (subject_done_head E _ _ _ _ _ _ _ _ Hdone) as (c & rest & Hhd).
    destruct Hdone as (_ & Hnm & _ & Her & _).
    exists fw, o'. repeat (split; [assumption |]). eauto.
  - apply fmap_enumerator_many.
Qed.

(** C10, amended.  After [fmap_enumerator] on one subject, the subject's
    graph starts with the node that reads the subject's data, and every
    node of the graph holds a configuration object of its own, distinct
    from the graph's and from every other node's, whose contents equal
    those of the graph's configuration, with the crash-dump directory
    [os.path.join(output_dir, 'log', subject_id, timestamp)].  That
    directory is [<output_dir>/log/<subject_id>/<timestamp>] when the
    identifier is an ordinary file name (not empty, without separator,
    neither ['.'] nor ['..']) and the output directory is not empty and
    does not end with a separator.  For an ordinary identifier the path
    components of the directory are those of [<output_dir>/log], then the
    identifier, then the time stamp, so that the directories of two
    different ordinary identifiers are different entries of the same
    directory, whatever the time stamps. *)
Theorem node_configs (s : string) (st : settings) (g : config) (o : store) :
  let t := strftime (localtime E 0) in
  exists wf fw o',
    fmap_enumerator E [s] st g o = Returns (wf, o') /\
    wf_items wf = [fw] /\
    (exists i c rest,
       wf_items fw
       = GNode i "BIDSDatasource"
           (BIDSDataGrabber (collect_bids_data E (bids_root st) s)) c
         :: rest) /\
    (forall nd, In nd (get_all_nodes fw) ->
       exists l lw c,
         item_config nd = Some l /\ item_config fw = Some lw /\ l <> lw /\
         read_config o' l = Some c /\ read_config o' lw = Some c /\
         execution c !! "crashdump_dir" = Some (PStr (crashdump_dir st s t))) /\
    NoDup (config_objects fw) /\
    (ordinary_name s = true -> output_dir st <> "" ->
     Path.endswith_sep (output_dir st) = false ->
     crashdump_dir st s t = claimed_crashdump_dir st s t) /\
    (ordinary_name s = true ->
     components (crashdump_dir st s t)
     = components (Path.join (output_dir st) ["log"]) ++ s :: components t) /\
    (forall s' t',
       ordinary_name s = true -> ordinary_name s' = true -> s <> s' ->
       components (crashdump_dir st s t)
       <> components (crashdump_dir st s' (strftime t'))).
Proof.
  cbv zeta.
  destruct (fmap_enumerator_single E s st g o)
    as (fw & o' & Hrun & _ & Hdone & Hcfg).
  eexists _, fw, o'. split; [exact Hrun |]. cbn [wf_items].
  split; [reflexivity |].
  split.
  { destruct (subject_done_head E _ _ _ _ _ _ _ _ Hdone) as (c & rest & ->).
    eauto. }
  split.
  { intros nd Hnd.
    replace (length o + 7)%nat with (length o + 2 + 5)%nat in Hcfg by lia.
    destruct (subject_done_node E _ _ _ _ _ _ _ nd _ Hdone Hcfg Hnd)
      as (l & Hl & Hlw & Hne & Hread).
    exists l, (length o + 2 + 5)%nat, (Observations.subject_config E st g 0 s).
    repeat (split; [assumption |]).
    unfold Observations.subject_config. cbn [execution].
    apply lookup_insert_eq. }
  split; [eapply subject_done_objects; eauto |].
  split.
  { intros Hs Hne Hend.
    apply crashdump_dir_claimed; auto using strftime_no_sep. }
  split.
  { intros Hs. apply crashdump_components; auto using strftime_no_sep. }
  intros s' t' Hs Hs' Hne Heq. apply Hne.
  exact (crashdump_components_inj st s s' _ _ Hs Hs'
           (strftime_no_sep _) (strftime_no_sep _) Heq).
Qed.

End Claims.

(** ** The utility workflow *)

Section UtilClaims.
Import Engine Views.

Lemma node_decl_shift (n : loc) (its : list (graph_item Util.interface)) :
  map Util.node_decl (map (shift_id n) its) = map Util.node_decl its.
Proof.
  rewrite map_map. apply map_ext. intros [? ? ? ? | ? ? ? ? ? ?]; reflexivity.
Qed.

(** The nodes of the graph, whatever the call. *)
Lemma enhance_wf_nodes (name : string) (g : config) (n : loc) :
  Util.declared_nodes
    (fst (Util.init_enhance_and_skullstrip_epi_wf name g n)) = Util.epi_nodes.
Proof.
  unfold Util.init_enhance_and_skullstrip_epi_wf,
    bbind, Node, Workflow, bret, connect.
  cbn [length app fst].
  unfold Util.declared_nodes. cbn [wf_items connection_items flat_map app].
  rewrite <- !Nat.add_assoc. cbn [Nat.add].
  match goal with
  | |- context [add_new ?L []] =>
      let F := eval pattern n in L in
      match F with
      | ?f n => let L0 := eval cbv in (f 0%nat) in
                change L with (map (shift_id n) L0)
      end
  end.
  rewrite add_new_shift_nil, node_decl_shift.
  vm_compute. reflexivity.
Qed.

(** The edges of the graph, whatever the call. *)
Lemma enhance_wf_shape (name : string) (g : config) (n : loc) :
  exists its,
    fst (Util.init_enhance_and_skullstrip_epi_wf name g n) =
    GWorkflow n name None (S n) its Util.epi_edges.
Proof.
  unfold Util.init_enhance_and_skullstrip_epi_wf,
    bbind, Node, Workflow, bret, connect.
  cbn [length app fst].
  cbn [connection_edges flat_map map item_name fst snd app].
  eexists. reflexivity.
Qed.

Lemma enhance_wf_summary (w : graph_item Util.interface) (name : string)
    (n : loc) (its : list (graph_item Util.interface)) :
  Util.declared_nodes w = Util.epi_nodes ->
  w = GWorkflow n name None (S n) its Util.epi_edges ->
  item_name w = name /\
  Util.declared_nodes w = Util.epi_nodes /\
  wf_edges w = Util.epi_edges /\
  length (wf_items w) = 9%nat /\
  Util.count_nodes (fun f => negb (Util.is_identity f)) w = 7%nat /\
  length (wf_edges w) = 14%nat.
Proof.
  intros Hn Hw.
  assert (Hlen : length (wf_items w) = 9%nat).
  { rewrite <- (length_map Util.node_decl).
    fold (Util.declared_nodes w). rewrite Hn. reflexivity. }
  unfold Util.count_nodes. rewrite Hn, Hlen. rewrite Hw.
  repeat split; reflexivity.
Qed.

(** C7, amended.  Whatever its argument and the state of the engine,
    [init_enhance_and_skullstrip_epi_wf] declares the same nine nodes, an
    input and an output node that pass fields along and seven nodes that
    run a tool, and the same fourteen data-flow edges; only the name of the
    workflow follows the argument. *)
Theorem enhance_wf_fixed (name : string) (g : config) (n : loc) :
  let w := fst (Util.init_enhance_and_skullstrip_epi_wf name g n) in
  item_name w = name /\
  Util.declared_nodes w = Util.epi_nodes /\
  wf_edges w = Util.epi_edges /\
  length (wf_items w) = 9%nat /\
  Util.count_nodes (fun f => negb (Util.is_identity f)) w = 7%nat /\
  length (wf_edges w) = 14%nat.
Proof.
  destruct (enhance_wf_shape name g n) as [its Hw].
  exact (enhance_wf_summary _ name n its (enhance_wf_nodes name g n) Hw).
Qed.

End UtilClaims.

(** ** The claims at concrete calls *)

Section Instances.
Import Engine Views Fmaps.

(** C1 at a call with one label whose run raises [RuntimeError]: the exit
    status is 1. *)
Lemma exit_status_witness :
  reached_run
    (create_workflow (Examples.env (Some RuntimeError)) Examples.opts_label
       Examples.world0) = true /\
  r_outcome
    (create_workflow (Examples.env (Some RuntimeError)) Examples.opts_label
       Examples.world0) = Exited 1.
Proof.
  assert (Hr : reached_run
                 (create_workflow (Examples.env (Some RuntimeError))
                    Examples.opts_label Examples.world0) = true)
    by (vm_compute; reflexivity).
  split; [exact Hr |].
  destruct (proj1 (exit_status (Examples.env (Some RuntimeError))
                     Examples.opts_label Examples.world0) Hr)
    as (wf & ps & w_run & _ & _ & Hrun & _ & H1).
  apply (H1 RuntimeError); [| reflexivity].
  rewrite Hrun. reflexivity.
Defined.

(** C2 as stated fails: a plain file whose name starts with ['sub-'] is
    taken for a subject, in a call that runs to its end. *)
Lemma subject_list_not_directories_only :
  participant_label Examples.opts_notes = None /\
  r_subject_list
    (create_workflow (Examples.env None) Examples.opts_notes Examples.world0)
  = Some ["notes.txt"] /\
  claimed_subject_list (Examples.env None) "/notes" = [] /\
  r_outcome
    (create_workflow (Examples.env None) Examples.opts_notes Examples.world0)
  = Exited 0 /\
  r_subject_list
    (create_workflow (Examples.env None) Examples.opts_notes Examples.world0)
  <> Some (claimed_subject_list (Examples.env None) "/notes").
Proof.
  split; [reflexivity |].
  split; [vm_compute; reflexivity |].
  split; [vm_compute; reflexivity |].
  split; [vm_compute; reflexivity |].
  vm_compute. discriminate.
Qed.

Lemma subject_list_from_glob_witness :
  (participant_label Examples.opts_single = None \/
   participant_label Examples.opts_single = Some []) /\
  has_magic (abspath (Examples.env None) (bids_dir Examples.opts_single))
  = false /\
  r_subject_list
    (create_workflow (Examples.env None) Examples.opts_single Examples.world0)
  = Some ["01"].
Proof.
  split; [left; reflexivity |]. split; [reflexivity |].
  exact (proj1 (subject_list_from_glob (Examples.env None)
                  Examples.opts_single Examples.world0
                  (or_introl eq_refl) eq_refl)).
Defined.

Lemma supplied_labels_kept_witness :
  participant_label Examples.opts_label = Some ["01"] /\
  r_subject_list
    (create_workflow (Examples.env None) Examples.opts_label Examples.world0)
  = Some ["01"].
Proof.
  split; [reflexivity |].
  exact (proj1 (supplied_labels_kept (Examples.env None) Examples.opts_label
                  Examples.world0 "01" [] eq_refl)).
Defined.

(** C3 as stated fails: a memory ceiling passed as 0 stays 0 on a host with
    four CPUs, and no memory budget reaches the engine. *)
Lemma memory_ceiling_keeps_zero :
  use_plugin Examples.opts_single = None /\
  opt_mem_mb Examples.opts_single = 0 /\
  cpu_count (Examples.env None) = 4 /\
  (let r := create_workflow (Examples.env None) Examples.opts_single
              Examples.world0 in
   (mem_mb (r_settings r), r_plugin_settings r, r_outcome r))
  = (0, Some (PDict {[ "plugin_args" := PDict {[ "n_procs" := PInt 4 ]};
                       "plugin" := PStr "MultiProc" ]}), Exited 0) /\
  mem_mb (r_settings
            (create_workflow (Examples.env None) Examples.opts_single
               Examples.world0))
  <> cpu_count (Examples.env None).
Proof.
  split; [reflexivity |]. split; [reflexivity |]. split; [reflexivity |].
  split; [vm_compute; reflexivity |].
  vm_compute. discriminate.
Qed.

Lemma thread_defaults_witness :
  use_plugin Examples.opts_single = None /\
  opt_mem_mb Examples.opts_single = 0 /\
  (let r := create_workflow (Examples.env None) Examples.opts_single
              Examples.world0 in
   nthreads (r_settings r) = 4 /\
   mem_mb (r_settings r) = 0 /\
   ants_nthreads (r_settings r) = 4 /\
   r_plugin_settings r
   = Some (PDict {[ "plugin_args" := PDict {[ "n_procs" := PInt 4 ]};
                    "plugin" := PStr "MultiProc" ]})).
Proof.
  split; [reflexivity |]. split; [reflexivity |].
  destruct (thread_defaults (Examples.env None) Examples.opts_single
              Examples.world0 eq_refl) as (Hn & Hm & Ha & Hzero).
  destruct (Hzero eq_refl) as [_ Hps].
  cbv zeta. split; [exact Hn |]. split; [exact Hm |]. split; [exact Ha |].
  exact Hps.
Defined.

(** C4 as stated fails: for a ceiling of [2^53 + 1] MB the budget handed to
    the engine is [2^53 / 1024], not the ceiling divided by 1024; and for a
    ceiling of [2^1040] MB nothing is handed over, the call ends with
    [OverflowError]. *)
Lemma memory_budget_rounded :
  use_plugin (Examples.opts_mem (2 ^ 53 + 1)) = None /\
  (let r := create_workflow (Examples.env None)
              (Examples.opts_mem (2 ^ 53 + 1)) Examples.world0 in
   (r_plugin_settings r, r_outcome r))
  = (Some (PDict {[ "plugin_args" :=
                      PDict {[ "memory_gb" := PNum (2 ^ 53 # 1024);
                               "n_procs" := PInt 2 ]};
                    "plugin" := PStr "MultiProc" ]}), Exited 0) /\
  ~ (2 ^ 53 # 1024 == claimed_memory_gb (2 ^ 53 + 1))%Q /\
  (let r := create_workflow (Examples.env None)
              (Examples.opts_mem (2 ^ 1040)) Examples.world0 in
   (r_plugin_settings r, reached_run r, r_outcome r))
  = (None, false, Raised OverflowError).
Proof.
  split; [reflexivity |].
  split; [vm_compute; reflexivity |].
  split; [| vm_compute; reflexivity].
  vm_compute. discriminate.
Qed.

Lemma plugin_selection_witness :
  use_plugin Examples.opts_label = None /\
  Z.abs (opt_mem_mb Examples.opts_label) <= 2 ^ 53 /\
  r_plugin_settings
    (create_workflow (Examples.env None) Examples.opts_label Examples.world0)
  = Some (PDict {[ "plugin_args" :=
                     PDict {[ "memory_gb" := PNum (claimed_memory_gb 4096);
                              "n_procs" := PInt 8 ]};
                   "plugin" := PStr "MultiProc" ]}) /\
  true_divide_1024 4096 = Some (claimed_memory_gb 4096).
Proof.
  split; [reflexivity |].
  assert (Hsmall : Z.abs (opt_mem_mb Examples.opts_label) <= 2 ^ 53)
    by (vm_compute; discriminate).
  split; [exact Hsmall |].
  destruct (plugin_selection (Examples.env None) Examples.opts_label
              Examples.world0 eq_refl) as (Hps & Hexact & _).
  split; [exact Hps | exact (Hexact Hsmall)].
Defined.

Lemma plugin_file_decides_witness :
  use_plugin (Examples.opts_plugin 0 0) = Some "plugin.yml" /\
  use_plugin (Examples.opts_plugin 16 8192) = Some "plugin.yml" /\
  (let r1 := create_workflow (Examples.env None) (Examples.opts_plugin 0 0)
               Examples.world0 in
   let r2 := create_workflow (Examples.env None)
               (Examples.opts_plugin 16 8192) Examples.world0 in
   r_plugin_settings r1 = r_plugin_settings r2 /\
   nthreads (r_settings r1) = 0 /\
   nthreads (r_settings r2) = 16).
Proof.
  split; [reflexivity |]. split; [reflexivity |].
  destruct (plugin_file_decides (Examples.env None)
              (Examples.opts_plugin 0 0) (Examples.opts_plugin 16 8192)
              Examples.world0 Examples.world0 "plugin.yml" eq_refl eq_refl)
    as (Heq & _ & _ & _ & Hn1 & Hn2).
  cbv zeta. auto.
Defined.

(** C6 on a second call: the directories made by the first are left as
    they are. *)
Lemma directories_created_witness :
  let r := create_workflow (Examples.env None) Examples.opts_single
             Examples.world0 in
  let r' := create_workflow (Examples.env None) Examples.opts_label
              (r_world r) in
  List.NoDup (fs Examples.world0) /\
  opt_output_dir Examples.opts_label = opt_output_dir Examples.opts_single /\
  opt_work_dir Examples.opts_label = opt_work_dir Examples.opts_single /\
  fs (r_world r') = fs (r_world r) /\
  List.NoDup (fs (r_world r)).
Proof.
  cbv zeta.
  assert (Hnd : List.NoDup (fs Examples.world0)) by constructor.
  split; [exact Hnd |]. split; [reflexivity |]. split; [reflexivity |].
  destruct (directories_created (Examples.env None) Examples.opts_single
              Examples.world0) as (_ & _ & Hkeep & Hagain).
  destruct (Hagain Examples.opts_label eq_refl eq_refl) as (Hfs & _).
  split; [exact Hfs | exact (Hkeep Hnd)].
Defined.

(** C7 as stated fails: the graph has nine nodes, seven when the input and
    output nodes are left out, six when the report node is left out too;
    and [sbref_correct] declares four nodes and two nested workflows. *)
Lemma enhance_wf_not_five_nodes :
  let w := fst (Util.init_enhance_and_skullstrip_epi_wf
                  "enhance_and_skullstrip_epi_wf" (mkConfig ∅ ∅) 0%nat) in
  let v := fst (sbref_correct (Examples.env None) tt Examples.settings0
                  (mkConfig ∅ ∅) 0%nat) in
  length (wf_items w) = 9%nat /\
  Util.count_nodes (fun f => negb (Util.is_identity f)) w = 7%nat /\
  Util.count_nodes
    (fun f => negb (Util.is_identity f) && negb (Util.is_report f)) w
    = 6%nat /\
  length (wf_items v) = 6%nat /\
  ~ (length (wf_items w) = 5%nat \/
     Util.count_nodes (fun f => negb (Util.is_identity f)) w = 5%nat \/
     Util.count_nodes
       (fun f => negb (Util.is_identity f) && negb (Util.is_report f)) w
       = 5%nat \/
     length (wf_items v) = 5%nat).
Proof.
  vm_compute. repeat split; try reflexivity.
  intros [H | [H | [H | H]]]; discriminate H.
Qed.

(** C10 as stated fails: for the single label ['/tmp/x'] every node of the
    graph records the crash-dump directory ['/tmp/x/<timestamp>'], which is
    not [<output_dir>/log/<subject_id>/<timestamp>] and does not lie under
    the output directory. *)
Lemma absolute_label_crashdumps_elsewhere :
  match fmap_enumerator (Examples.env None) ["/tmp/x"] Examples.settings0
          (mkConfig ∅ ∅) [] with
  | Returns (wf, o) => map (node_crashdump_dirs o) (wf_items wf)
  | Raises _ => []
  end = [ replicate 6 (Some (PStr "/tmp/x/20170227-180521")) ] /\
  claimed_crashdump_dir Examples.settings0 "/tmp/x" "20170227-180521"
  = "/out/log//tmp/x/20170227-180521" /\
  components "/tmp/x/20170227-180521"
  <> components
       (claimed_crashdump_dir Examples.settings0 "/tmp/x" "20170227-180521").
Proof.
  split; [vm_compute; reflexivity |].
  split; [vm_compute; reflexivity |].
  vm_compute. discriminate.
Qed.

Lemma node_configs_witness :
  ordinary_name "01" = true /\ ordinary_name "02" = true /\ "01" <> "02" /\
  output_dir Examples.settings0 <> "" /\
  Path.endswith_sep (output_dir Examples.settings0) = false /\
  crashdump_dir Examples.settings0 "01"
    (strftime (localtime (Examples.env None) 0))
  = "/out/log/01/20170227-180521" /\
  components (crashdump_dir Examples.settings0 "01"
                (strftime (localtime (Examples.env None) 0)))
  <> components (crashdump_dir Examples.settings0 "02"
                   (strftime (localtime (Examples.env None) 1))).
Proof.
  assert (Hne : "01" <> "02") by discriminate.
  assert (Hout : output_dir Examples.settings0 <> "") by discriminate.
  split; [reflexivity |]. split; [reflexivity |]. split; [exact Hne |].
  split; [exact Hout |]. split; [reflexivity |].
  destruct (node_configs (Examples.env None) "01" Examples.settings0
              (mkConfig ∅ ∅) [])
    as (wf & fw & o' & _ & _ & _ & _ & _ & Hclaimed & _ & Hdistinct).
  split.
  - exact (Hclaimed eq_refl Hout eq_refl).
  - exact (Hdistinct "02" (localtime (Examples.env None) 1)
             eq_refl eq_refl Hne).
Defined.

End Instances.

(** * Further properties of the entry point *)

Section EntryPoint.
Import Engine Views Observations Fmaps.
Context {SD : Type} (E : Env SD).

(** X1.  In a call that reaches [run], an exception of [run] that is not a
    [RuntimeError] is not caught: it leaves [create_workflow] as it is, and
    after [run] the call neither writes the graph nor exits. *)
Theorem other_exception_propagates (opts : options) (w : world) :
  let r := create_workflow E opts w in
  reached_run r = true ->
  forall e, r_raised r = Some e -> is_RuntimeError e = false ->
    r_outcome r = Raised e /\
    exists pre ps,
      r_plugin_settings r = Some ps /\ trace (r_world r) = pre ++ [EvRun ps].
Proof.
  cbv zeta. intros Hreached e He Hne.
  destruct (create_workflow_run E opts w Hreached)
    as (ps & sl & wf0 & o & pre & Hps & _ & _ & _ & _ & Hout & _ & Htr).
  rewrite Hout, Htr, He. unfold run_tail. cbn [exit_of]. rewrite Hne.
  split; [reflexivity |].
  exists (pre ++ [EvLog ("Subject list: " +:+ Path.str_join ", " sl)]), ps.
  split; [exact Hps |]. now rewrite <- app_assoc.
Qed.

(** X2.  A call exits, with status 0 or 1, only after it has reached
    [run], and the last things it does are [run], then writing the graph if
    and only if [--write-graph] was given, then the exit: the graph is
    written after a failed run too. *)
Theorem graph_written_before_exit (opts : options) (w : world) :
  let r := create_workflow E opts w in
  forall code, r_outcome r = Exited code ->
    reached_run r = true /\
    exists pre ps,
      r_plugin_settings r = Some ps /\
      trace (r_world r)
      = pre ++ EvRun ps
          :: (if opt_write_graph opts then [EvWriteGraph] else [])
          ++ [EvExit code].
Proof.
  cbv zeta. intros code Hcode.
  assert (Hreached : reached_run (create_workflow E opts w) = true).
  { destruct (reached_run (create_workflow E opts w)) eqn:Hr;
      [reflexivity |].
    destruct (create_workflow_not_run E opts w Hr) as (_ & e & He).
    congruence. }
  split; [exact Hreached |].
  destruct (create_workflow_run E opts w Hreached)
    as (ps & sl & wf0 & o & pre & Hps & _ & _ & _ & _ & Hout & _ & Htr).
  exists (pre ++ [EvLog ("Subject list: " +:+ Path.str_join ", " sl)]), ps.
  split; [exact Hps |].
  rewrite Htr. unfold run_tail. rewrite <- Hout, Hcode, <- app_assoc.
  reflexivity.
Qed.

(** X3.  The tool thread count falls back to the CPU count when passed as
    0 whether or not a plugin file is given, while with a plugin file the
    thread count is handed on as passed, 0 included. *)
Theorem ants_default_with_plugin_file (opts : options) (w : world) (f : string) :
  use_plugin opts = Some f ->
  let r := create_workflow E opts w in
  ants_nthreads (r_settings r)
    = resolved (cpu_count E) (opt_ants_nthreads opts) /\
  nthreads (r_settings r) = opt_nthreads opts.
Proof.
  intros Hf. cbv zeta.
  destruct (create_workflow_settings E opts w) as (Hn & Ha & _).
  rewrite Hf in Hn. unfold overflows in Ha. rewrite Hf in Ha. auto.
Qed.

(** X4.  The paths of the settings are the absolute forms of the paths
    given, the call never changes them, and the workflow handed to [run],
    when the call gets that far, is the enumerator's with its base
    directory set to the working directory. *)
Theorem paths_and_base_dir (opts : options) (w : world) :
  let r := create_workflow E opts w in
  bids_root (r_settings r) = abspath E (bids_dir opts) /\
  output_dir (r_settings r) = abspath E (opt_output_dir opts) /\
  work_dir (r_settings r) = abspath E (opt_work_dir opts) /\
  (forall wf, r_workflow r = Some wf ->
     item_name wf = "workflow_enumerator" /\
     wf_base_dir wf = Some (abspath E (opt_work_dir opts))).
Proof.
  cbv zeta.
  destruct (create_workflow_settings E opts w)
    as (_ & _ & _ & Hb & Ho & Hw & _).
  repeat (split; [assumption |]).
  intros wf Hwf.
  assert (Hreached : reached_run (create_workflow E opts w) = true)
    by (unfold reached_run; now rewrite Hwf).
  destruct (create_workflow_run E opts w Hreached)
    as (ps & sl & wf0 & o & pre & _ & _ & Hrun & Hwf' & _).
  rewrite Hwf' in Hwf. injection Hwf as <-.
  destruct (fmap_enumerator_returns E _ _ _ _ _ _ Hrun)
    as (_ & _ & _ & fws & -> & _).
  cbn [set_base_dir item_name wf_base_dir]. now rewrite Hw.
Qed.

(** X5.  The call points the engine's log directory and crash-dump
    directory at [<output_dir>/log] and turns logging to file on; every
    other option the engine had is kept. *)
Theorem engine_configuration (opts : options) (w : world) :
  let r := create_workflow E opts w in
  let log_dir := Path.join (abspath E (opt_output_dir opts)) ["log"] in
  logging (ncfg (r_world r)) !! "log_directory" = Some (PStr log_dir) /\
  logging (ncfg (r_world r)) !! "log_to_file" = Some (PBool true) /\
  execution (ncfg (r_world r)) !! "crashdump_dir" = Some (PStr log_dir) /\
  (forall k, k <> "log_directory" -> k <> "log_to_file" ->
     logging (ncfg (r_world r)) !! k = logging (ncfg w) !! k) /\
  (forall k, k <> "crashdump_dir" ->
     execution (ncfg (r_world r)) !! k = execution (ncfg w) !! k).
Proof.
  cbv zeta.
  destruct (create_workflow_world E opts w) as (_ & Hcfg & _).
  rewrite Hcfg.
  unfold set_nipype_config, update_config.
  cbn [ncfg emit logging execution output_dir initial_settings].
  split; [now rewrite lookup_union_l', lookup_insert_eq
            by (rewrite lookup_insert_eq; eauto) |].
  split.
  { rewrite lookup_union_l'; rewrite lookup_insert_ne by discriminate;
      rewrite lookup_singleton_eq; eauto. }
  split.
  { rewrite lookup_union_l'; rewrite lookup_singleton_eq; eauto. }
  split.
  - intros k H1 H2. rewrite lookup_union_r; [reflexivity |].
    rewrite lookup_insert_ne by congruence.
    now rewrite lookup_singleton_ne by congruence.
  - intros k H1. rewrite lookup_union_r; [reflexivity |].
    now rewrite lookup_singleton_ne by congruence.
Qed.

(** *** Subjects found by the scan *)

Lemma has_sep_drop_chars (n : nat) (s : string) :
  Path.has_sep s = false -> Path.has_sep (Path.drop_chars n s) = false.
Proof.
  revert s. induction n as [| n IH]; intros s H; [exact H |].
  destruct s as [| c s]; [reflexivity |]. cbn [Path.drop_chars].
  apply IH. cbn [Path.has_sep] in H.
  destruct (Ascii.eqb c Path.sep); [discriminate | exact H].
Qed.

(** Two matching names with the same slice [[4:]] are the same name. *)
Lemma drop_prefix_inj (a b : string) :
  matches_sub a = true -> matches_sub b = true ->
  Path.drop_chars 4 a = Path.drop_chars 4 b -> a = b.
Proof.
  intros Ha Hb H.
  rewrite (matches_sub_prefix a Ha), (matches_sub_prefix b Hb). now rewrite H.
Qed.

Lemma scanned_no_sep (l : list dirent) :
  Forall (fun s => Path.has_sep s = false)
    (map (fun d => Path.drop_chars 4 (d_name d))
         (List.filter (fun d => matches_sub (d_name d)) l)).
Proof.
  apply Forall_forall. intros s Hs. apply list_elem_of_In, in_map_iff in Hs.
  destruct Hs as [d [<- _]]. apply has_sep_drop_chars, d_name_ok.
Qed.

Lemma scanned_NoDup (l : list dirent) :
  List.NoDup (map d_name l) ->
  List.NoDup (map (fun d => Path.drop_chars 4 (d_name d))
                  (List.filter (fun d => matches_sub (d_name d)) l)).
Proof.
  induction l as [| d l IH]; intros Hnd; [constructor |].
  cbn [map] in Hnd. inversion Hnd as [| ? ? Hnotin Hnd']; subst.
  cbn [List.filter]. destruct (matches_sub (d_name d)) eqn:Hd; [| auto].
  cbn [map]. constructor; [| auto].
  intros Hin. apply in_map_iff in Hin. destruct Hin as [d' [Heq Hin]].
  apply filter_In in Hin. destruct Hin as [Hin Hd'].
  apply Hnotin. apply in_map_iff. exists d'. split; [| exact Hin].
  now apply drop_prefix_inj.
Qed.

Lemma filter_none {A} (f : A -> bool) (l : list A) :
  Forall (fun x => f x = false) l -> List.filter f l = [].
Proof.
  induction 1 as [| x l Hx _ IH]; [reflexivity |].
  simpl. now rewrite Hx.
Qed.

(** X6.  When the path of the dataset root holds none of [*], [?] and
    [[], the identifiers obtained from the scan hold no path separator, and
    no identifier comes twice as long as the names of the listing are
    pairwise different. *)
Theorem scanned_subjects_clean (opts : options) (w : world)
    (sl : list string) :
  participant_label opts = None \/ participant_label opts = Some [] ->
  has_magic (abspath E (bids_dir opts)) = false ->
  r_subject_list (create_workflow E opts w) = Some sl ->
  Forall (fun s => Path.has_sep s = false) sl /\
  (List.NoDup (map d_name (listdir E (abspath E (bids_dir opts)))) ->
   List.NoDup sl).
Proof.
  intros Hlabel Hmagic Hsl.
  rewrite (create_workflow_scan E opts w Hlabel Hmagic) in Hsl.
  destruct (overflows E opts); [discriminate |]. injection Hsl as <-.
  split; [apply scanned_no_sep | apply scanned_NoDup].
Qed.

(** X8.  On a dataset whose root holds none of [*], [?] and [[] in its
    path and has no matching entry, with no label supplied, a call that
    gets past the memory division has an empty subject list; it still logs
    the (empty) list, runs the enumerator's workflow, which has no node,
    and exits as [run] decides. *)
Theorem empty_dataset (opts : options) (w : world) :
  participant_label opts = None \/ participant_label opts = Some [] ->
  has_magic (abspath E (bids_dir opts)) = false ->
  Forall (fun d => matches_sub (d_name d) = false)
         (listdir E (abspath E (bids_dir opts))) ->
  overflows E opts = false ->
  let r := create_workflow E opts w in
  r_subject_list r = Some [] /\
  (exists wf, r_workflow r = Some wf /\ wf_items wf = []) /\
  r_outcome r = exit_of (r_raised r) /\
  exists pre ps,
    r_plugin_settings r = Some ps /\
    trace (r_world r)
    = pre ++ EvLog "Subject list: " :: EvRun ps
        :: run_tail (opt_write_graph opts) (r_raised r).
Proof.
  intros Hlabel Hmagic Hnone Hov. cbv zeta.
  pose proof (create_workflow_scan E opts w Hlabel Hmagic) as Hsl.
  rewrite Hov, (filter_none _ _ Hnone) in Hsl. cbn [map] in Hsl.
  assert (Hreached : reached_run (create_workflow E opts w) = true).
  { apply reached_run_iff. exists []. split; [exact Hsl | cbn; lia]. }
  destruct (create_workflow_run E opts w Hreached)
    as (ps & sl & wf0 & o & pre & Hps & Hsl' & Hrun & Hwf & _ & Hout & _
        & Htr).
  rewrite Hsl in Hsl'. injection Hsl' as <-.
  rewrite fmap_enumerator_nil in Hrun. injection Hrun as <- <-.
  split; [exact Hsl |].
  split; [eexists; split; [exact Hwf | reflexivity] |].
  split; [exact Hout |].
  exists pre, ps. split; [exact Hps | exact Htr].
Qed.

(** X16.  A call whose subject list has two or more entries never reaches
    [run]: the enumerator raises [IOError] at the second subject, the
    exception leaves [create_workflow], and the call neither runs, writes a
    graph nor exits.  A call reaches [run] exactly when it has a subject
    list of at most one entry. *)
Theorem second_subject_stops_call (opts : options) (w : world) :
  let r := create_workflow E opts w in
  (forall s1 s2 rest,
     r_subject_list r = Some (s1 :: s2 :: rest) ->
     r_outcome r = Raised IOError /\ r_workflow r = None /\
     r_raised r = None /\
     exists pre,
       trace (r_world r)
       = pre ++ [EvLog ("Subject list: " +:+
                        Path.str_join ", " (s1 :: s2 :: rest))]) /\
  (reached_run r = true <->
   exists sl, r_subject_list r = Some sl /\ (length sl <= 1)%nat).
Proof.
  cbv zeta. split; [| apply reached_run_iff].
  intros s1 s2 rest Hsl.
  destruct (create_workflow_cases E opts w)
    as [(_ & _ & Hnone & _) |
        (_ & ps & sl & w3 & _ & Hd & _ & Hsl' & _ & _ & _ & _ & Hen)];
    [congruence |].
  rewrite Hsl in Hsl'. injection Hsl' as <-.
  rewrite fmap_enumerator_many in Hen.
  destruct Hen as (Hwf & Hra & Hout & Hw).
  repeat (split; [assumption |]).
  destruct (determine_subjects_log E opts
              (r_settings (create_workflow E opts w))
              (before_subjects E opts w)) as [pre Hlog].
  rewrite Hd in Hlog. cbn [fst snd] in Hlog.
  exists pre. now rewrite Hw.
Qed.

End EntryPoint.

(** * Further properties of the enumerator *)

Section Enumerator.
Import Engine Views Observations Fmaps.
Context {SD : Type} (E : Env SD).

(** The graph of a subject has nodes, the first of which reads the
    subject's data. *)
Lemma subject_done_first_node st g k s lo hi (fw : workflow SD) (o : store) :
  subject_done E st g k s lo hi fw o ->
  exists c,
    hd_error (get_all_nodes fw)
    = Some (GNode lo "BIDSDatasource"
              (BIDSDataGrabber (collect_bids_data E (bids_root st) s)) c).
Proof.
  intros Hdone.
  destruct (subject_done_head E _ _ _ _ _ _ _ _ Hdone) as (c & rest & Hits).
  exists c. destruct fw as [? ? ? ? | i n b cw its es]; [discriminate Hits |].
  cbn [wf_items] in Hits. subst its. reflexivity.
Qed.


(** X10.  After [fmap_enumerator] on one subject, the graph has nodes, and
    the configuration a node receives is the engine's configuration with
    nothing but the crash-dump directory replaced: the logging section and
    every other execution option are inherited. *)
Theorem node_config_inherits (s : string) (st : settings) (g : config)
    (o : store) :
  exists wf fw o',
    fmap_enumerator E [s] st g o = Returns (wf, o') /\
    wf_items wf = [fw] /\
    get_all_nodes fw <> [] /\
    forall nd, In nd (get_all_nodes fw) ->
      exists l c,
        item_config nd = Some l /\ read_config o' l = Some c /\
        logging c = logging g /\
        execution c
        = <[ "crashdump_dir" :=
               PStr (crashdump_dir st s (strftime (localtime E 0))) ]>
            (execution g).
Proof.
  destruct (fmap_enumerator_single E s st g o)
    as (fw & o' & Hrun & _ & Hdone & Hcfg).
  eexists _, fw, o'. split; [exact Hrun |]. cbn [wf_items].
  split; [reflexivity |].
  split.
  { destruct (subject_done_first_node _ _ _ _ _ _ _ _ Hdone) as [c Hhd].
    intros Hnil. rewrite Hnil in Hhd. discriminate Hhd. }
  intros nd Hnd.
  replace (length o + 7)%nat with (length o + 2 + 5)%nat in Hcfg by lia.
  destruct (subject_done_node E _ _ _ _ _ _ _ nd _ Hdone Hcfg Hnd)
    as (l & Hl & _ & _ & Hread).
  exists l, (subject_config E st g 0 s).
  split; [exact Hl |]. split; [exact Hread |]. split; reflexivity.
Qed.

(** X15.  After [fmap_enumerator] on one subject, the subject's graph
    starts from a [BIDSDatasource] node that grabs the data
    [collect_bids_data] returned for that very subject under the dataset
    root. *)
Theorem subject_graph_reads_own_data (s : string) (st : settings)
    (g : config) (o : store) :
  exists wf fw o',
    fmap_enumerator E [s] st g o = Returns (wf, o') /\
    wf_items wf = [fw] /\
    exists i c,
      hd_error (wf_items fw)
      = Some (GNode i "BIDSDatasource"
                (BIDSDataGrabber (collect_bids_data E (bids_root st) s)) c).
Proof.
  destruct (fmap_enumerator_single E s st g o)
    as (fw & o' & Hrun & _ & Hdone & _).
  eexists _, fw, o'. split; [exact Hrun |]. cbn [wf_items].
  split; [reflexivity |].
  destruct (subject_done_head E _ _ _ _ _ _ _ _ Hdone) as (c & rest & ->).
  eauto.
Qed.


(** X14.  [_first] fails on an empty list and on an empty tuple, and on
    nothing else; what is neither list nor tuple is returned as it is. *)
Theorem first_fails_only_on_empty (v : pyobj) :
  (_first v = None <-> v = OList [] \/ v = OTuple []) /\
  (forall a, v = OAtom a -> _first v = Some v) /\
  (forall x l, v = OList (x :: l) \/ v = OTuple (x :: l) -> _first v = Some x).
Proof.
  split; [| split].
  - destruct v as [[| x l] | [| x l] | a]; cbn; split; intros H;
      try reflexivity; try discriminate; auto;
      destruct H as [H | H]; discriminate H.
  - intros a ->. reflexivity.
  - intros x l [-> | ->]; reflexivity.
Qed.

End Enumerator.

(** * Further properties of the graphs *)

Section Graphs.
Import Engine Views Observations.

Lemma names_of_declared (its : list (graph_item Util.interface))
    (L : list (string * Util.interface)) :
  map Util.node_decl its = map Some L -> map item_name its = map fst L.
Proof.
  revert L. induction its as [| x its IH]; intros [| [nm f] L] H;
    try discriminate; [reflexivity |].
  cbn [map] in H. injection H as Hx H.
  destruct x; [| discriminate Hx]. injection Hx as -> _.
  cbn [map item_name fst]. f_equal. auto.
Qed.

Lemma names_of_epi (w : graph_item Util.interface) :
  Util.declared_nodes w = Util.epi_nodes ->
  node_names w
  = ["inputnode"; "n4_correct"; "skullstrip_first_pass"; "unifize";
     "skullstrip_second_pass"; "combine_masks"; "apply_mask";
     "mask_reportlet"; "outputnode"].
Proof.
  intros H. unfold node_names.
  exact (names_of_declared _ (omap id Util.epi_nodes) H).
Qed.

Lemma enhance_wf_names (name : string) (g : config) (n : loc) :
  node_names (fst (Util.init_enhance_and_skullstrip_epi_wf name g n))
  = ["inputnode"; "n4_correct"; "skullstrip_first_pass"; "unifize";
     "skullstrip_second_pass"; "combine_masks"; "apply_mask";
     "mask_reportlet"; "outputnode"].
Proof. exact (names_of_epi _ (enhance_wf_nodes name g n)). Qed.

Lemma epi_graph_well_formed (w : graph_item Util.interface) :
  node_names w
  = ["inputnode"; "n4_correct"; "skullstrip_first_pass"; "unifize";
     "skullstrip_second_pass"; "combine_masks"; "apply_mask";
     "mask_reportlet"; "outputnode"] ->
  wf_edges w = Util.epi_edges ->
  forallb (edge_forward (node_names w)) (wf_edges w) = true /\
  NoDup (map in_port (wf_edges w)) /\
  (forall nm, In nm (node_names w) -> nm <> "inputnode" ->
     exists e, In e (wf_edges w) /\ e_dst e = nm) /\
  (forall nm, In nm (node_names w) -> nm <> "outputnode" ->
     exists e, In e (wf_edges w) /\ e_src e = nm) /\
  map e_in (List.filter (fun e => String.eqb (e_dst e) "outputnode")
                        (wf_edges w))
  ≡ₚ ["mask_file"; "skull_stripped_file"; "bias_corrected_file";
      "out_report"].
Proof.
  intros -> ->.
  split; [vm_compute; reflexivity |].
  split; [apply (bool_decide_unpack _); vm_compute; exact I |].
  split; [| split].
  - intros nm Hin Hne.
    assert (Hb : forallb (fun nm =>
                   String.eqb nm "inputnode"
                   || existsb (fun e => String.eqb (e_dst e) nm) Util.epi_edges)
                   ["inputnode"; "n4_correct"; "skullstrip_first_pass";
                    "unifize"; "skullstrip_second_pass"; "combine_masks";
                    "apply_mask"; "mask_reportlet"; "outputnode"] = true)
      by (vm_compute; reflexivity).
    rewrite forallb_forall in Hb. specialize (Hb nm Hin).
    apply orb_true_iff in Hb as [H | H].
    + apply String.eqb_eq in H. contradiction.
    + apply existsb_exists in H as [e [He1 He2]].
      apply String.eqb_eq in He2. eauto.
  - intros nm Hin Hne.
    assert (Hb : forallb (fun nm =>
                   String.eqb nm "outputnode"
                   || existsb (fun e => String.eqb (e_src e) nm) Util.epi_edges)
                   ["inputnode"; "n4_correct"; "skullstrip_first_pass";
                    "unifize"; "skullstrip_second_pass"; "combine_masks";
                    "apply_mask"; "mask_reportlet"; "outputnode"] = true)
      by (vm_compute; reflexivity).
    rewrite forallb_forall in Hb. specialize (Hb nm Hin).
    apply orb_true_iff in Hb as [H | H].
    + apply String.eqb_eq in H. contradiction.
    + apply existsb_exists in H as [e [He1 He2]].
      apply String.eqb_eq in He2. eauto.
  - apply (bool_decide_unpack _). vm_compute. exact I.
Qed.

(** X12.  The graph of [init_enhance_and_skullstrip_epi_wf] is well formed
    whatever the call: every edge leads from a node to one later in graph
    order, so there is no cycle; no input field is fed by two edges; every
    node but [inputnode] is fed and every node but [outputnode] feeds
    another; and the edges into [outputnode] feed exactly its four
    fields. *)
Theorem enhance_wf_well_formed (name : string) (g : config) (n : loc) :
  let w := fst (Util.init_enhance_and_skullstrip_epi_wf name g n) in
  forallb (edge_forward (node_names w)) (wf_edges w) = true /\
  NoDup (map in_port (wf_edges w)) /\
  (forall nm, In nm (node_names w) -> nm <> "inputnode" ->
     exists e, In e (wf_edges w) /\ e_dst e = nm) /\
  (forall nm, In nm (node_names w) -> nm <> "outputnode" ->
     exists e, In e (wf_edges w) /\ e_src e = nm) /\
  map e_in (List.filter (fun e => String.eqb (e_dst e) "outputnode")
                        (wf_edges w))
  ≡ₚ ["mask_file"; "skull_stripped_file"; "bias_corrected_file";
      "out_report"].
Proof.
  destruct (enhance_wf_shape name g n) as [its Hw].
  refine (epi_graph_well_formed _ (enhance_wf_names name g n) _).
  exact (f_equal wf_edges Hw).
Qed.

End Graphs.

Section SbrefGraph.
Import Engine Views Observations Fmaps.
Context {SD : Type} (E : Env SD).

(** The edges of the graph [sbref_correct] builds, with the names of the
    two nested workflows. *)
Lemma sbref_correct_edges (sd : SD) (st : settings) (g : config) (n : loc) :
  exists est sdc,
    wf_edges (fst (sbref_correct E sd st g n)) =
    [ mkEdge "BIDSDatasource" (FieldVia "sbref" "_first") "metadata" "in_file";
      mkEdge "BIDSDatasource" (Field "sbref") "MergeSBRefs" "in_files";
      mkEdge est (FieldVia "outputnode.fmap" "_first") sdc "inputnode.fmap";
      mkEdge est (FieldVia "outputnode.fmap_ref" "_first")
             sdc "inputnode.fmap_ref";
      mkEdge est (FieldVia "outputnode.fmap_mask" "_first")
             sdc "inputnode.fmap_mask";
      mkEdge "metadata" (Field "out_dict") sdc "inputnode.in_meta";
      mkEdge "BIDSDatasource" (Field "sbref") sdc "inputnode.in_files";
      mkEdge "MergeSBRefs" (Field "out_file") sdc "inputnode.in_reference";
      mkEdge "MergeSBRefs" (Field "out_file") "Mask" "in_file";
      mkEdge "Mask" (Field "mask_file") sdc "inputnode.in_mask" ].
Proof.
  unfold sbref_correct, bbind, Node, Workflow, bret, connect.
  cbn [length app].
  destruct (fmap_estimator E sd st g _) as [est l1].
  destruct (sdc_unwarp E st g _) as [sdc l2].
  cbn [fst wf_edges connection_edges flat_map map item_name fst snd app].
  exists (item_name est), (item_name sdc). reflexivity.
Qed.

(** X13.  Whatever the subject, the settings and the nested workflows are,
    [sbref_correct] wires ten edges, no two of them into the same input
    field, seven of them into the inputs of the unwarping workflow, each
    named input once. *)
Theorem sbref_correct_ports (sd : SD) (st : settings) (g : config) (n : loc) :
  let w := fst (sbref_correct E sd st g n) in
  length (wf_edges w) = 10%nat /\
  NoDup (map in_port (wf_edges w)) /\
  map (fun e => (e_out e, e_in e)) (wf_edges w) =
    [ (FieldVia "sbref" "_first", "in_file");
      (Field "sbref", "in_files");
      (FieldVia "outputnode.fmap" "_first", "inputnode.fmap");
      (FieldVia "outputnode.fmap_ref" "_first", "inputnode.fmap_ref");
      (FieldVia "outputnode.fmap_mask" "_first", "inputnode.fmap_mask");
      (Field "out_dict", "inputnode.in_meta");
      (Field "sbref", "inputnode.in_files");
      (Field "out_file", "inputnode.in_reference");
      (Field "out_file", "in_file");
      (Field "mask_file", "inputnode.in_mask") ].
Proof.
  cbv zeta. destruct (sbref_correct_edges sd st g n) as (est & sdc & ->).
  split; [reflexivity |]. split; [| reflexivity].
  cbn [map in_port e_dst e_in].
  repeat (apply NoDup_cons; split;
          [ rewrite ?elem_of_cons, elem_of_nil; intros H;
            repeat (destruct H as [H | H]; [discriminate H |]);
            exact H
          | ]).
  apply NoDup_nil. exact I.
Qed.

End SbrefGraph.

(** ** The further properties at concrete calls *)

Section MoreInstances.
Import Engine Views Observations Fmaps.

(** X1 at a call with one label whose [run] raises a [TypeError]. *)
Lemma other_exception_propagates_witness :
  reached_run
    (create_workflow (Examples.env (Some (OtherException "TypeError")))
       Examples.opts_label Examples.world0) = true /\
  r_outcome
    (create_workflow (Examples.env (Some (OtherException "TypeError")))
       Examples.opts_label Examples.world0)
  = Raised (OtherException "TypeError").
Proof.
  assert (Hr : reached_run
                 (create_workflow
                    (Examples.env (Some (OtherException "TypeError")))
                    Examples.opts_label Examples.world0) = true)
    by (vm_compute; reflexivity).
  assert (Hraised : r_raised
                      (create_workflow
                         (Examples.env (Some (OtherException "TypeError")))
                         Examples.opts_label Examples.world0)
                    = Some (OtherException "TypeError"))
    by (vm_compute; reflexivity).
  split; [exact Hr |].
  exact (proj1 (other_exception_propagates
                  (Examples.env (Some (OtherException "TypeError")))
                  Examples.opts_label Examples.world0 Hr _ Hraised eq_refl)).
Defined.

(** X2 at a failed run of a call with one label and [--write-graph]: the
    graph is written before the exit with status 1. *)
Lemma graph_written_before_exit_witness :
  r_outcome
    (create_workflow (Examples.env (Some RuntimeError)) Examples.opts_label
       Examples.world0) = Exited 1 /\
  exists pre ps,
    trace (r_world
             (create_workflow (Examples.env (Some RuntimeError))
                Examples.opts_label Examples.world0))
    = pre ++ [EvRun ps; EvWriteGraph; EvExit 1].
Proof.
  assert (Hout : r_outcome
                   (create_workflow (Examples.env (Some RuntimeError))
                      Examples.opts_label Examples.world0) = Exited 1)
    by (vm_compute; reflexivity).
  split; [exact Hout |].
  destruct (graph_written_before_exit (Examples.env (Some RuntimeError))
              Examples.opts_label Examples.world0 1 Hout)
    as (_ & pre & ps & _ & Htr).
  exists pre, ps. exact Htr.
Defined.

Lemma ants_default_with_plugin_file_witness :
  use_plugin (Examples.opts_plugin 0 0) = Some "plugin.yml" /\
  (let r := create_workflow (Examples.env None) (Examples.opts_plugin 0 0)
              Examples.world0 in
   ants_nthreads (r_settings r) = 4 /\ nthreads (r_settings r) = 0).
Proof.
  split; [reflexivity |].
  exact (ants_default_with_plugin_file (Examples.env None)
           (Examples.opts_plugin 0 0) Examples.world0 "plugin.yml" eq_refl).
Defined.

(** X4 at a call with one label: the workflow run has the working
    directory as its base directory. *)
Lemma paths_and_base_dir_witness :
  exists wf,
    r_workflow
      (create_workflow (Examples.env None) Examples.opts_label
         Examples.world0) = Some wf /\
    wf_base_dir wf = Some "/work".
Proof.
  destruct (r_workflow
              (create_workflow (Examples.env None) Examples.opts_label
                 Examples.world0)) as [wf |] eqn:Hwf.
  - exists wf. split; [reflexivity |].
    destruct (paths_and_base_dir (Examples.env None) Examples.opts_label
                Examples.world0) as (_ & _ & _ & H).
    exact (proj2 (H wf Hwf)).
  - exfalso. vm_compute in Hwf. discriminate Hwf.
Defined.

(** X5 at a call on an engine that has an option of its own. *)
Lemma engine_configuration_witness :
  let w := mkWorld [] (mkConfig ∅ {[ "stop_on_first_crash" := PBool false ]})
             [] [] in
  let r := create_workflow (Examples.env None) Examples.opts_label w in
  "stop_on_first_crash" <> "crashdump_dir" /\
  execution (ncfg (r_world r)) !! "stop_on_first_crash" = Some (PBool false) /\
  execution (ncfg (r_world r)) !! "crashdump_dir" = Some (PStr "/out/log").
Proof.
  cbv zeta.
  assert (Hne : "stop_on_first_crash" <> "crashdump_dir") by discriminate.
  split; [exact Hne |].
  destruct (engine_configuration (Examples.env None) Examples.opts_label
              (mkWorld []
                 (mkConfig ∅ {[ "stop_on_first_crash" := PBool false ]})
                 [] []))
    as (_ & _ & Hcd & _ & Hkeep).
  split; [| exact Hcd].
  rewrite (Hkeep _ Hne). reflexivity.
Defined.

Lemma listing_names_distinct :
  List.NoDup (map d_name
    (listdir (Examples.env None)
       (abspath (Examples.env None) (bids_dir Examples.opts_single)))).
Proof.
  apply NoDup_ListNoDup, (bool_decide_unpack _). vm_compute. exact I.
Defined.

Lemma scanned_subjects_clean_witness :
  (participant_label Examples.opts_single = None \/
   participant_label Examples.opts_single = Some []) /\
  has_magic (abspath (Examples.env None) (bids_dir Examples.opts_single))
  = false /\
  r_subject_list
    (create_workflow (Examples.env None) Examples.opts_single Examples.world0)
  = Some ["01"] /\
  Forall (fun s => Path.has_sep s = false) ["01"] /\
  List.NoDup ["01"].
Proof.
  split; [left; reflexivity |]. split; [reflexivity |].
  assert (Hsl : r_subject_list
                  (create_workflow (Examples.env None) Examples.opts_single
                     Examples.world0) = Some ["01"])
    by (vm_compute; reflexivity).
  split; [exact Hsl |].
  destruct (scanned_subjects_clean (Examples.env None) Examples.opts_single
              Examples.world0 ["01"] (or_introl eq_refl) eq_refl Hsl)
    as (Hsep & Hnd).
  split; [exact Hsep | exact (Hnd listing_names_distinct)].
Defined.

(** X8 on a directory that holds nothing. *)
Lemma empty_dataset_witness :
  let opts := mkOptions "/empty" "/out" None 1 0 false None "/work" 1 in
  let r := create_workflow (Examples.env None) opts Examples.world0 in
  has_magic (abspath (Examples.env None) (bids_dir opts)) = false /\
  overflows (Examples.env None) opts = false /\
  r_subject_list r = Some [] /\
  (exists wf, r_workflow r = Some wf /\ wf_items wf = []).
Proof.
  cbv zeta. split; [reflexivity |]. split; [reflexivity |].
  destruct (empty_dataset (Examples.env None)
              (mkOptions "/empty" "/out" None 1 0 false None "/work" 1)
              Examples.world0 (or_introl eq_refl) eq_refl
              (List.Forall_nil _) eq_refl)
    as (Hsl & Hwf & _).
  split; [exact Hsl | exact Hwf].
Defined.

(** X16 at a call with two labels, and at the scan of a dataset with three
    matching entries. *)
Lemma second_subject_stops_call_witness :
  r_subject_list
    (create_workflow (Examples.env None) Examples.opts_labels Examples.world0)
  = Some ["01"; "02"] /\
  r_outcome
    (create_workflow (Examples.env None) Examples.opts_labels Examples.world0)
  = Raised IOError /\
  r_outcome
    (create_workflow (Examples.env None) Examples.opts_default Examples.world0)
  = Raised IOError.
Proof.
  assert (H2 : r_subject_list
                 (create_workflow (Examples.env None) Examples.opts_labels
                    Examples.world0) = Some ["01"; "02"])
    by (vm_compute; reflexivity).
  assert (H3 : r_subject_list
                 (create_workflow (Examples.env None) Examples.opts_default
                    Examples.world0) = Some ["01"; "notes.txt"; "02"])
    by (vm_compute; reflexivity).
  split; [exact H2 |]. split.
  - exact (proj1 (proj1 (second_subject_stops_call (Examples.env None)
                           Examples.opts_labels Examples.world0) _ _ _ H2)).
  - exact (proj1 (proj1 (second_subject_stops_call (Examples.env None)
                           Examples.opts_default Examples.world0) _ _ _ H3)).
Defined.



(** X10 on the first node of the graph of one subject. *)
Lemma node_config_inherits_witness :
  exists wf fw o' nd l c,
    fmap_enumerator (Examples.env None) ["01"] Examples.settings0
      (mkConfig {[ "log_to_file" := PBool true ]}
                {[ "stop_on_first_crash" := PBool false ]}) []
      = Returns (wf, o') /\
    wf_items wf = [fw] /\ In nd (get_all_nodes fw) /\
    item_config nd = Some l /\ read_config o' l = Some c /\
    logging c = {[ "log_to_file" := PBool true ]} /\
    execution c !! "stop_on_first_crash" = Some (PBool false).
Proof.
  destruct (node_config_inherits (Examples.env None) "01"
              Examples.settings0
              (mkConfig {[ "log_to_file" := PBool true ]}
                        {[ "stop_on_first_crash" := PBool false ]}) [])
    as (wf & fw & o' & Hrun & Hits & Hnodes & H).
  destruct (get_all_nodes fw) as [| nd nds] eqn:Hall; [now elim Hnodes |].
  assert (Hin : In nd (nd :: nds)) by now left.
  destruct (H nd Hin) as (l & c & Hl & Hc & Hlog & Hex).
  exists wf, fw, o', nd, l, c.
  rewrite Hall. repeat (split; [assumption |]).
  rewrite Hex. reflexivity.
Defined.

End MoreInstances.

(** * Further properties of the memory budget *)

Section MemoryBudget.
Import Views Fmaps.

(** Rounding to the nearest multiple moves a number by half a step at
    most. *)
Lemma round_half_even_near (m sh : Z) :
  0 <= m -> 0 < sh ->
  2 * Z.abs (round_half_even m sh * 2 ^ sh - m) <= 2 ^ sh.
Proof.
  intros Hm Hsh. unfold round_half_even.
  assert (Hpos : 0 < 2 ^ sh) by (apply Z.pow_pos_nonneg; lia).
  assert (Hhalf : 2 ^ sh = 2 * 2 ^ (sh - 1)).
  { rewrite <- Z.pow_succ_r by lia. f_equal. lia. }
  pose proof (Z.div_mod m (2 ^ sh) ltac:(lia)) as Hdm.
  pose proof (Z.mod_pos_bound m (2 ^ sh) Hpos) as Hr.
  set (q := m / 2 ^ sh) in *. set (r := m mod 2 ^ sh) in *.
  set (h := 2 ^ (sh - 1)) in *.
  destruct (h <? r) eqn:Hlt; cbn [orb].
  - apply Z.ltb_lt in Hlt. nia.
  - apply Z.ltb_ge in Hlt.
    destruct ((r =? h) && Z.odd q) eqn:Htie; nia.
Qed.

(** X17.  The memory budget is a float near the quotient: its numerator
    over 1024 is a multiple of the unit in the last place of the ceiling,
    within 53 bits, and differs from the ceiling by half that unit at
    most. *)
Theorem memory_budget_nearest (m : Z) (q : Q) :
  true_divide_1024 m = Some q ->
  let ulp := 2 ^ Z.max 0 (Z.log2 (Z.abs m) - 52) in
  exists k,
    q = k * ulp # 1024 /\ Z.abs k <= 2 ^ 53 /\
    2 * Z.abs (k * ulp - m) <= ulp.
Proof.
  unfold true_divide_1024. destruct (_ <? _); [| discriminate].
  intros H. injection H as <-. cbv zeta. unfold round53.
  set (a := Z.abs m). set (n := Z.log2 a + 1).
  assert (Ha : 0 <= a) by apply Z.abs_nonneg.
  assert (Hn : 0 < n) by (pose proof (Z.log2_nonneg a); lia).
  assert (Hlt : a < 2 ^ n).
  { destruct (Z.eq_dec a 0) as [-> | Hne]; [apply Z.pow_pos_nonneg; lia |].
    unfold n. replace (Z.log2 a + 1) with (Z.succ (Z.log2 a)) by lia.
    apply Z.log2_spec. lia. }
  destruct (n <=? 53) eqn:Hle.
  - apply Z.leb_le in Hle.
    replace (Z.max 0 (Z.log2 a - 52)) with 0 by lia.
    exists m. rewrite Z.pow_0_r, Z.mul_1_r.
    split; [reflexivity |]. split; [| lia].
    fold a. assert (2 ^ n <= 2 ^ 53) by (apply Z.pow_le_mono_r; lia). lia.
  - apply Z.leb_gt in Hle.
    replace (Z.max 0 (Z.log2 a - 52)) with (n - 53) by lia.
    assert (Hsplit : 2 ^ n = 2 ^ 53 * 2 ^ (n - 53)).
    { rewrite <- Z.pow_add_r by lia. f_equal. lia. }
    assert (Hpos : 0 < 2 ^ (n - 53)) by (apply Z.pow_pos_nonneg; lia).
    pose proof (round_half_even_bound a (n - 53) Ha ltac:(lia)
                  ltac:(rewrite <- Hsplit; exact Hlt)) as Hk.
    pose proof (round_half_even_near a (n - 53) Ha ltac:(lia)) as Hnear.
    exists (Z.sgn m * round_half_even a (n - 53)).
    split; [now rewrite Z.mul_assoc |].
    assert (Hm : m = Z.sgn m * a) by (unfold a; destruct m; cbn; lia).
    assert (Hsg : Z.abs (Z.sgn m) <= 1) by (destruct m; cbn; lia).
    split.
    + rewrite Z.abs_mul. rewrite (Z.abs_eq (round_half_even a (n - 53)));
        nia.
    + replace (Z.sgn m * round_half_even a (n - 53) * 2 ^ (n - 53) - m)
        with (Z.sgn m * (round_half_even a (n - 53) * 2 ^ (n - 53) - a))
        by (rewrite Hm at 3; ring).
      rewrite Z.abs_mul. nia.
Qed.

(** X17 at a ceiling of [2^53 + 1]: the budget is [2^53 / 1024], one
    1024th away from the quotient. *)
Lemma memory_budget_nearest_witness :
  true_divide_1024 (2 ^ 53 + 1) = Some (2 ^ 53 # 1024) /\
  exists k,
    (2 ^ 53 # 1024) = k * 2 # 1024 /\ 2 * Z.abs (k * 2 - (2 ^ 53 + 1)) <= 2.
Proof.
  assert (H : true_divide_1024 (2 ^ 53 + 1) = Some (2 ^ 53 # 1024))
    by (vm_compute; reflexivity).
  split; [exact H |].
  destruct (memory_budget_nearest _ _ H) as (k & Hq & _ & Hnear).
  exists k. split; [exact Hq | exact Hnear].
Defined.

End MemoryBudget.
